(** * hanabi-live: session, shutdown and replay-navigation model

    A shallow embedding of the Go server files [session.go], [http_ws.go],
    the shutdown orchestrator and the session registry globals, and of the
    client file [replay.ts].

    Conventions.
    - Go [int] and [time.Duration]/[time.Time] are [Z] (durations and
      instants in nanoseconds); [uint64] is [N] with the wrap-around at
      [2^64] written out where the code does arithmetic on it.
    - A nil-able pointer is an [option]; Go maps are stdpp [gmap]s.
    - Every call that leaves the modelled files (logger, chat, WebSocket
      transport, HTTP response, other commands) is recorded as an [Event].
    - A goroutine is a [Prog]: a tree of atomic actions on the process-wide
      [World].  [run] executes one goroutine on its own; [gstep] interleaves
      the shutdown goroutine with command goroutines. *)

From Stdlib Require Import ZArith String Ascii List Lia Bool DecimalString Floats.
From stdpp Require Import base option gmap list strings sorting.

Open Scope Z_scope.

(* ===================================================================== *)
(** ** Basic data *)
(* ===================================================================== *)

(** The double-quote character, for messages that quote a name. *)
Definition dq : string := String "034"%char EmptyString.

(** [strconv.Itoa] *)
Definition Itoa (z : Z) : string := NilZero.string_of_int (Z.to_int z).

(** Units of [time.Duration] (nanoseconds). *)
Definition Second : Z := 1000000000.
Definition Minute : Z := 60 * Second.

(** [int(d.Minutes())]: the minutes of a duration as a [float64], converted
    to [int], which truncates toward zero.  [Minutes] adds the whole minutes
    and the fraction of the rest as [float64]s.  Below [2^17] minutes (some
    91 days) in either direction that sum is not rounded to the next whole
    number, and the result is the truncated quotient, which is the model;
    from [2^18] minutes on the sum can be rounded, and the code can return
    a number one further from zero.  [Minutes_exact] is the range on which
    the model is the code; the theorems that state the value carry it as a
    hypothesis. *)
Definition Minutes_int (d : Z) : Z := Z.quot d Minute.

Definition Minutes_exact (d : Z) : Prop := Z.abs d < 2 ^ 17 * Minute.

(** [uint64] arithmetic wraps at [2^64]. *)
Definition uint64_modulus : N := (2 ^ 64)%N.
Definition uint64_add (a b : N) : N := ((a + b) mod uint64_modulus)%N.

(** A [*websocket.Conn]: the identity of one transport. *)
Definition ConnRef := N.

(** [websocket.TextMessage] *)
Definition TextMessage : Z := 1.

(** Go [error] values; [pgx.ErrNoRows] is the one the code compares with. *)
Inductive error :=
| ErrNoRows
| ErrOther (msg : string).

(** The state of a Go channel, as [close] sees it. *)
Inductive ChanState := ChanNil | ChanOpen | ChanClosed.

Module Session.
(** [type Session struct].  [Mutex] is not modelled (a goroutine's atomic
    actions are the unit of interleaving).  The last three fields are not
    in the struct declaration, but [Close] reads and writes them. *)
Record t := mk {
  Conn : option ConnRef;
  Closed : bool;
  SessionID : N;
  UserID : Z;
  Username : string;
  Muted : bool;
  Status : Z;
  TableID : N;
  Friends : gset Z;
  ReverseFriends : gset Z;
  Hyphenated : bool;
  Inactive : bool;
  FakeUser : bool;
  RateLimitAllowance : float;
  RateLimitLastCheck : Z;
  Banned : bool;
  open : bool;
  conn : option ConnRef;
  output : ChanState
}.
End Session.

Module Table.
(** Modelled from the spec: the [Table] type is declared outside the
    modelled files.  "has a unique id, a running flag, a replay flag, a
    player list referencing user ids, and an owner reference". *)
Record t := mk {
  ID : N;
  Running : bool;
  Replay : bool;
  Players : list Z;
  Owner : Z
}.
End Table.

Module CommandData.
(** [CommandData], with the fields the modelled callers set; a field left
    out of a composite literal has its zero value. *)
Record t := mk {
  TableID : N;
  Type_ : Z;
  Target : Z;
  Value : Z;
  NoLock : bool
}.
End CommandData.

(** The payloads handed to [Emit] as [interface{}]. *)
Inductive Data :=
| WarningMessage (Warning : string)
| ErrorMessage (Error : string)
| OtherData (tag : N).

(** The goroutines [shutdown] starts. *)
Inductive Goroutine :=
| go_shutdownXMinutesLeft (minutesLeft : Z)
| go_shutdownWait.

(** Calls that leave the modelled files, in program order. *)
Inductive Event :=
| LogInfo (msg : string)
| LogInfoErr (msg : string) (err : error)
| LogDebug (msg : string)
| LogError (msg : string) (err : option error)
| WsWriteMessage (c : ConnRef) (messageType : Z) (payload : string)
| WsConnClose (c : ConnRef)
| ChanClose
| EvSleep (d : Z)
| BlockSet
| WaitReturned
| NotifySoundLobby (s : Session.t) (sound : string)
| NotifyAllShutdown
| ChatServerSend (msg room : string)
| ChatServerSendAll (msg : string)
| Go (g : Goroutine)
| CommandTableLeave (s : Session.t) (d : CommandData.t)
| CommandAction (s : Session.t) (d : CommandData.t)
| ExecuteScript (name : string)
| HttpError (body : string) (code : Z)
| DeleteCookie
| WsUpgraded
| Printf (msg : string).

(** The process-wide variables of package [main] that the modelled files
    declare or use. *)
Record World := mkWorld {
  sessions : gmap Z Session.t;
  commandWaitGroup : Z;
  shuttingDown : bool;
  blockAllIncomingMessages : bool;
  datetimeShutdownInit : Z;
  tables : gmap N Table.t;
  sessionIDCounter : N;
  clock : Z
}.

Definition set_sessions (v : gmap Z Session.t) (w : World) : World :=
  mkWorld v (commandWaitGroup w) (shuttingDown w) (blockAllIncomingMessages w)
          (datetimeShutdownInit w) (tables w) (sessionIDCounter w) (clock w).
Definition set_commandWaitGroup (v : Z) (w : World) : World :=
  mkWorld (sessions w) v (shuttingDown w) (blockAllIncomingMessages w)
          (datetimeShutdownInit w) (tables w) (sessionIDCounter w) (clock w).
Definition set_shuttingDown (v : bool) (w : World) : World :=
  mkWorld (sessions w) (commandWaitGroup w) v (blockAllIncomingMessages w)
          (datetimeShutdownInit w) (tables w) (sessionIDCounter w) (clock w).
Definition set_blockAllIncomingMessages (v : bool) (w : World) : World :=
  mkWorld (sessions w) (commandWaitGroup w) (shuttingDown w) v
          (datetimeShutdownInit w) (tables w) (sessionIDCounter w) (clock w).
Definition set_datetimeShutdownInit (v : Z) (w : World) : World :=
  mkWorld (sessions w) (commandWaitGroup w) (shuttingDown w) (blockAllIncomingMessages w)
          v (tables w) (sessionIDCounter w) (clock w).
Definition set_tables (v : gmap N Table.t) (w : World) : World :=
  mkWorld (sessions w) (commandWaitGroup w) (shuttingDown w) (blockAllIncomingMessages w)
          (datetimeShutdownInit w) v (sessionIDCounter w) (clock w).
Definition set_sessionIDCounter (v : N) (w : World) : World :=
  mkWorld (sessions w) (commandWaitGroup w) (shuttingDown w) (blockAllIncomingMessages w)
          (datetimeShutdownInit w) (tables w) v (clock w).

(** What the modelled files take from the rest of the repository and from
    libraries: constants, and the functions whose bodies are elsewhere.  A
    function of the world is given as the change it makes to it. *)
Class Externals := {
  ShutdownTimeout : Z;
  StatusLobby : Z;
  RateLimitRate : float;
  DefaultErrorMsg : string;
  ActionTypeEndGame : Z;
  EndConditionTerminated : Z;
  GOOS : string;
  (** [json.Marshal]: the encoding, or the error *)
  json_Marshal : Data -> string + error;
  (** the [error] result of [Conn.WriteMessage] *)
  WriteMessage : ConnRef -> Z -> string -> option error;
  GetOwnerSession : Table.t -> Session.t;
  GetRoomName : Table.t -> string;
  commandTableLeave : Session.t -> CommandData.t -> World -> World;
  commandAction : Session.t -> CommandData.t -> World -> World;
  getCurrentTimestamp : Z -> string;
  (** the [error] result of [executeScript] *)
  executeScript : string -> option error;
  (** the world a goroutine finds when [time.Sleep d] returns: the other
      goroutines have run in between *)
  wake : Z -> World -> World
}.

(* ===================================================================== *)
(** ** Goroutines as trees of atomic actions *)
(* ===================================================================== *)

(** An atomic action either is enabled, and then yields a value, the next
    world and the calls it made, or is blocked ([None]). *)
Definition Action (X : Type) : Type := World -> option (X * World * list Event).

Inductive Prog (A : Type) : Type :=
| Ret (a : A)
| Step {X : Type} (act : Action X) (k : X -> Prog A).
Arguments Ret {A} a.
Arguments Step {A X} act k.

Fixpoint bind {A B : Type} (p : Prog A) (f : A -> Prog B) : Prog B :=
  match p with
  | Ret a => f a
  | Step act k => Step act (fun x => bind (k x) f)
  end.

Declare Scope prog_scope.
Delimit Scope prog_scope with prog.
Bind Scope prog_scope with Prog.
Notation "x <- p ; q" := (bind p (fun x => q))
  (at level 20, p at level 100, q at level 200) : prog_scope.
Notation "p ;; q" := (bind p (fun _ => q))
  (at level 100, q at level 200, right associativity) : prog_scope.
Open Scope prog_scope.

(** One atomic action as a program. *)
Definition atomic {X : Type} (act : Action X) : Prog X := Step act Ret.

(** [for _, x := range l { body }] *)
Fixpoint for_each {X : Type} (l : list X) (body : X -> Prog unit) : Prog unit :=
  match l with
  | [] => Ret tt
  | x :: l' => body x ;; for_each l' body
  end.

(** The result of running one goroutine on its own: it returns, or it stays
    parked at a blocked action. *)
Inductive Res (A : Type) : Type :=
| Done (a : A) (w : World) (tr : list Event)
| Parked (w : World) (tr : list Event).
Arguments Done {A} a w tr.
Arguments Parked {A} w tr.

Definition prepend {A : Type} (evs : list Event) (r : Res A) : Res A :=
  match r with
  | Done a w tr => Done a w (evs ++ tr)
  | Parked w tr => Parked w (evs ++ tr)
  end.

Fixpoint run {A : Type} (p : Prog A) (w : World) : Res A :=
  match p with
  | Ret a => Done a w []
  | Step act k =>
      match act w with
      | None => Parked w []
      | Some (x, w', evs) => prepend evs (run (k x) w')
      end
  end.

Definition res_trace {A : Type} (r : Res A) : list Event :=
  match r with Done _ _ tr => tr | Parked _ tr => tr end.
Definition res_world {A : Type} (r : Res A) : World :=
  match r with Done _ w _ => w | Parked w _ => w end.
Definition res_value {A : Type} (r : Res A) : option A :=
  match r with Done a _ _ => Some a | Parked _ _ => None end.

(** Primitive actions. *)
Definition emit (evs : list Event) : Prog unit :=
  atomic (fun w => Some (tt, w, evs)).
Definition read {X : Type} (f : World -> X) : Prog X :=
  atomic (fun w => Some (f w, w, [])).
Definition update (f : World -> World) (evs : list Event) : Prog unit :=
  atomic (fun w => Some (tt, f w, evs)).

(* ===================================================================== *)
(** ** session.go *)
(* ===================================================================== *)

(** The outcome of a call that may panic. *)
Inductive Outcome (A : Type) : Type :=
| Returned (a : A)
| Panicked (why : string).
Arguments Returned {A} a.
Arguments Panicked {A} why.

Definition set_open (v : bool) (s : Session.t) : Session.t :=
  Session.mk (Session.Conn s) (Session.Closed s) (Session.SessionID s) (Session.UserID s)
    (Session.Username s) (Session.Muted s) (Session.Status s) (Session.TableID s)
    (Session.Friends s) (Session.ReverseFriends s) (Session.Hyphenated s)
    (Session.Inactive s) (Session.FakeUser s) (Session.RateLimitAllowance s)
    (Session.RateLimitLastCheck s) (Session.Banned s)
    v (Session.conn s) (Session.output s).
Definition set_output (v : ChanState) (s : Session.t) : Session.t :=
  Session.mk (Session.Conn s) (Session.Closed s) (Session.SessionID s) (Session.UserID s)
    (Session.Username s) (Session.Muted s) (Session.Status s) (Session.TableID s)
    (Session.Friends s) (Session.ReverseFriends s) (Session.Hyphenated s)
    (Session.Inactive s) (Session.FakeUser s) (Session.RateLimitAllowance s)
    (Session.RateLimitLastCheck s) (Session.Banned s)
    (Session.open s) (Session.conn s) v.

(** [func (s *Session) Close()].  The guard reads [s.Closed]; the body
    clears [s.open], closes [s.conn] and closes the channel [s.output].
    Calling a method on a nil [*websocket.Conn] and closing a nil or an
    already closed channel panic.  The result is the session as the call
    leaves it, with the calls made up to the return or the panic. *)
Definition Close (s : Session.t) : Outcome Session.t * list Event :=
  if Session.Closed s then (Returned s, [])
  else
    let s1 := set_open false s in
    match Session.conn s1 with
    | None => (Panicked "nil pointer dereference", [])
    | Some c =>
        match Session.output s1 with
        | ChanOpen => (Returned (set_output ChanClosed s1), [WsConnClose c; ChanClose])
        | ChanClosed => (Panicked "close of closed channel", [WsConnClose c])
        | ChanNil => (Panicked "close of nil channel", [WsConnClose c])
        end
    end.

Section SessionFunctions.
Context `{Ext : Externals}.

(** [func NewSession() *Session]: [atomic.AddUint64] adds one, wrapping at
    [2^64], and returns the new value; [time.Now()] reads the clock; the
    fields not listed have their zero values. *)
Definition NewSession_at (w : World) : Session.t * World :=
  let id := uint64_add (sessionIDCounter w) 1 in
  (Session.mk None false id (-1) EmptyString false StatusLobby 0%N
     ∅ ∅ false false false RateLimitRate (clock w) false
     false None ChanNil,
   set_sessionIDCounter id w).

Definition NewSession : Prog Session.t :=
  atomic (fun w => let '(s, w') := NewSession_at w in Some (s, w', [])).

Definition set_fake (id : Z) (name : string) (s : Session.t) : Session.t :=
  Session.mk (Session.Conn s) (Session.Closed s) (Session.SessionID s) id
    name (Session.Muted s) (Session.Status s) (Session.TableID s)
    (Session.Friends s) (Session.ReverseFriends s) (Session.Hyphenated s)
    (Session.Inactive s) true (Session.RateLimitAllowance s)
    (Session.RateLimitLastCheck s) (Session.Banned s)
    (Session.open s) (Session.conn s) (Session.output s).

(** [func NewFakeSession(id int, name string) *Session] *)
Definition NewFakeSession (id : Z) (name : string) : Prog Session.t :=
  s <- NewSession ;
  Ret (set_fake id name s).

(** [func (s *Session) Emit(command string, d interface{})] *)
Definition Emit (s : option Session.t) (command : string) (d : Data) : list Event :=
  match s with
  | None => []
  | Some s =>
      match Session.Conn s with
      | None => []
      | Some c =>
          match json_Marshal d with
          | inr err =>
              [LogError "Failed to marshal data when writing to a WebSocket session:" (Some err)]
          | inl ds =>
              let msg := command +:+ " " +:+ ds in
              WsWriteMessage c TextMessage msg ::
              match WriteMessage c TextMessage msg with
              | Some err =>
                  [LogError ("Failed to write to the session of user " +:+ dq +:+
                             Session.Username s +:+ dq +:+ ":") (Some err)]
              | None => []
              end
          end
      end
  end.

(** [func (s *Session) Warning(message string)]; the receiver is
    dereferenced, so it is not nil. *)
Definition Warning (s : Session.t) (message : string) : list Event :=
  let message := if String.eqb message EmptyString then DefaultErrorMsg else message in
  LogInfo ("Warning - " +:+ message +:+ " - " +:+ Session.Username s) ::
  Emit (Some s) "warning" (WarningMessage message).

(** [func (s *Session) Error(message string)] *)
Definition Error (s : Session.t) (message : string) : list Event :=
  let message := if String.eqb message EmptyString then DefaultErrorMsg else message in
  LogInfo ("Error - " +:+ message +:+ " - " +:+ Session.Username s) ::
  Emit (Some s) "error" (ErrorMessage message).

(** [n] calls of [NewSession] in a row: the sessions in the order they were
    returned. *)
Fixpoint NewSessions (n : nat) (w : World) : list Session.t * World :=
  match n with
  | O => ([], w)
  | S n' =>
      let '(s, w1) := NewSession_at w in
      let '(l, w2) := NewSessions n' w1 in
      (s :: l, w2)
  end.

End SessionFunctions.

(* ===================================================================== *)
(** ** The shutdown orchestrator *)
(* ===================================================================== *)

Section Shutdown.
Context `{Ext : Externals}.

Definition logger_Info (msg : string) : Prog unit := emit [LogInfo msg].
Definition logger_Error (msg : string) (err : option error) : Prog unit :=
  emit [LogError msg err].
Definition chatServerSend (msg room : string) : Prog unit :=
  emit [ChatServerSend msg room].
Definition chatServerSendAll (msg : string) : Prog unit :=
  emit [ChatServerSendAll msg].
Definition notifyAllShutdown : Prog unit := emit [NotifyAllShutdown].

(** [time.Sleep(d)] *)
Definition time_Sleep (d : Z) : Prog unit := update (wake d) [EvSleep d].

(** [tables.GetList()] and [sessions.GetList()]: a snapshot of the values.
    The loops below read [t.Running], [t.Replay] and [t.ID] of a snapshot
    before the goroutine itself changes any table; the room names are read
    after the leave commands, and are taken from the snapshot too (a
    table's room name does not change). *)
Definition tables_GetList : Prog (list Table.t) :=
  read (fun w => (map_to_list (tables w)).*2).
Definition sessions_GetList : Prog (list Session.t) :=
  read (fun w => (map_to_list (sessions w)).*2).

(** Modelled from the spec: [getTableAndLock(ctx, nil, id, true)] is
    declared outside the modelled files.  "looks up the table ..., acquires
    its lock ..., and reports TableNotFound if the id is absent". *)
Definition getTableAndLock (id : N) : Prog (option Table.t) :=
  read (fun w => tables w !! id).

(** The test [t.Running && !t.Replay] of [countActiveTables] and
    [shutdownWait]. *)
Definition is_active (t : Table.t) : bool := Table.Running t && negb (Table.Replay t).

(** [func countActiveTables(ctx context.Context) int] *)
Definition countActiveTables : Prog Z :=
  tableList <- tables_GetList ;
  Ret (fold_left (fun numTables t => if is_active t then numTables + 1 else numTables)
                 tableList 0).

(** [func waitForAllWebSocketCommandsToFinish()]: [Wait] is enabled only
    when the counter of the wait group is zero. *)
Definition commandWaitGroup_Wait : Prog unit :=
  atomic (fun w => if commandWaitGroup w =? 0 then Some (tt, w, [WaitReturned]) else None).

Definition waitForAllWebSocketCommandsToFinish : Prog unit :=
  logger_Info "Waiting for all ongoing WebSocket commands to finish execution..." ;;
  update (set_blockAllIncomingMessages true) [BlockSet] ;;
  commandWaitGroup_Wait ;;
  logger_Info "All WebSocket commands have completed.".

Definition shutdown_message : string :=
  "The server is going down for scheduled maintenance.<br />" +:+
  "The server might be down for a while; " +:+
  "please see the Discord server for more specific updates.".

(** What [shutdownImmediate] does after the sessions are notified. *)
Definition shutdownImmediate_stop : Prog unit :=
  ts <- read (fun w => getCurrentTimestamp (clock w)) ;
  let msg := "The server successfully shut down at: " +:+ ts in
  chatServerSend msg "lobby" ;;
  if String.eqb GOOS "windows" then logger_Info "Manually kill the server now."
  else
    emit [ExecuteScript "stop.sh"] ;;
    match executeScript "stop.sh" with
    | Some err =>
        logger_Error ("Failed to execute the " +:+ dq +:+ "stop.sh" +:+ dq +:+ " script:")
                     (Some err)
    | None => Ret tt
    end.

(** [func shutdownImmediate(ctx context.Context)] *)
Definition shutdownImmediate : Prog unit :=
  logger_Info "Initiating an immediate server shutdown." ;;
  waitForAllWebSocketCommandsToFinish ;;
  sessionList <- sessions_GetList ;
  for_each sessionList (fun s =>
    emit (Error s shutdown_message) ;;
    emit [NotifySoundLobby s "shutdown"]) ;;
  shutdownImmediate_stop.

(** [func shutdown(ctx context.Context)] *)
Definition shutdown : Prog unit :=
  update (set_shuttingDown true) [] ;;
  update (fun w => set_datetimeShutdownInit (clock w) w) [] ;;
  numGames <- countActiveTables ;
  logger_Info ("Initiating a graceful server shutdown (with " +:+ Itoa numGames +:+
               " active games).") ;;
  if numGames =? 0 then shutdownImmediate
  else
    notifyAllShutdown ;;
    let numMinutes := Itoa (Minutes_int ShutdownTimeout) in
    chatServerSendAll ("The server will shutdown in " +:+ numMinutes +:+ " minutes.") ;;
    emit [Go (go_shutdownXMinutesLeft 5)] ;;
    emit [Go (go_shutdownXMinutesLeft 10)] ;;
    emit [Go go_shutdownWait].

(** The second loop of the [minutesLeft == 5] branch of
    [shutdownXMinutesLeft]. *)
Definition leave_unstarted (unstartedTableIDs : list N) : Prog unit :=
  for_each unstartedTableIDs (fun unstartedTableID =>
    r <- getTableAndLock unstartedTableID ;
    match r with
    | None => Ret tt
    | Some t =>
        let s := GetOwnerSession t in
        let d := CommandData.mk (Table.ID t) 0 0 0 true in
        update (commandTableLeave s d) [CommandTableLeave s d]
    end).

(** [func shutdownXMinutesLeft(ctx context.Context, minutesLeft int)] *)
Definition shutdownXMinutesLeft (minutesLeft : Z) : Prog unit :=
  time_Sleep (ShutdownTimeout - minutesLeft * Minute) ;;
  notSet <- read (fun w => negb (shuttingDown w)) ;
  if notSet : bool then Ret tt
  else
    tableList <- tables_GetList ;
    (if minutesLeft =? 5 then
       let unstartedTableIDs :=
         map Table.ID (List.filter (fun t => negb (Table.Running t)) tableList) in
       leave_unstarted unstartedTableIDs
     else Ret tt) ;;
    let msg := "The server will shutdown in " +:+ Itoa minutesLeft +:+ " minutes." in
    chatServerSend msg "lobby" ;;
    let roomNames := map GetRoomName tableList in
    let msg := msg +:+ " Finish your game soon or it will be automatically terminated!" in
    for_each roomNames (fun roomName => chatServerSend msg roomName).

(** The second loop of the deadline branch of [shutdownWait]. *)
Definition terminate_tables (tableIDsToTerminate : list N) : Prog unit :=
  for_each tableIDsToTerminate (fun tableIDToTerminate =>
    r <- getTableAndLock tableIDToTerminate ;
    match r with
    | None => Ret tt
    | Some t =>
        let s := GetOwnerSession t in
        let d := CommandData.mk (Table.ID t) ActionTypeEndGame (-1) EndConditionTerminated true in
        update (commandAction s d) [CommandAction s d]
    end).

(** How one pass through the body of a [for] loop ends. *)
Inductive LoopExit := Break | Continue.

(** One pass through the body of the loop of [shutdownWait]. *)
Definition shutdownWait_body : Prog LoopExit :=
  notSet <- read (fun w => negb (shuttingDown w)) ;
  if notSet : bool then
    logger_Info "The shutdown was aborted." ;; Ret Break
  else
    numActiveTables <- countActiveTables ;
    if numActiveTables =? 0 then
      time_Sleep (Second * 10) ;;
      logger_Info "There are 0 active tables left." ;;
      shutdownImmediate ;;
      Ret Break
    else
      since <- read (fun w => clock w - datetimeShutdownInit w) ;
      (if (numActiveTables >? 0) && (since >=? ShutdownTimeout) then
         tableList <- tables_GetList ;
         let tableIDsToTerminate := map Table.ID (List.filter is_active tableList) in
         terminate_tables tableIDsToTerminate
       else Ret tt) ;;
      time_Sleep Second ;;
      Ret Continue.

(** [func shutdownWait(ctx context.Context)]: the loop has no bound; [fuel]
    passes are run, and [None] says that the loop is still running. *)
Fixpoint shutdownWait (fuel : nat) : Prog (option unit) :=
  match fuel with
  | O => Ret None
  | S fuel' =>
      e <- shutdownWait_body ;
      match e with
      | Break => Ret (Some tt)
      | Continue => shutdownWait fuel'
      end
  end.

(** [func cancel(ctx context.Context)] *)
Definition cancel : Prog unit :=
  update (set_shuttingDown false) [] ;;
  notifyAllShutdown ;;
  chatServerSendAll "Server shutdown has been canceled.".

(** [func checkImminentShutdown(s *Session) bool] *)
Definition checkImminentShutdown (s : Session.t) : Prog bool :=
  notSet <- read (fun w => negb (shuttingDown w)) ;
  if notSet : bool then Ret false
  else
    timeLeft <- read (fun w => ShutdownTimeout - (clock w - datetimeShutdownInit w)) ;
    let minutesLeft := Minutes_int timeLeft in
    if minutesLeft <=? 5 then
      let msg := "The server is shutting down " in
      let msg :=
        if minutesLeft =? 0 then msg +:+ "momentarily"
        else if minutesLeft =? 1 then msg +:+ "in 1 minute"
        else msg +:+ "in " +:+ Itoa minutesLeft +:+ " minutes" in
      let msg := msg +:+ ". You cannot start any new games for the time being." in
      emit (Warning s msg) ;;
      Ret true
    else Ret false.

End Shutdown.

(* ===================================================================== *)
(** ** The shutdown goroutine among command goroutines *)
(* ===================================================================== *)

(** What the other goroutines may do between two atomic actions of the
    shutdown goroutine. *)
Inductive EnvMove :=
| GateEnter
| GateRelease
| CommandMutates (ss : gmap Z Session.t) (tb : gmap N Table.t)
| Connects (ss : gmap Z Session.t).

(** Modelled from the spec: the command dispatcher that calls
    [commandWaitGroup.Add] and [Done] is outside the modelled files.
    "enter(): if the global block-new-commands flag is set, fails with
    ServerDraining; otherwise increments the in-flight counter"; "Scoped
    release: decrements the in-flight counter"; "each inbound command passes
    through the Admission Gate before touching session/table state".  A
    connection being registered or removed changes the session map at any
    time. *)
Definition env_move (m : EnvMove) (w : World) : option World :=
  match m with
  | GateEnter =>
      if blockAllIncomingMessages w then None
      else Some (set_commandWaitGroup (commandWaitGroup w + 1) w)
  | GateRelease =>
      if 0 <? commandWaitGroup w
      then Some (set_commandWaitGroup (commandWaitGroup w - 1) w)
      else None
  | CommandMutates ss tb =>
      if 0 <? commandWaitGroup w then Some (set_tables tb (set_sessions ss w)) else None
  | Connects ss => Some (set_sessions ss w)
  end.

(** A scheduler's choice: the next atomic action of the goroutine, or a
    move of the others. *)
Inductive Move :=
| Thread
| Env (m : EnvMove).

Definition Config (A : Type) : Type := Prog A * World.

(** One step of the interleaving, with the calls it made; [None] when the
    chosen move is not enabled. *)
Definition gstep {A : Type} (m : Move) (c : Config A) : option (Config A * list Event) :=
  match m with
  | Thread =>
      match fst c with
      | Ret _ => None
      | Step act k =>
          match act (snd c) with
          | Some (x, w', evs) => Some ((k x, w'), evs)
          | None => None
          end
      end
  | Env e =>
      match env_move e (snd c) with
      | Some w' => Some ((fst c, w'), [])
      | None => None
      end
  end.

(** A schedule run from a configuration: where it ends and the calls made
    on the way. *)
Fixpoint gexec {A : Type} (ms : list Move) (c : Config A) : option (Config A * list Event) :=
  match ms with
  | [] => Some (c, [])
  | m :: ms' =>
      match gstep m c with
      | None => None
      | Some (c1, evs) =>
          match gexec ms' c1 with
          | None => None
          | Some (c2, tr) => Some (c2, evs ++ tr)
          end
      end
  end.

(** A call that tells a session of the shutdown. *)
Definition notifies (e : Event) : bool :=
  match e with
  | WsWriteMessage _ _ _ => true
  | NotifySoundLobby _ _ => true
  | _ => false
  end.

(** A program none of whose actions touches the admission gate. *)
Fixpoint quiet {A : Type} (p : Prog A) : Prop :=
  match p with
  | Ret _ => True
  | Step act k =>
      (forall w x w' evs, act w = Some (x, w', evs) ->
         blockAllIncomingMessages w' = blockAllIncomingMessages w /\
         commandWaitGroup w' = commandWaitGroup w) /\
      (forall x, quiet (k x))
  end.

(* ===================================================================== *)
(** ** http_ws.go *)
(* ===================================================================== *)

(** What [session.Get("userID")] returns: nil, an [int], or a value of
    another type. *)
Inductive CookieValue :=
| CookieNil
| CookieInt (v : Z)
| CookieOther.

(** One handshake request, as the handler sees it through the calls it
    makes: the result of [net.SplitHostPort(r.RemoteAddr)], the cookie, the
    result of [upgrader.Upgrade], and the results of [conn.ReadMessage] in
    order. *)
Record Request := mkRequest {
  SplitHostPort : string + error;
  cookie_userID : CookieValue;
  Upgrade : ConnRef + error;
  ReadMessage : nat -> string * option error
}.

(** The database lookups of [models]. *)
Class Models := {
  BannedIPs_Check : string -> bool + error;
  MutedIPs_Check : string -> bool + error;
  Users_GetUsername : Z -> string + error;
  UserFriends_GetMap : Z -> gset Z + error;
  UserReverseFriends_GetMap : Z -> gset Z + error;
  UserSettings_IsHyphenated : Z -> bool + error
}.

(** How a call of the handler stands: it returned, it panicked, or it is
    in its read loop with the session it made. *)
Inductive Handled :=
| HReturned
| HPanicked (why : string)
| HReading (s : Session.t).

(** [http.StatusText] at the three codes used. *)
Definition StatusInternalServerError : Z := 500.
Definition StatusUnauthorized : Z := 401.
Definition StatusBadRequest : Z := 400.
Definition StatusText (code : Z) : string :=
  if code =? 500 then "Internal Server Error"
  else if code =? 401 then "Unauthorized"
  else if code =? 400 then "Bad Request"
  else EmptyString.

Definition error_eqb (a b : error) : bool :=
  match a, b with
  | ErrNoRows, ErrNoRows => true
  | ErrOther x, ErrOther y => String.eqb x y
  | _, _ => false
  end.

(** The assignments to the fields of the new session in [httpWS]. *)
Definition set_identity (c : ConnRef) (userID : Z) (username : string) (muted : bool)
    (friends reverseFriends : gset Z) (hyphenated : bool) (s : Session.t) : Session.t :=
  Session.mk (Some c) (Session.Closed s) (Session.SessionID s) userID
    username muted (Session.Status s) (Session.TableID s)
    friends reverseFriends hyphenated
    (Session.Inactive s) (Session.FakeUser s) (Session.RateLimitAllowance s)
    (Session.RateLimitLastCheck s) (Session.Banned s)
    (Session.open s) (Session.conn s) (Session.output s).

Section HttpWS.
Context `{Ext : Externals} `{Mod : Models}.

(** [func httpWSInternalError(c *gin.Context, msg string, err error)] *)
Definition httpWSInternalError (msg : string) (err : error) : Prog unit :=
  logger_Error msg (Some err) ;;
  emit [HttpError (StatusText StatusInternalServerError) StatusInternalServerError] ;;
  emit [DeleteCookie].

(** [func httpWSDeny(c *gin.Context, msg string, reason string)] *)
Definition httpWSDeny (msg reason : string) : Prog unit :=
  logger_Info msg ;;
  let reason := if String.eqb reason EmptyString then StatusText StatusUnauthorized else reason in
  emit [HttpError reason StatusUnauthorized] ;;
  emit [DeleteCookie].

(** The [for] loop at the end of [httpWS]; it has no exit, [fuel] passes
    are run. *)
Fixpoint read_loop (r : Request) (i : nat) (fuel : nat) : Prog unit :=
  match fuel with
  | O => Ret tt
  | S fuel' =>
      let '(msg, err) := ReadMessage r i in
      match err with
      | Some e => logger_Error EmptyString (Some e)
      | None => Ret tt
      end ;;
      emit [Printf (msg +:+ String "010"%char EmptyString)] ;;
      read_loop r (S i) fuel'
  end.

(** [func httpWS(c *gin.Context)].  The deferred [conn.Close()] never runs:
    the read loop does not return. *)
Definition httpWS (r : Request) (fuel : nat) : Prog Handled :=
  match SplitHostPort r with
  | inr err =>
      httpWSInternalError "Failed to parse the IP address:" err ;; Ret HReturned
  | inl ip =>
  emit [LogDebug ("Entered the " +:+ dq +:+ "httpWS()" +:+ dq +:+ " function for IP: " +:+ ip)] ;;
  match BannedIPs_Check ip with
  | inr err =>
      httpWSInternalError
        ("Failed to check to see if the IP " +:+ dq +:+ ip +:+ dq +:+ " is banned:") err ;;
      Ret HReturned
  | inl true =>
      httpWSDeny
        ("IP " +:+ dq +:+ ip +:+ dq +:+
         " tried to establish a WebSocket connection, but they are banned.")
        ("Your IP address has been banned. " +:+
         "Please contact an administrator if you think this is a mistake.") ;;
      Ret HReturned
  | inl false =>
  match MutedIPs_Check ip with
  | inr err =>
      httpWSInternalError
        ("Failed to check to see if the IP " +:+ dq +:+ ip +:+ dq +:+ " is muted:") err ;;
      Ret HReturned
  | inl muted =>
  match cookie_userID r with
  | CookieNil =>
      httpWSDeny
        ("Unauthorized WebSocket handshake detected from " +:+ dq +:+ ip +:+ dq +:+ ". " +:+
         "This likely means that their cookie has expired.") EmptyString ;;
      Ret HReturned
  | CookieOther => Ret (HPanicked "interface conversion: interface {} is not int")
  | CookieInt userID =>
  match Users_GetUsername userID with
  | inr err =>
      if error_eqb err ErrNoRows then
        httpWSDeny
          ("User from " +:+ dq +:+ ip +:+ dq +:+ " " +:+
           "tried to login with a cookie with an orphaned user ID of " +:+ Itoa userID +:+
           ". Deleting their cookie.") EmptyString ;;
        Ret HReturned
      else
        httpWSInternalError
          ("Failed to get the username for user " +:+ Itoa userID +:+ ":") err ;;
        Ret HReturned
  | inl username =>
  match UserFriends_GetMap userID with
  | inr err =>
      httpWSInternalError
        ("Failed to get the friend map for user " +:+ dq +:+ username +:+ dq +:+ ":") err ;;
      Ret HReturned
  | inl friendsMap =>
  match UserReverseFriends_GetMap userID with
  | inr err =>
      httpWSInternalError
        ("Failed to get the reverse friend map for user " +:+ dq +:+ username +:+ dq +:+ ":")
        err ;;
      Ret HReturned
  | inl reverseFriendsMap =>
  match UserSettings_IsHyphenated userID with
  | inr err =>
      httpWSInternalError
        ("Failed to get the Hyphen-ated setting for user " +:+ dq +:+ username +:+ dq +:+ ":")
        err ;;
      Ret HReturned
  | inl hyphenated =>
  logger_Info ("User " +:+ dq +:+ username +:+ dq +:+
               " is establishing a WebSocket connection.") ;;
  match Upgrade r with
  | inr err =>
      emit [LogInfoErr ("Failed to upgrade the HTTP connection for user " +:+ dq +:+
                        username +:+ dq +:+ ":") err] ;;
      emit [HttpError (StatusText StatusBadRequest) StatusBadRequest] ;;
      emit [DeleteCookie] ;;
      Ret HReturned
  | inl conn =>
  emit [WsUpgraded] ;;
  s <- NewSession ;
  let s := set_identity conn userID username muted friendsMap reverseFriendsMap hyphenated s in
  read_loop r 0 fuel ;;
  Ret (HReading s)
  end end end end end end end end end.

Definition is_inr {A B : Type} (x : A + B) : bool :=
  match x with inl _ => false | inr _ => true end.

(** The ways a handshake fails: the address does not parse; the IP is
    banned; a ban, mute, username, friends or settings lookup fails (an
    orphaned user id is a failed username lookup); the cookie has no user
    id; the upgrade fails.  [true] when a check that the handler reaches
    does not pass. *)
Definition handshake_fails (r : Request) : bool :=
  match SplitHostPort r with
  | inr _ => true
  | inl ip =>
      is_inr (BannedIPs_Check ip)
      || match BannedIPs_Check ip with inl b => b | inr _ => false end
      || is_inr (MutedIPs_Check ip)
      || match cookie_userID r with
         | CookieNil => true
         | CookieOther => false
         | CookieInt userID =>
             is_inr (Users_GetUsername userID)
             || is_inr (UserFriends_GetMap userID)
             || is_inr (UserReverseFriends_GetMap userID)
             || is_inr (UserSettings_IsHyphenated userID)
             || is_inr (Upgrade r)
         end
  end.

End HttpWS.

(* ===================================================================== *)
(** ** replay.ts *)
(* ===================================================================== *)

Module Replay.

(** A JS [number] as the file computes with it: a whole number (segments
    and players are counted), [NaN], or an infinity.  The last three are
    what a division by zero yields, as the divisions by the final segment
    in [barClick] and [barDrag] do when the final segment is 0 or null. *)
Inductive number :=
| Finite (z : Z)
| NaN
| Infinity (negative : bool).

(** [a + b], [-a] and [a - b] *)
Definition num_add (a b : number) : number :=
  match a, b with
  | NaN, _ | _, NaN => NaN
  | Finite x, Finite y => Finite (x + y)
  | Infinity s, Finite _ | Finite _, Infinity s => Infinity s
  | Infinity s, Infinity s' => if Bool.eqb s s' then Infinity s else NaN
  end.

Definition num_neg (a : number) : number :=
  match a with
  | Finite x => Finite (- x)
  | NaN => NaN
  | Infinity s => Infinity (negb s)
  end.

Definition num_sub (a b : number) : number := num_add a (num_neg b).

(** [a < b]: false when either side is [NaN]. *)
Definition num_ltb (a b : number) : bool :=
  match a, b with
  | Finite x, Finite y => x <? y
  | Finite _, Infinity negative => negb negative
  | Infinity negative, Finite _ => negative
  | Infinity s, Infinity s' => s && negb s'
  | _, _ => false
  end.

(** [Math.min(a, b)] and [Math.max(a, b)]: [NaN] when either argument is. *)
Definition Math_min (a b : number) : number :=
  match a, b with
  | NaN, _ | _, NaN => NaN
  | _, _ => if num_ltb b a then b else a
  end.

Definition Math_max (a b : number) : number :=
  match a, b with
  | NaN, _ | _, NaN => NaN
  | _, _ => if num_ltb a b then b else a
  end.

(** [state.replay] *)
Record ReplayState := mkReplay {
  active : bool;
  segment : number;
  sharedSegment : number;
  useSharedSegments : bool
}.

(** The part of the store's state that the file reads.
    [state.ongoingGame.turn.segment] is [number | null]. *)
Record State := mkState {
  replay : ReplayState;
  turn_segment : option number
}.

(** The fields of [globals] that the file reads besides the store.
    [globals.options.numPlayers] is the number of players of the game. *)
Record Globals := mkGlobals {
  hypothetical : bool;
  sharedReplay : bool;
  amSharedReplayLeader : bool;
  numPlayers : Z
}.

(** The actions the file dispatches. *)
Inductive Action :=
| replayEnter (segment : number)
| replayExit
| replaySegment (segment : number)
| replaySharedSegment (segment : option number)
| replayUseSharedSegments (useSharedSegments : bool).

(** The store: its state and the actions dispatched to it so far, oldest
    first. *)
Record Store := mkStore {
  getState : State;
  dispatched : list Action
}.

(** [ToNumber] on [number | null]: [null] is [0]. *)
Definition ToNumber (v : option number) : number :=
  match v with
  | Some x => x
  | None => Finite 0
  end.

(** [const clamp = (n, min, max) => Math.max(min, Math.min(n, max))] *)
Definition clamp (n min max : number) : number := Math_max min (Math_min n max).

(** [a === b] for [a : number | null] and [b : number]: [NaN] is equal to
    nothing, itself included. *)
Definition strict_eq (a : option number) (b : number) : bool :=
  match a, b with
  | Some (Finite x), Finite y => x =? y
  | Some (Infinity s), Infinity s' => Bool.eqb s s'
  | _, _ => false
  end.

Section Navigation.
(** The store's reducer is outside the file. *)
Variable reducer : State -> Action -> State.
Variable globals : Globals.

(** [globals.store!.dispatch(action)] *)
Definition dispatch (a : Action) (st : Store) : Store :=
  mkStore (reducer (getState st) a) (dispatched st ++ [a]).

(** [export const enter = (customSegment?: number) => ...] *)
Definition enter (customSegment : option number) (st : Store) : Store :=
  let state := getState st in
  if active (replay state) then st
  else
    let segment :=
      match customSegment with
      | Some c => c
      | None => match turn_segment state with Some t => t | None => Finite 0 end
      end in
    dispatch (replayEnter segment) st.

(** [export const exit = () => ...] *)
Definition exit (st : Store) : Store :=
  if negb (active (replay (getState st))) then st
  else dispatch replayExit st.

(** [export const getCurrentReplaySegment = () => ...] *)
Definition getCurrentReplaySegment (st : Store) : option number :=
  let state := getState st in
  let finalSegment := turn_segment state in
  if active (replay state) then Some (segment (replay state)) else finalSegment.

(** [export const goToSegment = (segment, breakFree = false, force = false) => ...] *)
Definition goToSegment (segment : number) (breakFree force : bool) (st : Store) : Store :=
  let state := getState st in
  let finalSegment := turn_segment state in
  let currentSegment := getCurrentReplaySegment st in
  let newSegment := clamp segment (Finite 0) (ToNumber finalSegment) in
  if strict_eq currentSegment newSegment then st
  else if hypothetical globals && negb force then st
  else
    let st := enter (Some newSegment) st in
    let st :=
      if sharedReplay globals && breakFree && useSharedSegments (replay state)
         && negb (amSharedReplayLeader globals)
      then dispatch (replayUseSharedSegments false) st
      else st in
    let st := dispatch (replaySegment newSegment) st in
    if sharedReplay globals && amSharedReplayLeader globals && useSharedSegments (replay state)
    then dispatch (replaySharedSegment (Some newSegment)) st
    else st.

(** [export const back = (breakFree = true) => ...] *)
Definition back (breakFree : bool) (st : Store) : Store :=
  goToSegment (num_sub (ToNumber (getCurrentReplaySegment st)) (Finite 1)) breakFree false st.

(** [export const forward = () => ...] *)
Definition forward (st : Store) : Store :=
  goToSegment (num_add (ToNumber (getCurrentReplaySegment st)) (Finite 1)) true false st.

(** [export const backRound = () => ...] *)
Definition backRound (st : Store) : Store :=
  goToSegment (num_sub (ToNumber (getCurrentReplaySegment st)) (Finite (numPlayers globals)))
              true false st.

(** [export const forwardRound = () => ...] *)
Definition forwardRound (st : Store) : Store :=
  goToSegment (num_add (ToNumber (getCurrentReplaySegment st)) (Finite (numPlayers globals)))
              true false st.

(** [export const backFull = () => ...] *)
Definition backFull (st : Store) : Store := goToSegment (Finite 0) true false st.

(** [export const forwardFull = () => ...] *)
Definition forwardFull (st : Store) : Store :=
  goToSegment (ToNumber (turn_segment (getState st))) true false st.

(** [export const toggleSharedSegments = () => ...] *)
Definition toggleSharedSegments (st : Store) : Store :=
  let state := getState st in
  let st :=
    if amSharedReplayLeader globals && negb (useSharedSegments (replay state))
    then dispatch (replaySharedSegment (getCurrentReplaySegment st)) st
    else st in
  dispatch (replayUseSharedSegments (negb (useSharedSegments (replay state)))) st.

End Navigation.

(** A reducer for the samples: entering and leaving the replay, and moving
    within it. *)
Definition sample_reducer (s : State) (a : Action) : State :=
  let r := replay s in
  match a with
  | replayEnter n => mkState (mkReplay true n (sharedSegment r) (useSharedSegments r)) (turn_segment s)
  | replayExit => mkState (mkReplay false (segment r) (sharedSegment r) (useSharedSegments r)) (turn_segment s)
  | replaySegment n => mkState (mkReplay (active r) n (sharedSegment r) (useSharedSegments r)) (turn_segment s)
  | replaySharedSegment n =>
      mkState (mkReplay (active r) (segment r) (ToNumber n) (useSharedSegments r)) (turn_segment s)
  | replayUseSharedSegments b =>
      mkState (mkReplay (active r) (segment r) (sharedSegment r) b) (turn_segment s)
  end.

(** A solo game at its sixth segment (final segment 5), not in a replay. *)
Definition sample_globals : Globals := mkGlobals false false false 2.
Definition sample_store : Store :=
  mkStore (mkState (mkReplay false (Finite 0) (Finite 0) false) (Some (Finite 5))) [].

(** A game before its first move (final segment 0), seen in a replay: with
    this final segment the divisions of [barClick] and [barDrag] are by
    zero. *)
Definition store_before_first_move : Store :=
  mkStore (mkState (mkReplay true (Finite 0) (Finite 0) false) (Some (Finite 0))) [].

End Replay.

(* ===================================================================== *)
(** ** Sample collaborators and inputs *)
(* ===================================================================== *)

Definition set_clock (v : Z) (w : World) : World :=
  mkWorld (sessions w) (commandWaitGroup w) (shuttingDown w) (blockAllIncomingMessages w)
          (datetimeShutdownInit w) (tables w) (sessionIDCounter w) v.

Definition set_Running (v : bool) (t : Table.t) : Table.t :=
  Table.mk (Table.ID t) v (Table.Replay t) (Table.Players t) (Table.Owner t).

Definition set_Closed (v : bool) (s : Session.t) : Session.t :=
  Session.mk (Session.Conn s) v (Session.SessionID s) (Session.UserID s)
    (Session.Username s) (Session.Muted s) (Session.Status s) (Session.TableID s)
    (Session.Friends s) (Session.ReverseFriends s) (Session.Hyphenated s)
    (Session.Inactive s) (Session.FakeUser s) (Session.RateLimitAllowance s)
    (Session.RateLimitLastCheck s) (Session.Banned s)
    (Session.open s) (Session.conn s) (Session.output s).

(** A connected session of user [uid] on transport [c]. *)
Definition sample_session (id : N) (uid : Z) (name : string) (c : ConnRef) : Session.t :=
  Session.mk (Some c) false id uid name false 0 0%N ∅ ∅ false false false
             0%float 0 false true (Some c) ChanOpen.

(** An encoder that never fails, on the two message types of the file. *)
Definition sample_marshal (d : Data) : string + error :=
  match d with
  | WarningMessage m =>
      inl ("{" +:+ dq +:+ "warning" +:+ dq +:+ ":" +:+ dq +:+ m +:+ dq +:+ "}")
  | ErrorMessage m =>
      inl ("{" +:+ dq +:+ "error" +:+ dq +:+ ":" +:+ dq +:+ m +:+ dq +:+ "}")
  | OtherData _ => inr (ErrOther "json: unsupported type")
  end.

(** Collaborators that do what their names say: leaving an unstarted table
    removes it, an end-game action stops the game, a sleep moves the clock. *)
#[local] Instance sample_ext : Externals := {|
  ShutdownTimeout := 15 * Minute;
  StatusLobby := 0;
  RateLimitRate := 200%float;
  DefaultErrorMsg := "Something went wrong.";
  ActionTypeEndGame := 4;
  EndConditionTerminated := 4;
  GOOS := "linux";
  json_Marshal := sample_marshal;
  WriteMessage := fun _ _ _ => None;
  GetOwnerSession := fun t => sample_session 1%N (Table.Owner t) "owner" 7%N;
  GetRoomName := fun t => "table" +:+ Itoa (Z.of_N (Table.ID t));
  commandTableLeave := fun _ d w => set_tables (delete (CommandData.TableID d) (tables w)) w;
  commandAction := fun _ d w =>
    set_tables (alter (set_Running false) (CommandData.TableID d) (tables w)) w;
  getCurrentTimestamp := Itoa;
  executeScript := fun _ => None;
  wake := fun d w => set_clock (clock w + d) w
|}.

(** The same, except that the end-game action is refused and leaves the
    table as it was. *)
Definition refusing_ext : Externals := {|
  ShutdownTimeout := 15 * Minute;
  StatusLobby := 0;
  RateLimitRate := 200%float;
  DefaultErrorMsg := "Something went wrong.";
  ActionTypeEndGame := 4;
  EndConditionTerminated := 4;
  GOOS := "linux";
  json_Marshal := sample_marshal;
  WriteMessage := fun _ _ _ => None;
  GetOwnerSession := fun t => sample_session 1%N (Table.Owner t) "owner" 7%N;
  GetRoomName := fun t => "table" +:+ Itoa (Z.of_N (Table.ID t));
  commandTableLeave := fun _ d w => set_tables (delete (CommandData.TableID d) (tables w)) w;
  commandAction := fun _ _ w => w;
  getCurrentTimestamp := Itoa;
  executeScript := fun _ => None;
  wake := fun d w => set_clock (clock w + d) w
|}.

Definition alice : Session.t := sample_session 1%N 10 "alice" 7%N.
Definition bob : Session.t := sample_session 2%N 11 "bob" 8%N.

(** A started game, an unstarted table and a replay. *)
Definition table_started : Table.t := Table.mk 1%N true false [10; 11] 10.
Definition table_unstarted : Table.t := Table.mk 2%N false false [11] 11.
Definition table_replay : Table.t := Table.mk 3%N true true [] 10.

(** A world with the given tables, sessions, in-flight counter and clock,
    shutdown not armed. *)
Definition sample_world (tb : list Table.t) (ss : list Session.t) (inflight now : Z) : World :=
  mkWorld (list_to_map (map (fun s => (Session.UserID s, s)) ss))
          inflight false false 0
          (list_to_map (map (fun t => (Table.ID t, t)) tb))
          0%N now.

(** The world of a process that has made [2^64 - 2] sessions. *)
Definition world_near_wrap : World :=
  set_sessionIDCounter (uint64_modulus - 2)%N (sample_world [] [] 0 0).

(** Shutdown armed at time 0 with a countdown of 15 minutes, and the clock
    at 9 minutes 30 seconds: 5 minutes 30 seconds remain. *)
Definition world_five_and_a_half_left : World :=
  set_clock (9 * Minute + 30 * Second)
    (set_shuttingDown true (sample_world [table_started] [alice] 0 0)).

(** No game is running: an unstarted table and a replay. *)
Definition world_no_active : World :=
  sample_world [table_unstarted; table_replay] [alice] 0 100.

(** Shutdown armed at time 0 with three tables, one of each kind. *)
Definition world_armed : World :=
  set_shuttingDown true
    (sample_world [table_started; table_unstarted; table_replay] [alice; bob] 0 0).

(** The same world 15 minutes later: the deadline has passed. *)
Definition world_deadline : World := set_clock (15 * Minute) world_armed.

(** One command in flight, one session connected, shutdown not armed. *)
Definition world_one_in_flight : World := sample_world [] [alice] 1 0.

(** A schedule for [shutdownImmediate]: a second command enters before the
    flag is set, both commands finish while the goroutine waits. *)
Definition sample_schedule : list Move :=
  [Thread; Thread; Env GateEnter; Thread; Env GateRelease; Env GateRelease;
   Thread; Thread; Thread; Thread; Thread; Thread; Thread; Thread].

(** The frames a trace writes to transports. *)
Definition frames (tr : list Event) : list (ConnRef * Z * string) :=
  omap (fun e => match e with
                 | WsWriteMessage c ty payload => Some (c, ty, payload)
                 | _ => None
                 end) tr.

(** How the remaining time is worded: "momentarily" at 0 whole minutes,
    "in 1 minute" at 1, "in N minutes" otherwise. *)
Definition remaining_phrase (minutes : Z) : string :=
  if minutes =? 0 then "momentarily"
  else if minutes =? 1 then "in 1 minute"
  else "in " +:+ Itoa minutes +:+ " minutes".

(** The table map is keyed by the tables' ids. *)
Definition keyed_by_id (tb : gmap N Table.t) : Prop :=
  forall k t, tb !! k = Some t -> Table.ID t = k.

(** A command on one table leaves the entries of the other tables alone. *)
Definition frames_others (cmd : Session.t -> CommandData.t -> World -> World) : Prop :=
  forall s d w k, k <> CommandData.TableID d -> tables (cmd s d w) !! k = tables w !! k.


Section TraceShapes.
Context `{Ext : Externals}.

(** [shutdownImmediate] from the point where the wait has returned and its
    return has been logged. *)
Definition drained_tail : Prog unit :=
  sessionList <- sessions_GetList ;
  for_each sessionList (fun s =>
    emit (Error s shutdown_message) ;;
    emit [NotifySoundLobby s "shutdown"]) ;;
  shutdownImmediate_stop.

(** Where [shutdownImmediate] stands, with the calls made so far: before
    its first log, before the log of the wait, before the flag is set, in
    the wait, or past it. *)
Inductive stage : Prog unit -> World -> list Event -> Prop :=
| stage_start w :
    stage shutdownImmediate w []
| stage_logged w :
    stage (waitForAllWebSocketCommandsToFinish ;; drained_tail) w
          [LogInfo "Initiating an immediate server shutdown."]
| stage_blocking w :
    stage ((update (set_blockAllIncomingMessages true) [BlockSet] ;;
            commandWaitGroup_Wait ;;
            logger_Info "All WebSocket commands have completed.") ;; drained_tail) w
          [LogInfo "Initiating an immediate server shutdown.";
           LogInfo "Waiting for all ongoing WebSocket commands to finish execution..."]
| stage_waiting w :
    blockAllIncomingMessages w = true ->
    stage ((commandWaitGroup_Wait ;;
            logger_Info "All WebSocket commands have completed.") ;; drained_tail) w
          [LogInfo "Initiating an immediate server shutdown.";
           LogInfo "Waiting for all ongoing WebSocket commands to finish execution...";
           BlockSet]
| stage_drained p w rest :
    quiet p ->
    blockAllIncomingMessages w = true ->
    commandWaitGroup w = 0 ->
    stage p w
          ([LogInfo "Initiating an immediate server shutdown.";
            LogInfo "Waiting for all ongoing WebSocket commands to finish execution...";
            BlockSet; WaitReturned] ++ rest).

(** The calls [shutdownImmediate] makes for one session. *)
Definition notify_calls (s : Session.t) : list Event :=
  Error s shutdown_message ++ [NotifySoundLobby s "shutdown"].

(** The kinds of call [shutdownImmediate] makes after the sessions are
    notified. *)
Definition stop_kind (e : Event) : Prop :=
  match e with
  | LogInfo _ | LogError _ _ | ChatServerSend _ _ | ExecuteScript _ => True
  | _ => False
  end.

(** The calls by which [shutdown] announces a countdown and starts its
    timers and its polling loop. *)
Definition countdown_call (e : Event) : bool :=
  match e with
  | NotifyAllShutdown | ChatServerSendAll _ | Go _ | EvSleep _ => true
  | _ => false
  end.

(** The world [shutdown] has armed: the flag set and the clock recorded. *)
Definition armed (w : World) : World :=
  set_datetimeShutdownInit (clock w) (set_shuttingDown true w).

(** The shape shared by the two loops that send a command to each table
    of a list of ids. *)
Definition table_loop (cmd : Session.t -> CommandData.t -> World -> World)
    (mkd : Table.t -> CommandData.t) (ev : Session.t -> CommandData.t -> Event)
    (ids : list N) : Prog unit :=
  for_each ids (fun id =>
    r <- getTableAndLock id ;
    match r with
    | None => Ret tt
    | Some t =>
        let s := GetOwnerSession t in
        let d := mkd t in
        update (cmd s d) [ev s d]
    end).

(** The command [shutdownXMinutesLeft] sends for an unstarted table, and
    the one [shutdownWait] sends for a game past the deadline. *)
Definition leave_data (t : Table.t) : CommandData.t :=
  CommandData.mk (Table.ID t) 0 0 0 true.
Definition end_game_data (t : Table.t) : CommandData.t :=
  CommandData.mk (Table.ID t) ActionTypeEndGame (-1) EndConditionTerminated true.

End TraceShapes.

(** The status code of the refusal a trace ends with: an HTTP error
    response followed at once by the deletion of the cookie. *)
Fixpoint denial_code (tr : list Event) : option Z :=
  match tr with
  | [] => None
  | e :: tr' =>
      match e, tr' with
      | HttpError _ code, [DeleteCookie] => Some code
      | _, _ => denial_code tr'
      end
  end.

(** What a refused handshake looks like: the handler has returned, the
    world is as it was, and the calls end with an HTTP error response of
    status [code] followed by the deletion of the cookie. *)
Definition refused (res : Res Handled) (w : World) (code : Z) : Prop :=
  exists tr, res = Done HReturned w tr
             /\ denial_code tr = Some code
             /\ Forall (fun e => WsUpgraded <> e) tr.

(** A call to the logger. *)
Definition is_log (e : Event) : bool :=
  match e with
  | LogInfo _ | LogInfoErr _ _ | LogDebug _ | LogError _ _ => true
  | _ => false
  end.

(** Database lookups for one user: not banned, not muted, known. *)
#[local] Instance sample_models : Models := {|
  BannedIPs_Check := fun ip => inl (String.eqb ip "10.0.0.66");
  MutedIPs_Check := fun _ => inl false;
  Users_GetUsername := fun uid => if uid =? 10 then inl "alice" else inr ErrNoRows;
  UserFriends_GetMap := fun _ => inl ∅;
  UserReverseFriends_GetMap := fun _ => inl ∅;
  UserSettings_IsHyphenated := fun _ => inl false
|}.

(** A handshake from a banned address, one with a cookie of a deleted user,
    and one that passes every check. *)
Definition request_banned : Request :=
  mkRequest (inl "10.0.0.66") (CookieInt 10) (inl 7%N) (fun _ => ("ping", None)).
Definition request_orphaned : Request :=
  mkRequest (inl "10.0.0.1") (CookieInt 99) (inl 7%N) (fun _ => ("ping", None)).
Definition request_good : Request :=
  mkRequest (inl "10.0.0.1") (CookieInt 10) (inl 7%N) (fun _ => ("ping", None)).

(* ===================================================================== *)
(** ** The rest of session.go and the chat commands *)
(* ===================================================================== *)

(** [func (s *Session) GetJoinedTable() *Table]: the first table, in the
    order the map is ranged over, that is not a replay and has the user
    among its players.  Go leaves the order of a range over a map open;
    the order of [map_to_list] stands for it. *)
Definition joined (s : Session.t) (t : Table.t) : bool :=
  negb (Table.Replay t) && existsb (fun p => p =? Session.UserID s) (Table.Players t).

Definition GetJoinedTable (s : Session.t) : Prog (option Table.t) :=
  read (fun w => List.find (joined s) (map_to_list (tables w)).*2).

Module ChatCommand.
(** The fields of [CommandData] that the chat commands read. *)
Record t := mk {
  Room : string;
  Args : list string
}.
End ChatCommand.

(** What the chat commands take from outside the modelled files: the two
    failure messages, the parsers of [strconv] (the integer, or that the
    text is no integer; whether the text is a float), the database id of a
    table's game and the tag lookup. *)
Class ChatExternals := {
  NotInGameFail : string;
  NotReplayFail : string;
  Atoi : string -> option Z;
  ParseFloat_ok : string -> bool;
  DatabaseID : Table.t -> Z;
  GameTags_GetAll : Z -> list string + error
}.

(** [sort.Strings]: increasing order, strings compared byte by byte.  A
    list has one sorted arrangement, so the algorithm does not matter. *)
Definition string_le (a b : string) : Prop := String.leb a b = true.

#[local] Instance string_le_dec : RelDecision string_le :=
  fun a b => decide (String.leb a b = true).

#[local] Instance string_le_total : Total string_le := String.leb_total.

Definition sort_Strings (tags : list string) : list string := merge_sort string_le tags.

Section Chat.
Context `{Ext : Externals} `{Chat : ChatExternals}.

(** [func chatSuggest(ctx, s *Session, d *CommandData, t *Table)] *)
Definition chatSuggest (s : Session.t) (d : ChatCommand.t) (t : option Table.t) : Prog unit :=
  match t with
  | None => chatServerSend NotInGameFail "lobby"
  | Some t =>
      if String.eqb (ChatCommand.Room d) "lobby" then chatServerSend NotInGameFail "lobby"
      else if negb (Table.Replay t) then chatServerSend NotReplayFail (ChatCommand.Room d)
      else
        match ChatCommand.Args d with
        | [arg] =>
            match Atoi arg with
            | None =>
                let msg :=
                  if negb (ParseFloat_ok arg) then dq +:+ arg +:+ dq +:+ " is not a number."
                  else "The /suggest command only accepts integers." in
                chatServerSend msg (ChatCommand.Room d)
            | Some _ => Ret tt
            end
        | _ =>
            chatServerSend "The format of the /suggest command is: /suggest [turn]"
                           (ChatCommand.Room d)
        end
  end.

(** The loop at the end of [chatTags]: [for i, tag := range tags]. *)
Definition list_tags (room : string) (tags : list string) : Prog unit :=
  for_each (imap (fun i tag => (i, tag)) tags) (fun it =>
    let msg := Itoa (Z.of_nat it.1 + 1) +:+ ") " +:+ it.2 in
    chatServerSend msg room).

(** [func chatTags(ctx, s *Session, d *CommandData, t *Table)] *)
Definition chatTags (s : Session.t) (d : ChatCommand.t) (t : option Table.t) : Prog unit :=
  match t with
  | None => chatServerSend NotInGameFail "lobby"
  | Some t =>
      if String.eqb (ChatCommand.Room d) "lobby" then chatServerSend NotInGameFail "lobby"
      else if negb (Table.Replay t) then chatServerSend NotReplayFail (ChatCommand.Room d)
      else
        match GameTags_GetAll (DatabaseID t) with
        | inr err =>
            logger_Error ("Failed to get the tags for game ID " +:+ Itoa (DatabaseID t) +:+ ":")
                         (Some err) ;;
            emit (Error s DefaultErrorMsg)
        | inl tags =>
            if (length tags =? 0)%nat then
              chatServerSend "There are not yet any tags for this game." (ChatCommand.Room d)
            else
              let tags := sort_Strings tags in
              chatServerSend "The list of tags for this game are as follows:"
                             (ChatCommand.Room d) ;;
              list_tags (ChatCommand.Room d) tags
        end
  end.

End Chat.

(** The chat messages of a trace, in order. *)
Definition chat_sends (tr : list Event) : list (string * string) :=
  omap (fun e => match e with
                 | ChatServerSend msg room => Some (msg, room)
                 | _ => None
                 end) tr.

(** A call of one of the commands that [shutdownXMinutesLeft] sends. *)
Definition is_leave (e : Event) : Prop :=
  match e with
  | CommandTableLeave _ _ => True
  | _ => False
  end.

(** A call of the command that [shutdownWait] sends. *)
Definition is_action (e : Event) : Prop :=
  match e with
  | CommandAction _ _ => True
  | _ => False
  end.

(** Chat collaborators for the samples: decimal digits parse as integers,
    game 7 has three tags. *)
Definition sample_Atoi (s : string) : option Z :=
  if String.eqb s "12" then Some 12 else if String.eqb s "3" then Some 3 else None.

#[local] Instance sample_chat : ChatExternals := {|
  NotInGameFail := "You are not in a game.";
  NotReplayFail := "You can only do that in a replay.";
  Atoi := sample_Atoi;
  ParseFloat_ok := fun s => String.eqb s "1.5";
  DatabaseID := fun t => Z.of_N (Table.ID t) + 4;
  GameTags_GetAll := fun id => if id =? 7 then inl ["win"; "clever"; "bluff"] else inl []
|}.

(** A good handshake whose cookie holds a value that is not an [int]. *)
Definition request_bad_cookie : Request :=
  mkRequest (inl "10.0.0.1") CookieOther (inl 7%N) (fun _ => ("ping", None)).

(** A game in progress seen in a replay at segment 2 by the leader of a
    shared replay, and a hypothetical in progress. *)
Definition hypothetical_globals : Replay.Globals := Replay.mkGlobals true true true 2.
Definition store_in_replay : Replay.Store :=
  Replay.mkStore
    (Replay.mkState (Replay.mkReplay true (Replay.Finite 2) (Replay.Finite 2) true)
                    (Some (Replay.Finite 5))) [].

(** A game with final segment 5, seen in a replay at segment 0. *)
Definition store_at_start : Replay.Store :=
  Replay.mkStore
    (Replay.mkState (Replay.mkReplay true (Replay.Finite 0) (Replay.Finite 0) false)
                    (Some (Replay.Finite 5))) [].

(** A game that has no segment yet, not in a replay. *)
Definition store_initializing : Replay.Store :=
  Replay.mkStore
    (Replay.mkState (Replay.mkReplay false (Replay.Finite 0) (Replay.Finite 0) false) None) [].

(** The six navigation functions of replay.ts, by name. *)
Inductive NavCommand :=
| NavBack (breakFree : bool)
| NavForward
| NavBackRound
| NavForwardRound
| NavBackFull
| NavForwardFull.

Definition navigate (reducer : Replay.State -> Replay.Action -> Replay.State)
    (globals : Replay.Globals) (c : NavCommand) (st : Replay.Store) : Replay.Store :=
  match c with
  | NavBack breakFree => Replay.back reducer globals breakFree st
  | NavForward => Replay.forward reducer globals st
  | NavBackRound => Replay.backRound reducer globals st
  | NavForwardRound => Replay.forwardRound reducer globals st
  | NavBackFull => Replay.backFull reducer globals st
  | NavForwardFull => Replay.forwardFull reducer globals st
  end.

(** An action that moves the shared segment of a shared replay. *)
Definition moves_shared_segment (a : Replay.Action) : bool :=
  match a with
  | Replay.replaySharedSegment _ => true
  | _ => false
  end.

(** [export const promptTurn = () => ...].  [window_prompt] is what the
    dialog returned ([null] when it was cancelled) and [parseInt] is the
    library function, [None] standing for [NaN]. *)
Definition promptTurn (reducer : Replay.State -> Replay.Action -> Replay.State)
    (globals : Replay.Globals) (window_prompt : option string)
    (parseInt : string -> option Z) (st : Replay.Store) : Replay.Store :=
  match window_prompt with
  | None => st
  | Some turnString =>
      match parseInt turnString with
      | None => st
      | Some targetTurn =>
          let targetTurn := targetTurn - 1 in
          Replay.goToSegment reducer globals (Replay.Finite targetTurn) true false st
      end
  end.

(** A [parseInt] for the samples. *)
Definition sample_parseInt (s : string) : option Z :=
  if String.eqb s "3" then Some 3 else if String.eqb s "99" then Some 99 else None.
(* ===================================================================== *)
(** * Properties *)
(* ===================================================================== *)

(** ** Running programs *)

Lemma prepend_nil {A : Type} (r : Res A) : prepend [] r = r.
Proof. destruct r; reflexivity. Qed.

Lemma prepend_app {A : Type} (e1 e2 : list Event) (r : Res A) :
  prepend e1 (prepend e2 r) = prepend (e1 ++ e2) r.
Proof. destruct r; simpl; rewrite app_assoc; reflexivity. Qed.

(** Running [p] and then [f] is running [p], and [f] from where [p] ends. *)
Lemma run_bind {A B : Type} (p : Prog A) (f : A -> Prog B) (w : World) :
  run (bind p f) w =
  match run p w with
  | Done a w' tr => prepend tr (run (f a) w')
  | Parked w' tr => Parked w' tr
  end.
Proof.
  revert w. induction p as [a | X act k IH]; intros w; simpl.
  - rewrite prepend_nil. reflexivity.
  - destruct (act w) as [[[x w'] evs] |]; [| reflexivity].
    rewrite IH. destruct (run (k x) w'); simpl.
    + rewrite prepend_app. reflexivity.
    + reflexivity.
Qed.

Lemma run_emit (evs : list Event) (w : World) : run (emit evs) w = Done tt w (evs ++ []).
Proof. reflexivity. Qed.

Lemma run_read {X : Type} (f : World -> X) (w : World) : run (read f) w = Done (f w) w [].
Proof. reflexivity. Qed.

Lemma run_update (f : World -> World) (evs : list Event) (w : World) :
  run (update f evs) w = Done tt (f w) (evs ++ []).
Proof. reflexivity. Qed.

Ltac run_simpl :=
  repeat (first [rewrite run_bind | rewrite run_emit | rewrite run_read | rewrite run_update];
          cbn beta iota delta [prepend]).

Lemma run_for_each_cons {X : Type} (x : X) (l : list X) (body : X -> Prog unit) (w : World) :
  run (for_each (x :: l) body) w =
  match run (body x) w with
  | Done _ w' tr => prepend tr (run (for_each l body) w')
  | Parked w' tr => Parked w' tr
  end.
Proof. cbn [for_each]. apply run_bind. Qed.

(** A loop whose body only makes calls. *)
Lemma run_for_each_emit {X : Type} (f : X -> list Event) (l : list X) (w : World) :
  run (for_each l (fun x => emit (f x))) w = Done tt w (flat_map f l).
Proof.
  induction l as [| x l IH]; [reflexivity |].
  rewrite run_for_each_cons, run_emit, IH. simpl. rewrite app_nil_r. reflexivity.
Qed.

(** ** session.go *)

Section SessionProperties.
Context `{Ext : Externals}.

Lemma NewSession_at_id (w : World) :
  Session.SessionID (NewSession_at w).1 = uint64_add (sessionIDCounter w) 1
  /\ sessionIDCounter (NewSession_at w).2 = uint64_add (sessionIDCounter w) 1.
Proof. split; reflexivity. Qed.

(** While the counter does not wrap, the [i]-th session made gets the
    counter's old value plus [i + 1]. *)
Lemma NewSessions_lookup (n : nat) : forall (w : World) (i : nat) (s : Session.t),
  (sessionIDCounter w + N.of_nat n < uint64_modulus)%N ->
  (NewSessions n w).1 !! i = Some s ->
  Session.SessionID s = (sessionIDCounter w + N.of_nat i + 1)%N.
Proof.
  induction n as [| n IH]; intros w i s Hlt Hi; simpl in *.
  - rewrite lookup_nil in Hi. discriminate.
  - destruct (NewSessions n (set_sessionIDCounter (uint64_add (sessionIDCounter w) 1) w))
      as [l w2] eqn:E.
    simpl in Hi.
    assert (Hc : uint64_add (sessionIDCounter w) 1 = (sessionIDCounter w + 1)%N).
    { unfold uint64_add. apply N.mod_small. lia. }
    destruct i as [| i]; simpl in Hi.
    + inversion Hi; subst s. simpl. rewrite Hc. lia.
    + specialize (IH (set_sessionIDCounter (uint64_add (sessionIDCounter w) 1) w) i s).
      rewrite E in IH. simpl in IH. rewrite Hc in IH.
      rewrite IH; [lia | lia | exact Hi].
Qed.

(** The counter after [n] calls, wrap-around included. *)
Lemma NewSessions_counter (n : nat) : forall w : World,
  (sessionIDCounter w < uint64_modulus)%N ->
  sessionIDCounter (NewSessions n w).2
  = ((sessionIDCounter w + N.of_nat n) mod uint64_modulus)%N.
Proof.
  induction n as [| n IH]; intros w Hlt.
  - simpl. rewrite N.add_0_r. symmetry. apply N.mod_small. exact Hlt.
  - simpl.
    destruct (NewSessions n (set_sessionIDCounter (uint64_add (sessionIDCounter w) 1) w))
      as [l w2] eqn:E.
    simpl.
    specialize (IH (set_sessionIDCounter (uint64_add (sessionIDCounter w) 1) w)).
    rewrite E in IH. simpl in IH. rewrite IH.
    + unfold uint64_add. rewrite N.Div0.add_mod_idemp_l. f_equal. lia.
    + unfold uint64_add. apply N.mod_lt. discriminate.
Qed.

(** C8, as amended: in a run of [NewSession] calls during which the 64-bit
    counter does not wrap, each session's id is strictly greater than the
    id of every session returned before it, the first id of a fresh process
    is 1, and no two sessions share an id. *)
Theorem NewSessions_ids_increase (n : nat) (w : World) :
  (sessionIDCounter w + N.of_nat n < uint64_modulus)%N ->
  (forall (i j : nat) (si sj : Session.t),
      (i < j)%nat ->
      (NewSessions n w).1 !! i = Some si ->
      (NewSessions n w).1 !! j = Some sj ->
      (Session.SessionID si < Session.SessionID sj)%N)
  /\ (sessionIDCounter w = 0%N ->
      forall s : Session.t, (NewSessions n w).1 !! 0%nat = Some s -> Session.SessionID s = 1%N)
  /\ NoDup (Session.SessionID <$> (NewSessions n w).1).
Proof.
  intros Hlt.
  assert (Hinc : forall (i j : nat) (si sj : Session.t),
      (i < j)%nat ->
      (NewSessions n w).1 !! i = Some si ->
      (NewSessions n w).1 !! j = Some sj ->
      (Session.SessionID si < Session.SessionID sj)%N).
  { intros i j si sj Hij Hi Hj.
    rewrite (NewSessions_lookup n w i si Hlt Hi), (NewSessions_lookup n w j sj Hlt Hj). lia. }
  split; [exact Hinc |]. split.
  - intros H0 s Hs. rewrite (NewSessions_lookup n w 0 s Hlt Hs), H0. reflexivity.
  - apply NoDup_alt. intros i j x Hi Hj.
    rewrite list_lookup_fmap in Hi, Hj.
    destruct ((NewSessions n w).1 !! i) as [si |] eqn:Ei; [| discriminate].
    destruct ((NewSessions n w).1 !! j) as [sj |] eqn:Ej; [| discriminate].
    simpl in Hi, Hj. inversion Hi as [Hxi]. inversion Hj as [Hxj].
    destruct (Nat.lt_trichotomy i j) as [Hlt' | [Heq | Hgt]]; [| exact Heq |].
    + pose proof (Hinc i j si sj Hlt' Ei Ej). lia.
    + pose proof (Hinc j i sj si Hgt Ej Ei). lia.
Qed.

(** Whether a session was closed makes no difference to [Emit]. *)
Lemma Emit_ignores_Closed (b : bool) (s : Session.t) (command : string) (d : Data) :
  Emit (Some (set_Closed b s)) command d = Emit (Some s) command d.
Proof. reflexivity. Qed.

(** C7, as amended: [Emit] makes no call at all when the session is nil or
    its transport handle is nil; when the payload does not serialize it
    logs and writes nothing; otherwise it writes exactly one text frame,
    the command name, a space and the JSON payload, and this also when the
    session's closed flag is set. *)
Theorem Emit_frames (s : option Session.t) (command : string) (d : Data) :
  (s ≫= Session.Conn = None -> Emit s command d = [])
  /\ frames (Emit s command d) =
     match s ≫= Session.Conn, json_Marshal d with
     | Some c, inl ds => [(c, TextMessage, command +:+ " " +:+ ds)]
     | _, _ => []
     end
  /\ (forall err, json_Marshal d = inr err ->
      forall s0 c, s = Some s0 -> Session.Conn s0 = Some c ->
      Emit s command d =
      [LogError "Failed to marshal data when writing to a WebSocket session:" (Some err)])
  /\ (forall s0 b, s = Some s0 ->
      Emit (Some (set_Closed b s0)) command d = Emit s command d).
Proof.
  split; [| split; [| split]].
  - destruct s as [s0 |]; simpl; [| reflexivity].
    intros H. rewrite H. reflexivity.
  - destruct s as [s0 |]; simpl; [| reflexivity].
    destruct (Session.Conn s0) as [c |]; simpl; [| reflexivity].
    destruct (json_Marshal d) as [ds | err]; simpl; [| reflexivity].
    destruct (WriteMessage c TextMessage (command +:+ " " +:+ ds)); reflexivity.
  - intros err Herr s0 c -> Hc. simpl. rewrite Hc, Herr. reflexivity.
  - intros s0 b ->. reflexivity.
Qed.

End SessionProperties.

(** C7 at a sample input: a warning to a connected session is one frame. *)
Lemma Emit_frames_sample :
  frames (Emit (Some alice) "warning" (WarningMessage "hi"))
  = [(7%N, TextMessage,
      "warning {" +:+ dq +:+ "warning" +:+ dq +:+ ":" +:+ dq +:+ "hi" +:+ dq +:+ "}")]
  /\ Emit None "warning" (WarningMessage "hi") = [].
Proof.
  pose proof (Emit_frames (Some alice) "warning" (WarningMessage "hi")) as (_ & H & _).
  pose proof (Emit_frames None "warning" (WarningMessage "hi")) as (H0 & _).
  split; [exact H | apply H0; reflexivity].
Defined.

(** C7 as stated fails: a session whose closed flag is set, with a transport
    handle that is not nil, is written to. *)
Lemma Emit_writes_to_closed_session :
  Session.Closed (set_Closed true alice) = true
  /\ Emit (Some (set_Closed true alice)) "warning" (WarningMessage "hi")
     = [WsWriteMessage 7%N TextMessage
          ("warning {" +:+ dq +:+ "warning" +:+ dq +:+ ":" +:+ dq +:+ "hi" +:+ dq +:+ "}")].
Proof. split; reflexivity. Qed.

(** C8 at a sample input: three sessions of a fresh process. *)
Lemma NewSessions_ids_increase_sample :
  (sessionIDCounter (sample_world [] [] 0 0) + N.of_nat 3 < uint64_modulus)%N
  /\ NoDup (Session.SessionID <$> (NewSessions 3 (sample_world [] [] 0 0)).1)
  /\ Session.SessionID <$> (NewSessions 3 (sample_world [] [] 0 0)).1 = [1; 2; 3]%N.
Proof.
  assert (H : (sessionIDCounter (sample_world [] [] 0 0) + N.of_nat 3 < uint64_modulus)%N)
    by (vm_compute; reflexivity).
  split; [exact H |]. split.
  - exact (proj2 (proj2 (NewSessions_ids_increase 3 (sample_world [] [] 0 0) H))).
  - reflexivity.
Defined.

(** C8 as stated fails: the counter of a process that has made [2^64 - 2]
    sessions stands at [2^64 - 2]; the next three sessions get the ids
    [2^64 - 1], [0] and [1], so an id is smaller than the one before it,
    and the id 1 is given a second time. *)
Lemma NewSession_id_wraps :
  sessionIDCounter (NewSessions (N.to_nat (uint64_modulus - 2)) (sample_world [] [] 0 0)).2
  = sessionIDCounter world_near_wrap
  /\ Session.SessionID <$> (NewSessions 3 world_near_wrap).1
     = [18446744073709551615; 0; 1]%N
  /\ Session.SessionID <$> (NewSessions 1 (sample_world [] [] 0 0)).1 = [1%N].
Proof.
  split; [| split; vm_compute; reflexivity].
  rewrite NewSessions_counter by (vm_compute; reflexivity).
  rewrite N2Nat.id. vm_compute. reflexivity.
Qed.

(** C6 fails on the code: [Close] tests [Closed] but never sets it, so a
    second call passes the guard again, closes the transport a second time
    and closes the channel that the first call closed, which panics. *)
Lemma Close_twice_closes_twice :
  Session.Closed alice = false
  /\ Close alice = (Returned (set_output ChanClosed (set_open false alice)),
                    [WsConnClose 7%N; ChanClose])
  /\ Session.Closed (set_output ChanClosed (set_open false alice)) = false
  /\ Close (set_output ChanClosed (set_open false alice))
     = (Panicked "close of closed channel", [WsConnClose 7%N]).
Proof. repeat split. Qed.

(** [Close] never changes the flag that its guard reads. *)
Lemma Close_keeps_Closed (s s' : Session.t) (evs : list Event) :
  Close s = (Returned s', evs) -> Session.Closed s' = Session.Closed s.
Proof.
  unfold Close. destruct (Session.Closed s) eqn:Hc.
  - intros H. inversion H; subst. exact Hc.
  - destruct (Session.conn (set_open false s)); [| discriminate].
    destruct (Session.output (set_open false s)); try discriminate.
    intros H. inversion H; subst. simpl. exact Hc.
Qed.

(** ** The shutdown orchestrator, one goroutine on its own *)

Section ShutdownProperties.
Context `{Ext : Externals}.

Lemma count_fold (l : list Table.t) : forall acc : Z,
  fold_left (fun numTables t => if is_active t then numTables + 1 else numTables) l acc
  = acc + Z.of_nat (length (List.filter is_active l)).
Proof.
  induction l as [| t l IH]; intros acc; simpl.
  - lia.
  - rewrite IH. destruct (is_active t); simpl; lia.
Qed.

(** [countActiveTables] returns the number of tables of the snapshot that
    are running and not a replay, and changes nothing. *)
Lemma countActiveTables_run (w : World) :
  run countActiveTables w
  = Done (Z.of_nat (length (List.filter is_active (map_to_list (tables w)).*2))) w [].
Proof.
  unfold countActiveTables, tables_GetList. rewrite run_bind, run_read. simpl.
  rewrite count_fold. reflexivity.
Qed.


Lemma run_notify_loop (l : list Session.t) (w : World) :
  run (for_each l (fun s => emit (Error s shutdown_message) ;;
                            emit [NotifySoundLobby s "shutdown"])) w
  = Done tt w (flat_map notify_calls l).
Proof.
  induction l as [| x l IH]; [reflexivity |].
  rewrite run_for_each_cons. run_simpl. rewrite IH.
  unfold notify_calls. cbn [prepend flat_map].
  rewrite !app_nil_r. rewrite <- !app_assoc. reflexivity.
Qed.

Lemma run_waitForAll (w : World) :
  run waitForAllWebSocketCommandsToFinish w
  = if commandWaitGroup w =? 0
    then Done tt (set_blockAllIncomingMessages true w)
           [LogInfo "Waiting for all ongoing WebSocket commands to finish execution...";
            BlockSet; WaitReturned; LogInfo "All WebSocket commands have completed."]
    else Parked (set_blockAllIncomingMessages true w)
           [LogInfo "Waiting for all ongoing WebSocket commands to finish execution...";
            BlockSet].
Proof.
  unfold waitForAllWebSocketCommandsToFinish. simpl.
  destruct (commandWaitGroup w =? 0); reflexivity.
Qed.

Lemma run_stop (w : World) :
  exists tr, run shutdownImmediate_stop w = Done tt w tr /\ Forall stop_kind tr.
Proof.
  unfold shutdownImmediate_stop, chatServerSend, logger_Info, logger_Error. run_simpl.
  destruct (String.eqb GOOS "windows"); run_simpl.
  - eexists. split; [reflexivity |]. repeat constructor.
  - destruct (executeScript "stop.sh"); run_simpl; simpl;
      (eexists; split; [reflexivity |]; repeat constructor).
Qed.

(** What [shutdownImmediate] does on its own: with no command in flight it
    sets the flag, passes the wait, notifies every session of the registry
    and stops; with commands in flight it sets the flag and stays parked in
    the wait. *)
Lemma run_shutdownImmediate (w : World) :
  exists tail,
    Forall stop_kind tail /\
    run shutdownImmediate w
    = if commandWaitGroup w =? 0
      then Done tt (set_blockAllIncomingMessages true w)
             ([LogInfo "Initiating an immediate server shutdown.";
               LogInfo "Waiting for all ongoing WebSocket commands to finish execution...";
               BlockSet; WaitReturned; LogInfo "All WebSocket commands have completed."]
              ++ flat_map notify_calls (map_to_list (sessions w)).*2 ++ tail)
      else Parked (set_blockAllIncomingMessages true w)
             [LogInfo "Initiating an immediate server shutdown.";
              LogInfo "Waiting for all ongoing WebSocket commands to finish execution...";
              BlockSet].
Proof.
  destruct (run_stop (set_blockAllIncomingMessages true w)) as (tail & Hrun & Hk).
  exists tail. split; [exact Hk |].
  unfold shutdownImmediate, sessions_GetList. unfold logger_Info at 1.
  run_simpl. rewrite run_waitForAll.
  destruct (commandWaitGroup w =? 0); [| reflexivity].
  run_simpl. rewrite run_notify_loop. cbn [prepend]. rewrite Hrun.
  simpl. reflexivity.
Qed.

Lemma Emit_not_countdown (s : option Session.t) (command : string) (d : Data) :
  Forall (fun e => countdown_call e = false) (Emit s command d).
Proof.
  unfold Emit. destruct s as [s |]; [| constructor].
  destruct (Session.Conn s); [| constructor].
  destruct (json_Marshal d); [| repeat constructor].
  destruct (WriteMessage _ _ _); repeat constructor.
Qed.

Lemma notify_calls_not_countdown (l : list Session.t) :
  Forall (fun e => countdown_call e = false) (flat_map notify_calls l).
Proof.
  induction l as [| s l IH]; cbn [flat_map]; [constructor |].
  apply Forall_app_2; [| exact IH].
  unfold notify_calls, Error.
  apply Forall_app_2; [| repeat constructor].
  constructor; [reflexivity | apply Emit_not_countdown].
Qed.

Lemma stop_kind_not_countdown (tr : list Event) :
  Forall stop_kind tr -> Forall (fun e => countdown_call e = false) tr.
Proof.
  intros H. eapply Forall_impl; [exact H |].
  intros e. destruct e; simpl; intros He; try reflexivity; contradiction.
Qed.

Lemma shutdownImmediate_not_countdown (w : World) :
  Forall (fun e => countdown_call e = false) (res_trace (run shutdownImmediate w)).
Proof.
  destruct (run_shutdownImmediate w) as (tail & Hk & ->).
  destruct (commandWaitGroup w =? 0); simpl.
  - repeat (constructor; [reflexivity |]).
    apply Forall_app_2; [apply notify_calls_not_countdown | apply stop_kind_not_countdown, Hk].
  - repeat constructor.
Qed.

Lemma shutdownImmediate_keeps_arming (w : World) :
  shuttingDown (res_world (run shutdownImmediate w)) = shuttingDown w
  /\ datetimeShutdownInit (res_world (run shutdownImmediate w)) = datetimeShutdownInit w.
Proof.
  destruct (run_shutdownImmediate w) as (tail & Hk & ->).
  destruct (commandWaitGroup w =? 0); split; reflexivity.
Qed.

(** [shutdown] up to its branch on the count. *)
Lemma run_shutdown (w : World) :
  run shutdown w =
  let n := Z.of_nat (length (List.filter is_active (map_to_list (tables w)).*2)) in
  prepend [LogInfo ("Initiating a graceful server shutdown (with " +:+ Itoa n +:+
                    " active games).")]
    (if n =? 0 then run shutdownImmediate (armed w)
     else Done tt (armed w)
            [NotifyAllShutdown;
             ChatServerSendAll ("The server will shutdown in " +:+
                                Itoa (Minutes_int ShutdownTimeout) +:+ " minutes.");
             Go (go_shutdownXMinutesLeft 5); Go (go_shutdownXMinutesLeft 10);
             Go go_shutdownWait]).
Proof.
  unfold shutdown. run_simpl. rewrite countActiveTables_run. cbn [prepend].
  unfold logger_Info at 1. run_simpl. cbn [app]. rewrite !prepend_nil.
  change (set_datetimeShutdownInit (clock (set_shuttingDown true w)) (set_shuttingDown true w))
    with (armed w).
  change (tables (armed w)) with (tables w).
  cbv zeta.
  destruct (Z.of_nat (length (List.filter is_active (map_to_list (tables w)).*2)) =? 0).
  - reflexivity.
  - unfold notifyAllShutdown, chatServerSendAll. run_simpl. reflexivity.
Qed.

(** C2: every call of [shutdown] sets the armed flag and records the time
    of arming; the count it takes is the number of tables whose [Running]
    flag is set and whose [Replay] flag is not; when that count is zero it
    goes on with [shutdownImmediate] at once, and announces no countdown
    and starts neither a warning timer nor the polling loop. *)
Theorem shutdown_zero_active_is_immediate (w : World) :
  shuttingDown (res_world (run shutdown w)) = true
  /\ datetimeShutdownInit (res_world (run shutdown w)) = clock w
  /\ run countActiveTables (armed w)
     = Done (Z.of_nat (length (List.filter
                                 (fun t => Table.Running t && negb (Table.Replay t))
                                 (map_to_list (tables w)).*2)))
            (armed w) []
  /\ (List.filter (fun t => Table.Running t && negb (Table.Replay t))
                  (map_to_list (tables w)).*2 = [] ->
      run shutdown w
      = prepend [LogInfo "Initiating a graceful server shutdown (with 0 active games)."]
                (run shutdownImmediate (armed w))
      /\ Forall (fun e => countdown_call e = false) (res_trace (run shutdown w))).
Proof.
  split; [| split; [| split]].
  - rewrite run_shutdown. cbv zeta.
    destruct (_ =? 0).
    + destruct (shutdownImmediate_keeps_arming (armed w)) as [H _].
      destruct (run shutdownImmediate (armed w)); simpl in *; exact H.
    + reflexivity.
  - rewrite run_shutdown. cbv zeta.
    destruct (_ =? 0).
    + destruct (shutdownImmediate_keeps_arming (armed w)) as [_ H].
      destruct (run shutdownImmediate (armed w)); simpl in *; exact H.
    + reflexivity.
  - exact (countActiveTables_run (armed w)).
  - intros Hnone. fold is_active in Hnone.
    rewrite run_shutdown. cbv zeta. rewrite Hnone. simpl length. simpl Z.of_nat.
    change (0 =? 0) with true. cbv iota.
    split; [reflexivity |].
    pose proof (shutdownImmediate_not_countdown (armed w)) as H.
    destruct (run shutdownImmediate (armed w)); simpl in *; constructor; auto.
Qed.

Lemma whole_minutes_le_5 (t : Z) : (Z.quot t Minute <=? 5) = (t <? 6 * Minute).
Proof.
  assert (HM : 0 < Minute) by (vm_compute; reflexivity).
  destruct (Z.ltb_spec t (6 * Minute)) as [Hlt | Hge].
  - apply Z.leb_le.
    destruct (Z_lt_le_dec t 0) as [Hneg | Hpos].
    + assert (Z.quot t Minute <= 0); [| lia].
      rewrite <- (Z.opp_involutive t), Z.quot_opp_l by lia.
      assert (Hq : 0 <= - t) by lia.
      pose proof (Z.quot_pos (- t) Minute Hq HM). lia.
    + rewrite Z.quot_div_nonneg by lia.
      assert (t / Minute < 6); [| lia].
      apply Z.div_lt_upper_bound; lia.
  - apply Z.leb_gt.
    rewrite Z.quot_div_nonneg by lia.
    assert (6 <= t / Minute); [| lia].
    apply Z.div_le_lower_bound; lia.
Qed.

(** C5, as amended: [checkImminentShutdown] returns false when shutdown is
    not armed; when it is armed, and the time left is in the range in which
    its whole minutes are computed exactly, it returns true exactly when
    the whole minutes left, truncated toward zero, are at most 5, that is
    when less than 6 minutes remain, and then it makes one [Warning] call
    on the requesting session, worded by the whole minutes left; in every
    case the world is left as it was. *)
Theorem checkImminentShutdown_spec (s : Session.t) (w : World) :
  (shuttingDown w = false -> run (checkImminentShutdown s) w = Done false w [])
  /\ (shuttingDown w = true ->
      Minutes_exact (ShutdownTimeout - (clock w - datetimeShutdownInit w)) ->
      ShutdownTimeout - (clock w - datetimeShutdownInit w) < 6 * Minute ->
      run (checkImminentShutdown s) w
      = Done true w
          (Warning s ("The server is shutting down " +:+
                      remaining_phrase
                        (Z.quot (ShutdownTimeout - (clock w - datetimeShutdownInit w)) Minute)
                      +:+ ". You cannot start any new games for the time being.")))
  /\ (shuttingDown w = true ->
      Minutes_exact (ShutdownTimeout - (clock w - datetimeShutdownInit w)) ->
      6 * Minute <= ShutdownTimeout - (clock w - datetimeShutdownInit w) ->
      run (checkImminentShutdown s) w = Done false w []).
Proof.
  unfold checkImminentShutdown.
  split; [| split].
  - intros Hs. run_simpl. rewrite Hs. reflexivity.
  - intros Hs _ Hlt. run_simpl. rewrite Hs. cbn [negb]. run_simpl.
    unfold Minutes_int. rewrite whole_minutes_le_5.
    destruct (Z.ltb_spec (ShutdownTimeout - (clock w - datetimeShutdownInit w)) (6 * Minute));
      [| lia].
    run_simpl. cbn [run prepend app]. unfold remaining_phrase.
    rewrite !app_nil_r.
    destruct (_ =? 0); [reflexivity |].
    destruct (_ =? 1); reflexivity.
  - intros Hs _ Hge. run_simpl. rewrite Hs. cbn [negb]. run_simpl.
    unfold Minutes_int. rewrite whole_minutes_le_5.
    destruct (Z.ltb_spec (ShutdownTimeout - (clock w - datetimeShutdownInit w)) (6 * Minute));
      [lia | reflexivity].
Qed.
End ShutdownProperties.

(** C2 at a sample input: an unstarted table and a replay are not active,
    so [shutdown] goes on with [shutdownImmediate]. *)
Lemma shutdown_zero_active_sample :
  run shutdown world_no_active
  = prepend [LogInfo "Initiating a graceful server shutdown (with 0 active games)."]
            (run shutdownImmediate (armed world_no_active))
  /\ Forall (fun e => countdown_call e = false) (res_trace (run shutdown world_no_active))
  /\ frames (res_trace (run shutdown world_no_active))
     = [(7%N, TextMessage,
         "error {" +:+ dq +:+ "error" +:+ dq +:+ ":" +:+ dq +:+ shutdown_message +:+ dq +:+ "}")].
Proof.
  pose proof (shutdown_zero_active_is_immediate world_no_active) as (_ & _ & _ & H).
  destruct H as [Hrun Hall]; [vm_compute; reflexivity |].
  split; [exact Hrun |]. split; [exact Hall |]. vm_compute. reflexivity.
Defined.

(** C5 at a sample input: armed with 5 minutes 30 seconds left. *)
Lemma checkImminentShutdown_sample :
  run (checkImminentShutdown alice) world_five_and_a_half_left
  = Done true world_five_and_a_half_left
      (Warning alice ("The server is shutting down in 5 minutes" +:+
                      ". You cannot start any new games for the time being.")).
Proof.
  refine (proj1 (proj2 (checkImminentShutdown_spec alice world_five_and_a_half_left)) _ _ _).
  - reflexivity.
  - vm_compute. reflexivity.
  - vm_compute. reflexivity.
Defined.

(** C5 as stated fails: with 5 minutes 30 seconds left, which is more than
    5 minutes, the answer is already true. *)
Lemma checkImminentShutdown_true_above_5_minutes :
  shuttingDown world_five_and_a_half_left = true
  /\ 5 * Minute < ShutdownTimeout
                  - (clock world_five_and_a_half_left
                     - datetimeShutdownInit world_five_and_a_half_left)
  /\ res_value (run (checkImminentShutdown alice) world_five_and_a_half_left) = Some true.
Proof. split; [reflexivity | split; vm_compute; reflexivity]. Qed.


(** ** The loops over tables *)

Section TableLoops.
Context `{Ext : Externals}.

(** The tables of the snapshot are the values of the map; with the map
    keyed by id, each is found again under its own id, and no two share an
    id. *)
Lemma snapshot_lookup (tb : gmap N Table.t) (t : Table.t) :
  keyed_by_id tb -> t ∈ (map_to_list tb).*2 -> tb !! Table.ID t = Some t.
Proof.
  intros Hk Hin. apply list_elem_of_fmap in Hin as ([k t'] & -> & Hin).
  apply elem_of_map_to_list in Hin. simpl.
  rewrite (Hk k t' Hin). exact Hin.
Qed.

Lemma snapshot_elem (tb : gmap N Table.t) (k : N) (t : Table.t) :
  tb !! k = Some t -> t ∈ (map_to_list tb).*2.
Proof.
  intros H. apply list_elem_of_fmap. exists (k, t). split; [reflexivity |].
  apply elem_of_map_to_list. exact H.
Qed.

Lemma snapshot_ids_NoDup (tb : gmap N Table.t) :
  keyed_by_id tb -> NoDup (map Table.ID (map_to_list tb).*2).
Proof.
  intros Hk.
  assert (Heq : map Table.ID (map_to_list tb).*2 = (map_to_list tb).*1).
  { assert (H : forall kt, kt ∈ map_to_list tb -> Table.ID kt.2 = kt.1).
    { intros [k t] Hin. apply elem_of_map_to_list in Hin. simpl. exact (Hk k t Hin). }
    induction (map_to_list tb) as [| kt l IH]; [reflexivity |].
    simpl. rewrite (H kt) by (left).
    f_equal. apply IH. intros kt' Hin. apply H. right. exact Hin. }
  rewrite Heq. apply NoDup_fst_map_to_list.
Qed.

Lemma NoDup_map_filter {A B : Type} (f : A -> B) (P : A -> bool) (l : list A) :
  NoDup (map f l) -> NoDup (map f (List.filter P l)).
Proof.
  induction l as [| a l IH]; simpl; intros H; [constructor |].
  apply NoDup_cons in H as [Hnin Hnd].
  destruct (P a); simpl; [| apply IH, Hnd].
  apply NoDup_cons. split; [| apply IH, Hnd].
  intros Hin. apply Hnin.
  apply list_elem_of_In in Hin. apply in_map_iff in Hin as (x & Hx & Hin).
  apply filter_In in Hin as [Hin _].
  apply list_elem_of_In. apply in_map_iff. exists x. split; [exact Hx | exact Hin].
Qed.

(** When the command on one table leaves the others alone, every table of
    the list is still there at its turn, and gets the command. *)
Lemma run_table_loop (cmd : Session.t -> CommandData.t -> World -> World)
    (mkd : Table.t -> CommandData.t) (ev : Session.t -> CommandData.t -> Event)
    (ts : list Table.t) :
  frames_others cmd ->
  (forall t, CommandData.TableID (mkd t) = Table.ID t) ->
  NoDup (map Table.ID ts) ->
  forall w : World,
  (forall t, t ∈ ts -> tables w !! Table.ID t = Some t) ->
  run (table_loop cmd mkd ev (map Table.ID ts)) w
  = Done tt (fold_left (fun w t => cmd (GetOwnerSession t) (mkd t) w) ts w)
            (map (fun t => ev (GetOwnerSession t) (mkd t)) ts).
Proof.
  intros Hframe Hid. induction ts as [| t ts IH]; intros Hnd w Hin; [reflexivity |].
  unfold table_loop in *. cbn [map]. rewrite run_for_each_cons.
  unfold getTableAndLock at 1. run_simpl.
  rewrite (Hin t) by (left). cbv zeta. run_simpl.
  cbn [map] in Hnd. apply NoDup_cons in Hnd as [Hnin Hnd].
  rewrite IH.
  - simpl. reflexivity.
  - exact Hnd.
  - intros t' Ht'. rewrite Hframe.
    + apply Hin. right. exact Ht'.
    + rewrite Hid. intros Heq. apply Hnin. rewrite <- Heq.
      apply list_elem_of_fmap. exists t'. split; [reflexivity | exact Ht'].
Qed.

Lemma leave_unstarted_is_table_loop (ids : list N) :
  leave_unstarted ids = table_loop commandTableLeave leave_data CommandTableLeave ids.
Proof. reflexivity. Qed.

Lemma terminate_tables_is_table_loop (ids : list N) :
  terminate_tables ids = table_loop commandAction end_game_data CommandAction ids.
Proof. reflexivity. Qed.

Lemma flat_map_singleton {A B : Type} (f : A -> B) (l : list A) :
  flat_map (fun a => [f a]) l = map f l.
Proof. induction l as [| a l IH]; simpl; [reflexivity | rewrite IH; reflexivity]. Qed.

(** The run of the 5-minutes warning when shutdown is still armed at the
    end of its sleep. *)
Lemma run_shutdownXMinutesLeft_5 (w : World) :
  let w1 := wake (ShutdownTimeout - 5 * Minute) w in
  let tableList := (map_to_list (tables w1)).*2 in
  let unstarted := List.filter (fun t => negb (Table.Running t)) tableList in
  keyed_by_id (tables w1) ->
  frames_others commandTableLeave ->
  shuttingDown w1 = true ->
  run (shutdownXMinutesLeft 5) w
  = Done tt
      (fold_left (fun w t => commandTableLeave (GetOwnerSession t) (leave_data t) w) unstarted w1)
      (EvSleep (ShutdownTimeout - 5 * Minute)
       :: map (fun t => CommandTableLeave (GetOwnerSession t) (leave_data t)) unstarted
       ++ ChatServerSend "The server will shutdown in 5 minutes." "lobby"
       :: map (ChatServerSend
                 ("The server will shutdown in 5 minutes." +:+
                  " Finish your game soon or it will be automatically terminated!"))
              (map GetRoomName tableList)).
Proof.
  intros w1 tableList unstarted Hkey Hframe Harmed.
  unfold shutdownXMinutesLeft, time_Sleep, tables_GetList. run_simpl.
  fold w1. rewrite Harmed. cbn [negb]. run_simpl.
  change (5 =? 5) with true. cbv iota.
  fold tableList. fold unstarted.
  rewrite leave_unstarted_is_table_loop.
  rewrite (run_table_loop commandTableLeave leave_data CommandTableLeave unstarted Hframe).
  - cbn [prepend]. unfold chatServerSend. run_simpl.
    rewrite (run_for_each_emit (fun roomName => [ChatServerSend _ roomName])).
    cbn [prepend app]. rewrite flat_map_singleton. reflexivity.
  - reflexivity.
  - apply NoDup_map_filter. apply snapshot_ids_NoDup. exact Hkey.
  - intros t Ht. apply snapshot_lookup; [exact Hkey |].
    apply list_elem_of_In in Ht. apply filter_In in Ht as [Ht _].
    apply list_elem_of_In. exact Ht.
Qed.

(** A loop of commands that each leave the other tables alone leaves
    alone every table that is not in its list. *)
Lemma fold_frames_others (cmd : Session.t -> CommandData.t -> World -> World)
    (mkd : Table.t -> CommandData.t) (ts : list Table.t) :
  frames_others cmd ->
  (forall t, CommandData.TableID (mkd t) = Table.ID t) ->
  forall (w : World) (k : N),
  ~ In k (map Table.ID ts) ->
  tables (fold_left (fun w t => cmd (GetOwnerSession t) (mkd t) w) ts w) !! k = tables w !! k.
Proof.
  intros Hframe Hid. induction ts as [| t ts IH]; intros w k Hnin; [reflexivity |].
  cbn [fold_left]. rewrite IH.
  - apply Hframe. rewrite Hid. intros ->. apply Hnin. left. reflexivity.
  - intros Hin. apply Hnin. right. exact Hin.
Qed.

(** C4: when the 5-minutes warning wakes up with shutdown still armed,
    the leave-table command is carried out, in the name of its owner's
    session, on every table whose [Running] flag is not set, once each:
    the world the timer leaves behind is the world at its wake-up after
    these commands, and the calls are in the trace.  No leave-table
    command goes to a table whose [Running] flag is set, and every such
    table is in the table map afterwards as it was.  The table map is
    keyed by id, and leaving one table does not touch the entries of the
    others. *)
Theorem shutdownXMinutesLeft_5_vacates_unstarted (w : World) :
  let w1 := wake (ShutdownTimeout - 5 * Minute) w in
  let unstarted :=
    List.filter (fun t => negb (Table.Running t)) (map_to_list (tables w1)).*2 in
  keyed_by_id (tables w1) ->
  frames_others commandTableLeave ->
  shuttingDown w1 = true ->
  exists w' tr,
    run (shutdownXMinutesLeft 5) w = Done tt w' tr
    /\ w' = fold_left (fun w t => commandTableLeave (GetOwnerSession t)
                                    (CommandData.mk (Table.ID t) 0 0 0 true) w)
                      unstarted w1
    /\ NoDup (map Table.ID unstarted)
    /\ (forall k t, tables w1 !! k = Some t -> Table.Running t = false ->
        In t unstarted
        /\ CommandTableLeave (GetOwnerSession t) (CommandData.mk (Table.ID t) 0 0 0 true) ∈ tr)
    /\ (forall s d, CommandTableLeave s d ∈ tr ->
        exists t, tables w1 !! CommandData.TableID d = Some t
                  /\ Table.Running t = false
                  /\ s = GetOwnerSession t
                  /\ d = CommandData.mk (Table.ID t) 0 0 0 true)
    /\ (forall k t, tables w1 !! k = Some t -> Table.Running t = true ->
        (forall s d, CommandTableLeave s d ∈ tr -> CommandData.TableID d <> k)
        /\ tables w' !! k = Some t).
Proof.
  intros w1 unstarted Hkey Hframe Harmed.
  pose proof (run_shutdownXMinutesLeft_5 w Hkey Hframe Harmed) as Hrun.
  cbv zeta in Hrun. fold w1 in Hrun.
  eexists _, _. split; [exact Hrun |].
  split; [reflexivity |].
  assert (Hnd : NoDup (map Table.ID unstarted)).
  { apply NoDup_map_filter. apply snapshot_ids_NoDup. exact Hkey. }
  split; [exact Hnd |].
  assert (Hsent : forall s d,
    CommandTableLeave s d ∈
      (EvSleep (ShutdownTimeout - 5 * Minute)
       :: map (fun t => CommandTableLeave (GetOwnerSession t) (leave_data t))
              (List.filter (fun t => negb (Table.Running t)) (map_to_list (tables w1)).*2)
       ++ ChatServerSend "The server will shutdown in 5 minutes." "lobby"
       :: map (ChatServerSend
                 ("The server will shutdown in 5 minutes." +:+
                  " Finish your game soon or it will be automatically terminated!"))
              (map GetRoomName (map_to_list (tables w1)).*2)) ->
    exists t, tables w1 !! CommandData.TableID d = Some t
              /\ Table.Running t = false
              /\ s = GetOwnerSession t
              /\ d = CommandData.mk (Table.ID t) 0 0 0 true).
  { intros s d Hin.
    apply elem_of_cons in Hin as [Hin | Hin]; [discriminate |].
    apply elem_of_app in Hin as [Hin | Hin].
    - apply list_elem_of_In, in_map_iff in Hin as (t & Heq & Hin).
      apply filter_In in Hin as [Hin Hrun'].
      inversion Heq; subst s d. exists t. simpl.
      split; [apply snapshot_lookup; [exact Hkey | apply list_elem_of_In; exact Hin] |].
      split; [destruct (Table.Running t); [discriminate | reflexivity] |].
      split; reflexivity.
    - apply elem_of_cons in Hin as [Hin | Hin]; [discriminate |].
      apply list_elem_of_In, in_map_iff in Hin as (r & Heq & _). discriminate. }
  split; [| split].
  - intros k t Hk Hnot.
    assert (Hin : In t unstarted).
    { apply filter_In. split.
      - apply list_elem_of_In. exact (snapshot_elem _ k t Hk).
      - rewrite Hnot. reflexivity. }
    split; [exact Hin |].
    right. apply elem_of_app. left.
    apply list_elem_of_In, in_map_iff. exists t. split; [reflexivity | exact Hin].
  - exact Hsent.
  - intros k t Hk Hrunning. split.
    + intros s d Hin Heq.
      destruct (Hsent s d Hin) as (t' & Hk' & Hnot & _).
      rewrite Heq, Hk in Hk'. inversion Hk'; subst t'. congruence.
    + rewrite (fold_frames_others commandTableLeave leave_data unstarted Hframe);
        [exact Hk | reflexivity |].
      intros Hin. apply in_map_iff in Hin as (t' & Hid & Hin).
      apply filter_In in Hin as [Hin Hnot].
      assert (Hk' : tables w1 !! Table.ID t' = Some t').
      { apply snapshot_lookup; [exact Hkey | apply list_elem_of_In; exact Hin]. }
      rewrite Hid, Hk in Hk'. inversion Hk'; subst t'.
      rewrite Hrunning in Hnot. discriminate.
Qed.

(** One pass of the polling loop at the deadline, with an active table. *)
Lemma run_shutdownWait_body_deadline (w : World) :
  let active := List.filter is_active (map_to_list (tables w)).*2 in
  keyed_by_id (tables w) ->
  frames_others commandAction ->
  shuttingDown w = true ->
  active <> [] ->
  ShutdownTimeout <= clock w - datetimeShutdownInit w ->
  run shutdownWait_body w
  = Done Continue
      (wake Second
         (fold_left (fun w t => commandAction (GetOwnerSession t) (end_game_data t) w) active w))
      (map (fun t => CommandAction (GetOwnerSession t) (end_game_data t)) active
       ++ [EvSleep Second]).
Proof.
  intros active Hkey Hframe Harmed Hsome Hdead.
  unfold shutdownWait_body. run_simpl. rewrite Harmed. cbn [negb].
  run_simpl. rewrite countActiveTables_run. cbn [prepend]. fold active.
  assert (Hpos : 0 < Z.of_nat (length active)).
  { destruct active; [congruence | simpl; lia]. }
  destruct (Z.eqb_spec (Z.of_nat (length active)) 0) as [H0 | _]; [lia |].
  run_simpl.
  destruct (Z.gtb_spec (Z.of_nat (length active)) 0) as [_ | H0]; [| lia].
  destruct (Z.geb_spec (clock w - datetimeShutdownInit w) ShutdownTimeout) as [_ | H0]; [| lia].
  cbn [andb]. unfold tables_GetList. run_simpl. fold active.
  rewrite terminate_tables_is_table_loop.
  rewrite (run_table_loop commandAction end_game_data CommandAction active Hframe).
  - cbn [prepend]. unfold time_Sleep. run_simpl. cbn [run prepend app].
    rewrite ?app_nil_r. reflexivity.
  - reflexivity.
  - apply NoDup_map_filter. apply snapshot_ids_NoDup. exact Hkey.
  - intros t Ht. apply snapshot_lookup; [exact Hkey |].
    apply list_elem_of_In in Ht. apply filter_In in Ht as [Ht _].
    apply list_elem_of_In. exact Ht.
Qed.

(** One pass of the polling loop when no table is active: this is the pass
    that runs [shutdownImmediate]. *)
Lemma run_shutdownWait_body_idle (w : World) :
  shuttingDown w = true ->
  List.filter is_active (map_to_list (tables w)).*2 = [] ->
  run shutdownWait_body w
  = prepend [EvSleep (Second * 10); LogInfo "There are 0 active tables left."]
      (match run shutdownImmediate (wake (Second * 10) w) with
       | Done _ w' tr => Done Break w' tr
       | Parked w' tr => Parked w' tr
       end).
Proof.
  intros Harmed Hnone.
  unfold shutdownWait_body. run_simpl. rewrite Harmed. cbn [negb].
  run_simpl. rewrite countActiveTables_run. cbn [prepend]. rewrite Hnone.
  change (Z.of_nat (length []) =? 0) with true. cbv iota.
  unfold time_Sleep, logger_Info at 1. run_simpl.
  destruct (run shutdownImmediate (wake (Second * 10) w)); simpl.
  - rewrite app_nil_r. reflexivity.
  - reflexivity.
Qed.

(** C3, as amended: on a pass of the polling loop with shutdown armed, the
    countdown elapsed and at least one table active, every table whose
    [Running] flag is set and whose [Replay] flag is not gets an end-game
    action that carries [EndConditionTerminated], in the name of its
    owner's session; the pass makes no other call than these and the sleep
    of one second that ends it, and the loop goes on: it does not run
    [shutdownImmediate].  The pass that does is one that finds shutdown
    armed and no table active.  The table map is keyed by id, and an action
    on one table does not touch the entries of the others. *)
Theorem shutdownWait_deadline_ends_games (w : World) :
  keyed_by_id (tables w) ->
  frames_others commandAction ->
  shuttingDown w = true ->
  (exists k t, tables w !! k = Some t /\ Table.Running t = true /\ Table.Replay t = false) ->
  ShutdownTimeout <= clock w - datetimeShutdownInit w ->
  exists w' tr,
    run shutdownWait_body w = Done Continue w' tr
    /\ (forall k t, tables w !! k = Some t ->
        Table.Running t = true -> Table.Replay t = false ->
        CommandAction (GetOwnerSession t)
          (CommandData.mk (Table.ID t) ActionTypeEndGame (-1) EndConditionTerminated true) ∈ tr)
    /\ (forall e, e ∈ tr ->
        e = EvSleep Second
        \/ exists t, tables w !! Table.ID t = Some t
                     /\ Table.Running t = true /\ Table.Replay t = false
                     /\ e = CommandAction (GetOwnerSession t)
                            (CommandData.mk (Table.ID t) ActionTypeEndGame (-1)
                                            EndConditionTerminated true))
    /\ last tr = Some (EvSleep Second)
    /\ ~ In BlockSet tr
    /\ (forall w2, shuttingDown w2 = true ->
        List.filter is_active (map_to_list (tables w2)).*2 = [] ->
        run shutdownWait_body w2
        = prepend [EvSleep (Second * 10); LogInfo "There are 0 active tables left."]
            (match run shutdownImmediate (wake (Second * 10) w2) with
             | Done _ w3 tr3 => Done Break w3 tr3
             | Parked w3 tr3 => Parked w3 tr3
             end)).
Proof.
  intros Hkey Hframe Harmed (k0 & t0 & Hk0 & Hr0 & Hp0) Hdead.
  assert (Hact : forall k t, tables w !! k = Some t ->
            Table.Running t = true -> Table.Replay t = false ->
            In t (List.filter is_active (map_to_list (tables w)).*2)).
  { intros k t Hk Hr Hp. apply filter_In. split.
    - apply list_elem_of_In. exact (snapshot_elem _ k t Hk).
    - unfold is_active. rewrite Hr, Hp. reflexivity. }
  assert (Hsome : List.filter is_active (map_to_list (tables w)).*2 <> []).
  { intros Hnil. pose proof (Hact k0 t0 Hk0 Hr0 Hp0) as Hin. rewrite Hnil in Hin. exact Hin. }
  pose proof (run_shutdownWait_body_deadline w Hkey Hframe Harmed Hsome Hdead) as Hrun.
  cbv zeta in Hrun.
  eexists _, _. split; [exact Hrun |]. split; [| split; [| split; [| split]]].
  - intros k t Hk Hr Hp. apply elem_of_app. left.
    apply list_elem_of_In, in_map_iff. exists t. split; [reflexivity |].
    exact (Hact k t Hk Hr Hp).
  - intros e He. apply elem_of_app in He as [He | He].
    + right. apply list_elem_of_In, in_map_iff in He as (t & <- & Hin).
      apply filter_In in Hin as [Hin Ha]. exists t.
      unfold is_active in Ha. apply andb_prop in Ha as [Hr Hp].
      split; [apply snapshot_lookup; [exact Hkey | apply list_elem_of_In; exact Hin] |].
      split; [exact Hr |]. split; [| reflexivity].
      destruct (Table.Replay t); [discriminate | reflexivity].
    + left. apply list_elem_of_singleton in He. exact He.
  - apply last_snoc.
  - intros Hin. apply in_app_or in Hin as [Hin | [Hin | []]]; [| discriminate].
    apply in_map_iff in Hin as (t & Heq & _). discriminate.
  - intros w2 Harmed2 Hnone. exact (run_shutdownWait_body_idle w2 Harmed2 Hnone).
Qed.
End TableLoops.

(** ** The sample worlds and collaborators *)

Lemma sample_tables_keyed (l : list Table.t) :
  keyed_by_id (list_to_map (map (fun t => (Table.ID t, t)) l)).
Proof.
  induction l as [| a l IH]; intros k t H.
  - simpl in H. rewrite lookup_empty in H. discriminate.
  - simpl in H. destruct (decide (Table.ID a = k)) as [<- | Hne].
    + rewrite lookup_insert_eq in H. inversion H. reflexivity.
    + rewrite lookup_insert_ne in H by exact Hne. exact (IH k t H).
Qed.

Lemma sample_leave_frames_others : frames_others (commandTableLeave (Externals := sample_ext)).
Proof. intros s d w k Hne. simpl. apply lookup_delete_ne. congruence. Qed.

Lemma sample_action_frames_others : frames_others (commandAction (Externals := sample_ext)).
Proof. intros s d w k Hne. simpl. apply lookup_alter_ne. congruence. Qed.

Lemma refusing_action_frames_others : frames_others (commandAction (Externals := refusing_ext)).
Proof. intros s d w k Hne. reflexivity. Qed.

(** C4 at a sample input: of a started game, an unstarted table and a
    replay, the unstarted table is the one that is left: it is gone from
    the table map afterwards, and the other two are still there. *)
Lemma shutdownXMinutesLeft_5_sample :
  run (shutdownXMinutesLeft 5) world_armed
  = Done tt
      (set_clock (10 * Minute) (set_tables (delete 2%N (tables world_armed)) world_armed))
      [EvSleep (10 * Minute);
       CommandTableLeave (GetOwnerSession table_unstarted) (CommandData.mk 2%N 0 0 0 true);
       ChatServerSend "The server will shutdown in 5 minutes." "lobby";
       ChatServerSend ("The server will shutdown in 5 minutes." +:+
                       " Finish your game soon or it will be automatically terminated!") "table2";
       ChatServerSend ("The server will shutdown in 5 minutes." +:+
                       " Finish your game soon or it will be automatically terminated!") "table3";
       ChatServerSend ("The server will shutdown in 5 minutes." +:+
                       " Finish your game soon or it will be automatically terminated!") "table1"]
  /\ exists w' tr,
       run (shutdownXMinutesLeft 5) world_armed = Done tt w' tr
       /\ tables w' !! 2%N = None
       /\ tables w' !! 1%N = Some table_started
       /\ tables w' !! 3%N = Some table_replay
       /\ (forall s d, CommandTableLeave s d ∈ tr -> CommandData.TableID d <> 1%N).
Proof.
  split; [vm_compute; reflexivity |].
  pose proof (shutdownXMinutesLeft_5_vacates_unstarted world_armed) as H.
  cbv zeta in H.
  destruct H as (w' & tr & Hrun & Hw' & _ & _ & _ & Hkept);
    [ exact (sample_tables_keyed [table_started; table_unstarted; table_replay])
    | exact sample_leave_frames_others
    | reflexivity
    | ].
  exists w', tr. split; [exact Hrun |].
  split; [rewrite Hw'; vm_compute; reflexivity |].
  split; [apply (Hkept 1%N table_started); reflexivity |].
  split; [apply (Hkept 3%N table_replay); reflexivity |].
  apply (Hkept 1%N table_started); reflexivity.
Defined.

(** C3 at a sample input: the started game is the one that gets the
    end-game action, and the pass ends with the loop going on. *)
Lemma shutdownWait_deadline_sample :
  run shutdownWait_body world_deadline
  = Done Continue
      (set_clock (15 * Minute + Second)
         (set_tables (alter (set_Running false) 1%N (tables world_deadline)) world_deadline))
      [CommandAction (GetOwnerSession table_started)
         (CommandData.mk 1%N ActionTypeEndGame (-1) EndConditionTerminated true);
       EvSleep Second]
  /\ exists w' tr,
       run shutdownWait_body world_deadline = Done Continue w' tr
       /\ (forall k t, tables world_deadline !! k = Some t ->
           Table.Running t = true -> Table.Replay t = false ->
           CommandAction (GetOwnerSession t)
             (CommandData.mk (Table.ID t) ActionTypeEndGame (-1) EndConditionTerminated true)
           ∈ tr)
       /\ (forall e, e ∈ tr ->
           e = EvSleep Second
           \/ exists t, tables world_deadline !! Table.ID t = Some t
                        /\ Table.Running t = true /\ Table.Replay t = false
                        /\ e = CommandAction (GetOwnerSession t)
                               (CommandData.mk (Table.ID t) ActionTypeEndGame (-1)
                                               EndConditionTerminated true))
       /\ last tr = Some (EvSleep Second).
Proof.
  split; [vm_compute; reflexivity |].
  assert (H : exists w' tr,
    run shutdownWait_body world_deadline = Done Continue w' tr
    /\ (forall k t, tables world_deadline !! k = Some t ->
        Table.Running t = true -> Table.Replay t = false ->
        CommandAction (GetOwnerSession t)
          (CommandData.mk (Table.ID t) ActionTypeEndGame (-1) EndConditionTerminated true)
        ∈ tr)
    /\ (forall e, e ∈ tr ->
        e = EvSleep Second
        \/ exists t, tables world_deadline !! Table.ID t = Some t
                     /\ Table.Running t = true /\ Table.Replay t = false
                     /\ e = CommandAction (GetOwnerSession t)
                            (CommandData.mk (Table.ID t) ActionTypeEndGame (-1)
                                            EndConditionTerminated true))
    /\ last tr = Some (EvSleep Second)
    /\ ~ In BlockSet tr
    /\ (forall w2, shuttingDown w2 = true ->
        List.filter is_active (map_to_list (tables w2)).*2 = [] ->
        run shutdownWait_body w2
        = prepend [EvSleep (Second * 10); LogInfo "There are 0 active tables left."]
            (match run shutdownImmediate (wake (Second * 10) w2) with
             | Done _ w3 tr3 => Done Break w3 tr3
             | Parked w3 tr3 => Parked w3 tr3
             end))); [| destruct H as (w' & tr & H1 & H2 & H3 & H4 & _);
                        exists w', tr; repeat split; assumption].
  apply (shutdownWait_deadline_ends_games world_deadline).
  - exact (sample_tables_keyed [table_started; table_unstarted; table_replay]).
  - exact sample_action_frames_others.
  - reflexivity.
  - exists 1%N, table_started. repeat split; reflexivity.
  - vm_compute. discriminate.
Defined.

(** With a collaborator that ends the game, the pass after the deadline
    pass finds no active table and runs [shutdownImmediate]: two passes
    suffice, and every session has then been told. *)
Lemma shutdownWait_terminates_once_games_end :
  res_value (run (shutdownWait 2) world_deadline) = Some (Some tt)
  /\ In BlockSet (res_trace (run (shutdownWait 2) world_deadline))
  /\ In (NotifySoundLobby alice "shutdown") (res_trace (run (shutdownWait 2) world_deadline))
  /\ In (NotifySoundLobby bob "shutdown") (res_trace (run (shutdownWait 2) world_deadline)).
Proof. vm_compute. intuition. Qed.

(** With the end-game action refused, every pass at the deadline sends the
    action again and leaves the world as it was but for the clock. *)
Lemma refused_pass (c : Z) :
  15 * Minute <= c ->
  run (shutdownWait_body (Ext := refusing_ext)) (set_clock c world_armed)
  = Done Continue (set_clock (c + Second) world_armed)
      [CommandAction (GetOwnerSession (Externals := refusing_ext) table_started)
         (CommandData.mk 1%N 4 (-1) 4 true);
       EvSleep Second].
Proof.
  intros Hc.
  rewrite (run_shutdownWait_body_deadline (Ext := refusing_ext) (set_clock c world_armed)).
  - reflexivity.
  - exact (sample_tables_keyed [table_started; table_unstarted; table_replay]).
  - exact refusing_action_frames_others.
  - reflexivity.
  - vm_compute. discriminate.
  - change (15 * Minute <= c - 0). lia.
Qed.

Lemma refused_loop (fuel : nat) : forall c : Z,
  15 * Minute <= c ->
  ~ In (LogInfo "Initiating an immediate server shutdown.")
       (res_trace (run (shutdownWait (Ext := refusing_ext) fuel) (set_clock c world_armed))).
Proof.
  assert (HS : 0 < Second) by (vm_compute; reflexivity).
  induction fuel as [| fuel IH]; intros c Hc.
  - simpl. intros [].
  - cbn [shutdownWait]. rewrite run_bind, (refused_pass c Hc). cbn beta iota.
    specialize (IH (c + Second) ltac:(lia)).
    destruct (run (shutdownWait fuel) (set_clock (c + Second) world_armed)) as [a w' tr | w' tr];
      simpl in *; intros [H | [H | H]]; try discriminate; exact (IH H).
Qed.

(** C3 as stated fails: when the end-game action is refused and the game
    stays active, the pass at the deadline ends with the loop going on, and
    no later pass runs [shutdownImmediate] either. *)
Lemma shutdownWait_deadline_does_not_terminate :
  shuttingDown world_deadline = true
  /\ ShutdownTimeout (Externals := refusing_ext)
     <= clock world_deadline - datetimeShutdownInit world_deadline
  /\ tables world_deadline !! 1%N = Some table_started
  /\ is_active table_started = true
  /\ run (shutdownWait_body (Ext := refusing_ext)) world_deadline
     = Done Continue (set_clock (15 * Minute + Second) world_deadline)
         [CommandAction (GetOwnerSession (Externals := refusing_ext) table_started)
            (CommandData.mk 1%N 4 (-1) 4 true);
          EvSleep Second]
  /\ ~ (exists fuel,
          In (LogInfo "Initiating an immediate server shutdown.")
             (res_trace (run (shutdownWait (Ext := refusing_ext) fuel) world_deadline))).
Proof.
  split; [reflexivity |]. split; [vm_compute; discriminate |].
  split; [reflexivity |]. split; [reflexivity |].
  split; [vm_compute; reflexivity |].
  intros [fuel H]. apply (refused_loop fuel (15 * Minute)); [lia | exact H].
Qed.

(** ** The shutdown goroutine among command goroutines *)

Lemma gexec_app {A : Type} (ms1 ms2 : list Move) (c : Config A) :
  gexec (ms1 ++ ms2) c =
  match gexec ms1 c with
  | Some (c1, tr1) =>
      match gexec ms2 c1 with
      | Some (c2, tr2) => Some (c2, tr1 ++ tr2)
      | None => None
      end
  | None => None
  end.
Proof.
  revert c. induction ms1 as [| m ms1 IH]; intros c; simpl.
  - destruct (gexec ms2 c) as [[c2 tr2] |]; reflexivity.
  - destruct (gstep m c) as [[c1 evs] |]; [| reflexivity].
    rewrite IH. destruct (gexec ms1 c1) as [[c1' tr1] |]; [| reflexivity].
    destruct (gexec ms2 c1') as [[c2 tr2] |]; [| reflexivity].
    rewrite app_assoc. reflexivity.
Qed.

(** Programs that leave the gate alone. *)
Lemma quiet_bind {A B : Type} (p : Prog A) (f : A -> Prog B) :
  quiet p -> (forall a, quiet (f a)) -> quiet (bind p f).
Proof.
  intros Hp Hf. induction p as [a | X act k IH]; simpl in *.
  - apply Hf.
  - destruct Hp as [Hact Hk]. split; [exact Hact |].
    intros x. apply IH. apply Hk.
Qed.

Lemma quiet_emit (evs : list Event) : quiet (emit evs).
Proof.
  simpl. split; [| exact (fun _ => I)].
  intros w x w' evs' Heq. inversion Heq; subst. auto.
Qed.

Lemma quiet_read {X : Type} (f : World -> X) : quiet (read f).
Proof.
  simpl. split; [| exact (fun _ => I)].
  intros w x w' evs' Heq. inversion Heq; subst. auto.
Qed.

Lemma quiet_for_each {X : Type} (l : list X) (body : X -> Prog unit) :
  (forall x, quiet (body x)) -> quiet (for_each l body).
Proof.
  intros Hb. induction l as [| x l IH]; simpl; [exact I |].
  apply quiet_bind; [apply Hb | intros _; exact IH].
Qed.

Section Drain.
Context `{Ext : Externals}.

Lemma quiet_stop : quiet shutdownImmediate_stop.
Proof.
  unfold shutdownImmediate_stop.
  apply quiet_bind; [apply quiet_read |]. intros ts.
  apply quiet_bind; [apply quiet_emit |]. intros _.
  destruct (String.eqb GOOS "windows").
  - apply quiet_emit.
  - apply quiet_bind; [apply quiet_emit |]. intros _.
    destruct (executeScript "stop.sh"); [| exact I].
    apply quiet_emit.
Qed.

Lemma quiet_drained_tail : quiet drained_tail.
Proof.
  unfold drained_tail.
  apply quiet_bind; [apply quiet_read |]. intros l.
  apply quiet_bind; [| intros _; apply quiet_stop].
  apply quiet_for_each. intros s.
  apply quiet_bind; [| intros _; apply quiet_emit].
  apply quiet_emit.
Qed.

Lemma env_move_flag (e : EnvMove) (w w' : World) :
  env_move e w = Some w' -> blockAllIncomingMessages w' = blockAllIncomingMessages w.
Proof.
  destruct e; simpl.
  - destruct (blockAllIncomingMessages w) eqn:E; [discriminate |].
    intros H; inversion H; subst. simpl. exact E.
  - destruct (0 <? commandWaitGroup w); [| discriminate]. intros H; inversion H. reflexivity.
  - destruct (0 <? commandWaitGroup w); [| discriminate]. intros H; inversion H. reflexivity.
  - intros H; inversion H. reflexivity.
Qed.

(** With the flag set and nothing in flight, no command enters, leaves or
    mutates: the counter stays at zero. *)
Lemma env_move_drained (e : EnvMove) (w w' : World) :
  blockAllIncomingMessages w = true -> commandWaitGroup w = 0 ->
  env_move e w = Some w' -> commandWaitGroup w' = 0.
Proof.
  intros Hf Hc. destruct e; simpl; rewrite ?Hf, ?Hc; simpl; try discriminate.
  intros H; inversion H. exact Hc.
Qed.

Lemma stage_step (m : Move) (p : Prog unit) (w : World) (tr : list Event)
    (p' : Prog unit) (w' : World) (evs : list Event) :
  stage p w tr -> gstep m (p, w) = Some ((p', w'), evs) -> stage p' w' (tr ++ evs).
Proof.
  intros Hst Hstep. destruct m as [| e].
  - (* the goroutine moves *)
    destruct Hst as [w | w | w | w Hf | p w rest Hq Hf Hc].
    + inversion Hstep; subst. apply stage_logged.
    + inversion Hstep; subst. apply stage_blocking.
    + inversion Hstep; subst. apply stage_waiting. reflexivity.
    + simpl in Hstep. destruct (commandWaitGroup w =? 0) eqn:Hc; [| discriminate].
      inversion Hstep; subst. apply Z.eqb_eq in Hc.
      apply (stage_drained _ _ []); [| exact Hf | exact Hc].
      assert (Hq : quiet (logger_Info "All WebSocket commands have completed." ;;
                          drained_tail)).
      { apply quiet_bind; [| intros _; apply quiet_drained_tail].
        apply quiet_emit. }
      exact Hq.
    + destruct p as [a | X act k]; simpl in Hstep; [discriminate |].
      destruct (act w) as [[[x w1] evs1] |] eqn:Hact; [| discriminate].
      inversion Hstep; subst. destruct Hq as [Hact' Hk].
      destruct (Hact' w x w' evs Hact) as (Hf' & Hc').
      rewrite <- app_assoc. apply stage_drained; [apply Hk | congruence | congruence].
  - (* another goroutine moves *)
    simpl in Hstep. destruct (env_move e w) as [w1 |] eqn:He; [| discriminate].
    inversion Hstep; subst. rewrite app_nil_r.
    pose proof (env_move_flag e w w' He) as Hflag.
    destruct Hst as [w | w | w | w Hf | p w rest Hq Hf Hc].
    + apply stage_start.
    + apply stage_logged.
    + apply stage_blocking.
    + apply stage_waiting. congruence.
    + apply stage_drained; [exact Hq | congruence |].
      exact (env_move_drained e w w' Hf Hc He).
Qed.

Lemma stage_gexec (ms : list Move) : forall (p : Prog unit) (w : World) (tr : list Event)
    (p' : Prog unit) (w' : World) (tr' : list Event),
  stage p w tr -> gexec ms (p, w) = Some ((p', w'), tr') -> stage p' w' (tr ++ tr').
Proof.
  induction ms as [| m ms IH]; intros p w tr p' w' tr' Hst Hex; simpl in Hex.
  - inversion Hex; subst. rewrite app_nil_r. exact Hst.
  - destruct (gstep m (p, w)) as [[[p1 w1] evs] |] eqn:Hstep; [| discriminate].
    destruct (gexec ms (p1, w1)) as [[[p2 w2] tr2] |] eqn:Hrest; [| discriminate].
    inversion Hex; subst. rewrite app_assoc.
    apply (IH p1 w1 (tr ++ evs) p' w' tr2); [| exact Hrest].
    exact (stage_step m p w tr p1 w1 evs Hst Hstep).
Qed.

Lemma stage_trace_order (p : Prog unit) (w : World) (tr : list Event) :
  stage p w tr ->
  forall pre e post, tr = pre ++ e :: post -> notifies e = true ->
  exists a b c, pre = a ++ BlockSet :: b ++ WaitReturned :: c.
Proof.
  intros Hst pre e post Heq Hn.
  assert (Hshort : forall l : list Event,
            Forall (fun x => notifies x = false) l -> l = pre ++ e :: post -> False).
  { intros l Hall ->. apply Forall_app in Hall as [_ Hall].
    apply Forall_cons in Hall as [He _]. congruence. }
  destruct Hst as [w | w | w | w Hf | p w rest Hq Hf Hc];
    try solve [exfalso; eapply Hshort; [| exact Heq]; repeat constructor].
  destruct pre as [| x1 pre]; [inversion Heq; subst; discriminate |].
  destruct pre as [| x2 pre]; [inversion Heq; subst; discriminate |].
  destruct pre as [| x3 pre]; [inversion Heq; subst; discriminate |].
  destruct pre as [| x4 pre]; [inversion Heq; subst; discriminate |].
  inversion Heq; subst.
  exists [LogInfo "Initiating an immediate server shutdown.";
          LogInfo "Waiting for all ongoing WebSocket commands to finish execution..."],
         [], pre.
  reflexivity.
Qed.

(** C1: in every interleaving of [shutdownImmediate] with the command
    goroutines, a call that notifies a session comes after the return of
    the wait, which comes after the setting of the flag; whenever the next
    action of the goroutine notifies a session, and at every point after
    the wait has returned, the flag is set and no command is in flight. *)
Theorem shutdownImmediate_drains_before_notifying (ms : list Move) (w0 : World)
    (p : Prog unit) (w : World) (tr : list Event) :
  gexec ms (shutdownImmediate, w0) = Some ((p, w), tr) ->
  (forall pre e post, tr = pre ++ e :: post -> notifies e = true ->
     exists a b c, pre = a ++ BlockSet :: b ++ WaitReturned :: c)
  /\ (forall c' evs, gstep Thread (p, w) = Some (c', evs) ->
      (exists e, In e evs /\ notifies e = true) ->
      blockAllIncomingMessages w = true /\ commandWaitGroup w = 0)
  /\ (In WaitReturned tr -> blockAllIncomingMessages w = true /\ commandWaitGroup w = 0).
Proof.
  intros Hex.
  pose proof (stage_gexec ms shutdownImmediate w0 [] p w tr (stage_start w0) Hex) as Hst.
  simpl in Hst.
  split; [exact (stage_trace_order p w tr Hst) |]. split.
  - intros c' evs Hstep (e & Hin & Hn).
    destruct Hst as [w | w | w | w Hf | p w rest Hq Hf Hc]; [| | | | split; assumption];
      exfalso.
    + inversion Hstep; subst. destruct Hin as [<- | []]. discriminate.
    + inversion Hstep; subst. destruct Hin as [<- | []]. discriminate.
    + inversion Hstep; subst. destruct Hin as [<- | []]. discriminate.
    + simpl in Hstep. destruct (commandWaitGroup w =? 0); [| discriminate].
      inversion Hstep; subst. destruct Hin as [<- | []]. discriminate.
  - intros Hin.
    destruct Hst as [w | w | w | w Hf | p w rest Hq Hf Hc]; [| | | | split; assumption];
      exfalso; simpl in Hin; intuition discriminate.
Qed.
End Drain.

(** C1 at a sample input: one command is in flight, a second one enters
    before the flag is set, and both finish while the goroutine waits. *)
Lemma shutdownImmediate_drains_sample :
  exists w tr,
    gexec sample_schedule (shutdownImmediate, world_one_in_flight) = Some ((Ret tt, w), tr)
    /\ frames tr = [(7%N, TextMessage,
                     "error {" +:+ dq +:+ "error" +:+ dq +:+ ":" +:+ dq +:+
                     shutdown_message +:+ dq +:+ "}")]
    /\ (forall pre e post, tr = pre ++ e :: post -> notifies e = true ->
        exists a b c, pre = a ++ BlockSet :: b ++ WaitReturned :: c)
    /\ (In WaitReturned tr -> blockAllIncomingMessages w = true /\ commandWaitGroup w = 0).
Proof.
  destruct (gexec sample_schedule (shutdownImmediate, world_one_in_flight))
    as [[[p w] tr] |] eqn:Hex; [| vm_compute in Hex; discriminate].
  pose proof (shutdownImmediate_drains_before_notifying
                sample_schedule world_one_in_flight p w tr Hex) as (HA & _ & HC).
  exists w, tr.
  vm_compute in Hex. inversion Hex; subst.
  split; [reflexivity |]. split; [vm_compute; reflexivity |].
  split; [exact HA | exact HC].
Defined.

(** ** The goroutine does finish *)

(** A run of a goroutine on its own is the schedule that lets only it
    move. *)
Lemma run_as_schedule {A : Type} (p : Prog A) : forall (w : World) (a : A) (w' : World)
    (tr : list Event),
  run p w = Done a w' tr ->
  exists n, gexec (repeat Thread n) (p, w) = Some ((Ret a, w'), tr).
Proof.
  induction p as [a0 | X act k IH]; intros w a w' tr Hrun; simpl in Hrun.
  - inversion Hrun; subst. exists 0%nat. reflexivity.
  - destruct (act w) as [[[x w1] evs] |] eqn:Hact; [| discriminate].
    destruct (run (k x) w1) as [a1 w2 tr1 | w2 tr1] eqn:Hk; [| discriminate].
    simpl in Hrun. inversion Hrun; subst.
    destruct (IH x w1 a w' tr1 Hk) as [n Hn].
    exists (S n). simpl. rewrite Hact, Hn. reflexivity.
Qed.

Lemma releases_drain (n : nat) : forall (p : Prog unit) (w : World),
  commandWaitGroup w = Z.of_nat n ->
  gexec (repeat (Env GateRelease) n) (p, w) = Some ((p, set_commandWaitGroup 0 w), []).
Proof.
  induction n as [| n IH]; intros p w Hc.
  - simpl. destruct w; simpl in *. subst. reflexivity.
  - cbn [repeat gexec gstep env_move fst snd].
    destruct (Z.ltb_spec 0 (commandWaitGroup w)) as [_ | Hle]; [| lia].
    rewrite IH by (simpl; lia). reflexivity.
Qed.

Section Progress.
Context `{Ext : Externals}.

Lemma run_drained_tail (w : World) :
  exists tail,
    run drained_tail w = Done tt w (flat_map notify_calls (map_to_list (sessions w)).*2 ++ tail).
Proof.
  destruct (run_stop w) as (tail & Hrun & _). exists tail.
  unfold drained_tail, sessions_GetList. run_simpl.
  rewrite run_notify_loop. cbn [prepend]. rewrite Hrun. reflexivity.
Qed.

(** X1: whatever the number of commands in flight, there is a schedule on which
    [shutdownImmediate] returns: the commands finish, the wait returns and
    every session of the registry is notified. *)
Lemma shutdownImmediate_can_finish (w0 : World) :
  0 <= commandWaitGroup w0 ->
  exists ms w tr,
    gexec ms (shutdownImmediate, w0) = Some ((Ret tt, w), tr)
    /\ forall k s, sessions w0 !! k = Some s -> In (NotifySoundLobby s "shutdown") tr.
Proof.
  intros Hn.
  set (w1 := set_blockAllIncomingMessages true w0).
  set (w2 := set_commandWaitGroup 0 w1).
  destruct (run_drained_tail w2) as (tail & Hrun).
  assert (Hrest : exists n,
    gexec (repeat Thread n)
      (((commandWaitGroup_Wait ;; logger_Info "All WebSocket commands have completed.") ;;
        drained_tail), w2)
    = Some ((Ret tt, w2),
            [WaitReturned; LogInfo "All WebSocket commands have completed."]
            ++ flat_map notify_calls (map_to_list (sessions w0)).*2 ++ tail)).
  { apply run_as_schedule.
    rewrite run_bind.
    change (run (commandWaitGroup_Wait ;; logger_Info "All WebSocket commands have completed.") w2)
      with (Done tt w2 [WaitReturned; LogInfo "All WebSocket commands have completed."]).
    cbn beta iota. rewrite Hrun. reflexivity. }
  destruct Hrest as [n Hrest].
  exists ([Thread; Thread; Thread] ++ repeat (Env GateRelease) (Z.to_nat (commandWaitGroup w0))
          ++ repeat Thread n), w2.
  eexists. split.
  - rewrite gexec_app.
    change (gexec [Thread; Thread; Thread] (shutdownImmediate, w0))
      with (Some ((((commandWaitGroup_Wait ;;
                     logger_Info "All WebSocket commands have completed.") ;;
                    drained_tail), w1),
                  [LogInfo "Initiating an immediate server shutdown.";
                   LogInfo "Waiting for all ongoing WebSocket commands to finish execution...";
                   BlockSet])).
    cbn beta iota. rewrite gexec_app, releases_drain by (simpl; lia).
    fold w2. rewrite Hrest. reflexivity.
  - intros k s Hs. apply in_or_app. right. apply in_or_app. right.
    apply in_or_app. right. apply in_or_app. left.
    apply in_flat_map. exists s. split.
    + apply list_elem_of_In, list_elem_of_fmap. exists (k, s). split; [reflexivity |].
      apply elem_of_map_to_list. exact Hs.
    + unfold notify_calls. apply in_or_app. right. left. reflexivity.
Qed.
End Progress.

(** ** http_ws.go *)

Lemma denial_code_spec (tr : list Event) (code : Z) :
  denial_code tr = Some code ->
  exists pre body, tr = pre ++ [HttpError body code; DeleteCookie].
Proof.
  induction tr as [| e tr IH]; simpl; [discriminate |].
  intros H.
  assert (Hrec : denial_code tr = Some code ->
                 exists pre body, e :: tr = pre ++ [HttpError body code; DeleteCookie]).
  { intros H'. destruct (IH H') as (pre & body & ->). exists (e :: pre), body. reflexivity. }
  destruct e; try (exact (Hrec H)).
  destruct tr as [| e' tr']; [exact (Hrec H) |].
  destruct e'; try (exact (Hrec H)).
  destruct tr'; [| exact (Hrec H)].
  inversion H; subst. exists [], body. reflexivity.
Qed.

Section HttpWSProperties.
Context `{Ext : Externals} `{Mod : Models}.

Lemma run_httpWSInternalError (msg : string) (err : error) (w : World) :
  run (httpWSInternalError msg err ;; Ret HReturned) w
  = Done HReturned w [LogError msg (Some err);
                      HttpError "Internal Server Error" 500; DeleteCookie].
Proof. reflexivity. Qed.

Lemma run_httpWSDeny (msg reason : string) (w : World) :
  run (httpWSDeny msg reason ;; Ret HReturned) w
  = Done HReturned w
      [LogInfo msg;
       HttpError (if String.eqb reason EmptyString then "Unauthorized" else reason) 401;
       DeleteCookie].
Proof. reflexivity. Qed.

Ltac refused_by code :=
  eexists; split; [reflexivity |]; split;
  [reflexivity | repeat constructor; discriminate].

Lemma httpWS_refuses (r : Request) (fuel : nat) (w : World) :
  handshake_fails r = true ->
  exists code, (code = 500 \/ code = 401 \/ code = 400)
               /\ refused (run (httpWS r fuel) w) w code.
Proof.
  unfold handshake_fails, httpWS, refused.
  destruct (SplitHostPort r) as [ip | err]; [| intros _; exists 500; split; [auto |]; refused_by 500].
  destruct (BannedIPs_Check ip) as [[|] | err];
    [intros _; exists 401; split; [auto |]; refused_by 401
    | | intros _; exists 500; split; [auto |]; refused_by 500].
  destruct (MutedIPs_Check ip) as [muted | err];
    [| intros _; exists 500; split; [auto |]; refused_by 500].
  destruct (cookie_userID r) as [| userID |];
    [intros _; exists 401; split; [auto |]; refused_by 401 | | discriminate].
  destruct (Users_GetUsername userID) as [username | err].
  2:{ intros _. destruct (error_eqb err ErrNoRows).
      - exists 401; split; [auto |]; refused_by 401.
      - exists 500; split; [auto |]; refused_by 500. }
  destruct (UserFriends_GetMap userID) as [friendsMap | err];
    [| intros _; exists 500; split; [auto |]; refused_by 500].
  destruct (UserReverseFriends_GetMap userID) as [reverseFriendsMap | err];
    [| intros _; exists 500; split; [auto |]; refused_by 500].
  destruct (UserSettings_IsHyphenated userID) as [hyphenated | err];
    [| intros _; exists 500; split; [auto |]; refused_by 500].
  destruct (Upgrade r) as [conn | err];
    [discriminate | intros _; exists 400; split; [auto |]; refused_by 400].
Qed.

(** C9: on every failure path of [httpWS] (the address does not parse,
    the IP is banned, a ban, mute, username, friends or settings lookup
    fails, the cookie has no user id or the id of a user that is gone, the
    upgrade fails) the handler returns after an HTTP error response with
    status 500, 401 or 400 that is followed at once by the deletion of the
    cookie; the connection is not upgraded, no session is made and the
    world, the session registry with it, is as it was. *)
Theorem httpWS_failure_deletes_cookie (r : Request) (fuel : nat) (w : World) :
  handshake_fails r = true ->
  exists tr pre body code,
    run (httpWS r fuel) w = Done HReturned w tr
    /\ tr = pre ++ [HttpError body code; DeleteCookie]
    /\ (code = 500 \/ code = 401 \/ code = 400)
    /\ Forall (fun e => WsUpgraded <> e) tr
    /\ sessions (res_world (run (httpWS r fuel) w)) = sessions w
    /\ sessionIDCounter (res_world (run (httpWS r fuel) w)) = sessionIDCounter w.
Proof.
  intros Hfail.
  destruct (httpWS_refuses r fuel w Hfail) as (code & Hcode & tr & Hrun & Hden & Hup).
  destruct (denial_code_spec tr code Hden) as (pre & body & Htr).
  exists tr, pre, body, code. rewrite Hrun.
  repeat split; try assumption.
Qed.

Lemma run_NewSession (w : World) :
  run NewSession w = Done (NewSession_at w).1 (NewSession_at w).2 [].
Proof. reflexivity. Qed.

Lemma run_read_loop (r : Request) (fuel : nat) : forall (i : nat) (w : World),
  exists tr, run (read_loop r i fuel) w = Done tt w tr
             /\ Forall (fun e => match e with LogError _ _ | Printf _ => True | _ => False end) tr.
Proof.
  induction fuel as [| fuel IH]; intros i w.
  - exists []. split; [reflexivity | constructor].
  - cbn [read_loop]. destruct (ReadMessage r i) as [msg [e |]].
    + destruct (IH (S i) w) as (tr & Hrun & Hall).
      unfold logger_Error. run_simpl. rewrite Hrun.
      eexists. split; [reflexivity |]. simpl. repeat constructor. exact Hall.
    + destruct (IH (S i) w) as (tr & Hrun & Hall).
      run_simpl. cbn [run prepend]. run_simpl. rewrite Hrun.
      eexists. split; [reflexivity |]. simpl. repeat constructor. exact Hall.
Qed.

(** X11: when every check passes, the connection is upgraded and a session with
    the next id is made for the user of the cookie; the handler then reads
    messages and never deletes the cookie. *)
Lemma httpWS_accepts (r : Request) (fuel : nat) (w : World) :
  handshake_fails r = false ->
  cookie_userID r <> CookieOther ->
  exists s tr,
    run (httpWS r fuel) w
    = Done (HReading s) (set_sessionIDCounter (uint64_add (sessionIDCounter w) 1) w) tr
    /\ Session.SessionID s = uint64_add (sessionIDCounter w) 1
    /\ cookie_userID r = CookieInt (Session.UserID s)
    /\ In WsUpgraded tr
    /\ ~ In DeleteCookie tr.
Proof.
  unfold handshake_fails, httpWS.
  destruct (SplitHostPort r) as [ip | err]; [| discriminate].
  destruct (BannedIPs_Check ip) as [[|] | err]; [discriminate | | discriminate].
  destruct (MutedIPs_Check ip) as [muted | err]; [| discriminate].
  destruct (cookie_userID r) as [| userID |]; [discriminate | | congruence].
  destruct (Users_GetUsername userID) as [username | err]; [| discriminate].
  destruct (UserFriends_GetMap userID) as [friendsMap | err]; [| discriminate].
  destruct (UserReverseFriends_GetMap userID) as [reverseFriendsMap | err]; [| discriminate].
  destruct (UserSettings_IsHyphenated userID) as [hyphenated | err]; [| discriminate].
  destruct (Upgrade r) as [conn | err]; [| discriminate].
  intros _ _.
  destruct (run_read_loop r fuel 0 (set_sessionIDCounter (uint64_add (sessionIDCounter w) 1) w))
    as (tr & Hrun & Hall).
  unfold logger_Info. run_simpl. rewrite run_NewSession. cbn [prepend fst snd NewSession_at].
  run_simpl. rewrite Hrun. cbn [prepend run].
  eexists _, _. split; [reflexivity |].
  split; [reflexivity |]. split; [reflexivity |]. split.
  - simpl. auto.
  - simpl. intros [H | [H | [H | H]]]; try discriminate.
    rewrite app_nil_r in H. apply list_elem_of_In in H.
    rewrite Forall_forall in Hall. exact (Hall _ H).
Qed.
End HttpWSProperties.

(** C9 at a sample input: a handshake from a banned address. *)
Lemma httpWS_failure_sample :
  handshake_fails request_banned = true
  /\ denial_code (res_trace (run (httpWS request_banned 3) (sample_world [] [] 0 0)))
     = Some 401
  /\ exists tr pre body code,
       run (httpWS request_banned 3) (sample_world [] [] 0 0)
       = Done HReturned (sample_world [] [] 0 0) tr
       /\ tr = pre ++ [HttpError body code; DeleteCookie]
       /\ (code = 500 \/ code = 401 \/ code = 400)
       /\ Forall (fun e => WsUpgraded <> e) tr
       /\ sessions (res_world (run (httpWS request_banned 3) (sample_world [] [] 0 0)))
          = sessions (sample_world [] [] 0 0)
       /\ sessionIDCounter (res_world (run (httpWS request_banned 3) (sample_world [] [] 0 0)))
          = sessionIDCounter (sample_world [] [] 0 0).
Proof.
  split; [reflexivity |]. split; [vm_compute; reflexivity |].
  apply (httpWS_failure_deletes_cookie request_banned 3 (sample_world [] [] 0 0)).
  reflexivity.
Defined.

(** A cookie of a user that is gone is refused with status 401; a good
    handshake makes session 1 and reads. *)
Lemma httpWS_samples :
  denial_code (res_trace (run (httpWS request_orphaned 3) (sample_world [] [] 0 0))) = Some 401
  /\ (exists s, res_value (run (httpWS request_good 3) (sample_world [] [] 0 0))
                = Some (HReading s)
                /\ Session.SessionID s = 1%N /\ Session.Username s = "alice").
Proof.
  split; [vm_compute; reflexivity |].
  eexists. split; [vm_compute; reflexivity |]. split; reflexivity.
Qed.

(** ** replay.ts *)

Module ReplayProperties.
Import Replay.

Lemma clamp_Finite (z final : Z) :
  clamp (Finite z) (Finite 0) (Finite final) = Finite (Z.max 0 (Z.min z final)).
Proof.
  unfold clamp, Math_min, Math_max, num_ltb.
  destruct (Z.ltb_spec final z).
  - destruct (Z.ltb_spec 0 final); f_equal; lia.
  - destruct (Z.ltb_spec 0 z); f_equal; lia.
Qed.

(** Every target but [NaN] is clamped to a whole number of the range. *)
Lemma clamp_range (seg : number) (final : Z) :
  seg <> NaN -> 0 <= final ->
  exists n, clamp seg (Finite 0) (Finite final) = Finite n /\ 0 <= n <= final.
Proof.
  intros Hseg Hpos. destruct seg as [z | | [|]]; [| contradiction | |].
  - exists (Z.max 0 (Z.min z final)). split; [apply clamp_Finite | lia].
  - exists 0. split; [reflexivity | lia].
  - exists final. split; [| lia].
    unfold clamp, Math_min, Math_max, num_ltb. cbn [negb].
    destruct (Z.ltb_spec 0 final); f_equal; lia.
Qed.

Lemma strict_eq_true (a : option number) (n : Z) :
  strict_eq a (Finite n) = true <-> a = Some (Finite n).
Proof.
  destruct a as [[x | | s] |]; simpl.
  - rewrite Z.eqb_eq. split; [intros ->; reflexivity | intros H; inversion H; reflexivity].
  - split; discriminate.
  - split; discriminate.
  - split; discriminate.
Qed.

Section NavigationProperties.
Variable reducer : State -> Action -> State.
Variable globals : Globals.

Lemma dispatched_dispatch (a : Action) (st : Store) :
  dispatched (dispatch reducer a st) = dispatched st ++ [a].
Proof. reflexivity. Qed.

Lemma dispatched_enter (c : number) (st : Store) :
  exists new, dispatched (enter reducer (Some c) st) = dispatched st ++ new
              /\ (new = [] \/ new = [replayEnter c]).
Proof.
  unfold enter. destruct (active (replay (getState st))).
  - exists []. rewrite app_nil_r. auto.
  - exists [replayEnter c]. auto.
Qed.

(** What one call of [goToSegment] dispatches. *)
Lemma goToSegment_dispatched (seg : number) (breakFree force : bool) (st : Store) :
  let n := clamp seg (Finite 0) (ToNumber (turn_segment (getState st))) in
  dispatched (goToSegment reducer globals seg breakFree force st)
  = dispatched st ++
    (if strict_eq (getCurrentReplaySegment st) n then []
     else if hypothetical globals && negb force then []
     else
       (if active (replay (getState st)) then [] else [replayEnter n])
       ++ (if sharedReplay globals && breakFree && useSharedSegments (replay (getState st))
              && negb (amSharedReplayLeader globals)
           then [replayUseSharedSegments false] else [])
       ++ [replaySegment n]
       ++ (if sharedReplay globals && amSharedReplayLeader globals
              && useSharedSegments (replay (getState st))
           then [replaySharedSegment (Some n)] else [])).
Proof.
  cbv zeta. unfold goToSegment.
  destruct (strict_eq _ _); [rewrite app_nil_r; reflexivity |].
  destruct (hypothetical globals && negb force); [rewrite app_nil_r; reflexivity |].
  unfold enter.
  destruct (active (replay (getState st)));
    destruct (sharedReplay globals && breakFree && useSharedSegments (replay (getState st))
              && negb (amSharedReplayLeader globals));
    destruct (sharedReplay globals && amSharedReplayLeader globals
              && useSharedSegments (replay (getState st)));
    cbn [dispatch dispatched app]; rewrite <- ?app_assoc; reflexivity.
Qed.

(** X22: for every target other than [NaN], [goToSegment] moves to the
    requested segment clamped into [0 .. final segment]: every action it
    dispatches that names a segment names the clamped one.  It dispatches
    nothing and leaves the store as it is when the clamped target is the
    current segment, and when a hypothetical is active and [force] is not
    set; otherwise it dispatches the move to the clamped target.  So
    [back] at segment 0 and [forward] at the final segment change
    nothing. *)
Theorem goToSegment_clamps (seg : number) (breakFree force : bool) (st : Store) (final : Z) :
  seg <> NaN ->
  turn_segment (getState st) = Some (Finite final) ->
  0 <= final ->
  exists n,
    clamp seg (Finite 0) (Finite final) = Finite n
    /\ 0 <= n <= final
    /\ (forall z, seg = Finite z -> n = Z.max 0 (Z.min z final))
    /\ (exists new,
          dispatched (goToSegment reducer globals seg breakFree force st) = dispatched st ++ new
          /\ (forall a, In a new ->
                a = replayEnter (Finite n)
                \/ a = replayUseSharedSegments false
                \/ a = replaySegment (Finite n)
                \/ a = replaySharedSegment (Some (Finite n)))
          /\ (getCurrentReplaySegment st <> Some (Finite n) ->
              hypothetical globals && negb force = false ->
              In (replaySegment (Finite n)) new))
    /\ (getCurrentReplaySegment st = Some (Finite n) ->
        goToSegment reducer globals seg breakFree force st = st)
    /\ (hypothetical globals = true -> force = false ->
        goToSegment reducer globals seg breakFree force st = st)
    /\ (getCurrentReplaySegment st = Some (Finite 0) -> back reducer globals breakFree st = st)
    /\ (getCurrentReplaySegment st = Some (Finite final) -> forward reducer globals st = st).
Proof.
  intros Hseg Hfinal Hpos.
  destruct (clamp_range seg final Hseg Hpos) as (n & Hn & Hrange).
  exists n. split; [exact Hn |]. split; [exact Hrange |].
  split; [intros z ->; rewrite clamp_Finite in Hn; inversion Hn; reflexivity |].
  split; [| split; [| split; [| split]]].
  - unfold goToSegment. rewrite Hfinal. cbn [ToNumber]. rewrite Hn.
    destruct (strict_eq (getCurrentReplaySegment st) (Finite n)) eqn:Heq.
    { exists []. rewrite app_nil_r. split; [reflexivity |]. split; [intros a [] |].
      intros Hne. apply strict_eq_true in Heq. contradiction. }
    destruct (hypothetical globals && negb force) eqn:Hhyp.
    { exists []. rewrite app_nil_r. split; [reflexivity |]. split; [intros a [] |].
      intros _ H. discriminate. }
    destruct (dispatched_enter (Finite n) st) as (new0 & Hd0 & Hnew0).
    destruct (sharedReplay globals && breakFree && useSharedSegments (replay (getState st))
              && negb (amSharedReplayLeader globals));
      destruct (sharedReplay globals && amSharedReplayLeader globals
                && useSharedSegments (replay (getState st)));
      rewrite ?dispatched_dispatch, Hd0, <- ?app_assoc;
      (eexists; split; [reflexivity |]; split;
       [ intros a Ha; rewrite ?in_app_iff in Ha; simpl in Ha;
         destruct Hnew0 as [-> | ->]; simpl in Ha; intuition (subst; auto)
       | intros _ _; rewrite ?in_app_iff; simpl; auto 10 ]).
  - intros Hcur. unfold goToSegment. rewrite Hfinal. cbn [ToNumber]. rewrite Hn.
    apply strict_eq_true in Hcur. rewrite Hcur. reflexivity.
  - intros Hh Hf. unfold goToSegment. rewrite Hh, Hf.
    destruct (strict_eq _ _); reflexivity.
  - intros Hcur. unfold back, goToSegment. rewrite Hcur, Hfinal. cbn [ToNumber num_sub num_neg num_add].
    rewrite clamp_Finite.
    replace (Z.max 0 (Z.min (0 + - (1)) final)) with 0 by lia.
    simpl. reflexivity.
  - intros Hcur. unfold forward, goToSegment. rewrite Hcur, Hfinal. cbn [ToNumber num_add].
    rewrite clamp_Finite.
    replace (Z.max 0 (Z.min (final + 1) final)) with final by lia.
    simpl. rewrite Z.eqb_refl. reflexivity.
Qed.

End NavigationProperties.

(** C10 fails on the code: [Math.min] and [Math.max] return [NaN] when an
    argument is [NaN], so the validation of the target lets [NaN] through:
    nothing is clamped, [NaN] is equal to no current segment, and the store
    is sent into segment [NaN]. *)
Lemma goToSegment_does_not_clamp_NaN :
  clamp NaN (Finite 0) (Finite 5) = NaN
  /\ dispatched (goToSegment sample_reducer sample_globals NaN true false sample_store)
     = [replayEnter NaN; replaySegment NaN]
  /\ getCurrentReplaySegment
       (goToSegment sample_reducer sample_globals NaN true false sample_store)
     = Some NaN
  /\ dispatched (goToSegment sample_reducer sample_globals NaN true false
                             store_before_first_move)
     = [replaySegment NaN].
Proof. repeat split. Qed.

(** X22 at a sample input: a jump to segment 9 of a game whose final
    segment is 5, from segment 5 and not in a replay, changes nothing; a
    jump to segment -3 enters the replay at segment 0. *)
Lemma goToSegment_clamps_sample :
  goToSegment sample_reducer sample_globals (Finite 9) true false sample_store = sample_store
  /\ dispatched (goToSegment sample_reducer sample_globals (Finite (-3)) true false sample_store)
     = [replayEnter (Finite 0); replaySegment (Finite 0)]
  /\ forward sample_reducer sample_globals sample_store = sample_store.
Proof.
  assert (Hseg : Finite 9 <> NaN) by discriminate.
  destruct (goToSegment_clamps sample_reducer sample_globals (Finite 9) true false sample_store 5
              Hseg eq_refl ltac:(lia)) as (n & Hn & _ & _ & _ & Hsame & _ & _ & Hfwd).
  split; [apply Hsame; inversion Hn; reflexivity |].
  split; [reflexivity | apply Hfwd; reflexivity].
Defined.

End ReplayProperties.

(* ===================================================================== *)
(** * Further properties *)
(* ===================================================================== *)

(** ** The shutdown orchestrator *)

Section MoreShutdown.
Context `{Ext : Externals}.

(** X2: when at least one table is running and is not a replay, [shutdown]
    arms, announces the countdown to everyone and starts the two warning
    timers and the polling loop; it does not set the block flag and
    notifies no session of a termination. *)
Theorem shutdown_with_active_tables_counts_down (w : World) (k : N) (t : Table.t) :
  tables w !! k = Some t -> Table.Running t = true -> Table.Replay t = false ->
  exists n,
    0 < n
    /\ n = Z.of_nat (length (List.filter is_active (map_to_list (tables w)).*2))
    /\ run shutdown w
       = Done tt (armed w)
           [LogInfo ("Initiating a graceful server shutdown (with " +:+ Itoa n +:+
                     " active games).");
            NotifyAllShutdown;
            ChatServerSendAll ("The server will shutdown in " +:+
                               Itoa (Minutes_int ShutdownTimeout) +:+ " minutes.");
            Go (go_shutdownXMinutesLeft 5); Go (go_shutdownXMinutesLeft 10);
            Go go_shutdownWait]
    /\ blockAllIncomingMessages (armed w) = blockAllIncomingMessages w
    /\ sessions (armed w) = sessions w /\ tables (armed w) = tables w.
Proof.
  intros Hk Hr Hp.
  assert (Hin : In t (List.filter is_active (map_to_list (tables w)).*2)).
  { apply filter_In. split.
    - apply list_elem_of_In. exact (snapshot_elem _ k t Hk).
    - unfold is_active. rewrite Hr, Hp. reflexivity. }
  exists (Z.of_nat (length (List.filter is_active (map_to_list (tables w)).*2))).
  assert (Hpos : 0 < Z.of_nat (length (List.filter is_active (map_to_list (tables w)).*2))).
  { destruct (List.filter is_active (map_to_list (tables w)).*2); [destruct Hin | simpl; lia]. }
  split; [exact Hpos |]. split; [reflexivity |]. split; [| repeat split].
  rewrite run_shutdown. cbv zeta.
  destruct (Z.eqb_spec (Z.of_nat (length (List.filter is_active (map_to_list (tables w)).*2))) 0);
    [lia | reflexivity].
Qed.

(** X3: [cancel] clears the armed flag and tells everyone; from then on
    [checkImminentShutdown] answers false without a warning, the next pass
    of the polling loop logs the abort and returns, and a warning timer
    that wakes up with the flag still cleared makes no call at all. *)
Theorem cancel_stops_shutdown_workers (w : World) :
  run cancel w
  = Done tt (set_shuttingDown false w)
      [NotifyAllShutdown; ChatServerSendAll "Server shutdown has been canceled."]
  /\ (forall s, run (checkImminentShutdown s) (set_shuttingDown false w)
                = Done false (set_shuttingDown false w) [])
  /\ (forall fuel, run (shutdownWait (S fuel)) (set_shuttingDown false w)
                   = Done (Some tt) (set_shuttingDown false w)
                       [LogInfo "The shutdown was aborted."])
  /\ (forall minutesLeft,
        shuttingDown (wake (ShutdownTimeout - minutesLeft * Minute) (set_shuttingDown false w))
        = false ->
        run (shutdownXMinutesLeft minutesLeft) (set_shuttingDown false w)
        = Done tt (wake (ShutdownTimeout - minutesLeft * Minute) (set_shuttingDown false w))
            [EvSleep (ShutdownTimeout - minutesLeft * Minute)]).
Proof.
  split; [reflexivity |]. split; [| split].
  - intros s. reflexivity.
  - intros fuel. cbn [shutdownWait]. rewrite run_bind.
    change (run shutdownWait_body (set_shuttingDown false w))
      with (Done Break (set_shuttingDown false w) [LogInfo "The shutdown was aborted."]).
    reflexivity.
  - intros m Hm. unfold shutdownXMinutesLeft, time_Sleep. run_simpl.
    rewrite Hm. reflexivity.
Qed.

(** The two command loops always return, and call nothing but their
    command. *)
Lemma run_table_loop_returns (cmd : Session.t -> CommandData.t -> World -> World)
    (mkd : Table.t -> CommandData.t) (ev : Session.t -> CommandData.t -> Event)
    (ids : list N) : forall w : World,
  exists w' tr,
    run (table_loop cmd mkd ev ids) w = Done tt w' tr
    /\ Forall (fun e => exists s d, e = ev s d) tr.
Proof.
  induction ids as [| id ids IH]; intros w.
  - exists w, []. split; [reflexivity | constructor].
  - unfold table_loop in *. rewrite run_for_each_cons.
    unfold getTableAndLock at 1. run_simpl.
    destruct (tables w !! id) as [t |].
    + cbv zeta. run_simpl.
      destruct (IH (cmd (GetOwnerSession t) (mkd t) w)) as (w' & tr & Hrun & Hall).
      rewrite Hrun. exists w', (ev (GetOwnerSession t) (mkd t) :: tr).
      split; [reflexivity |]. constructor; [eauto | exact Hall].
    + cbn [run prepend]. destruct (IH w) as (w' & tr & Hrun & Hall).
      rewrite Hrun. exists w', tr. split; [reflexivity | exact Hall].
Qed.

(** X4: a warning timer that wakes up with shutdown still armed sends the
    warning to the lobby and then, with the stronger wording, to the room
    of every table that existed when it woke up, the tables it has just
    vacated included.  Before that it makes only leave-table calls, and
    when [minutesLeft] is not 5 it makes none and changes nothing. *)
Theorem shutdownXMinutesLeft_warns_every_room (minutesLeft : Z) (w : World) :
  shuttingDown (wake (ShutdownTimeout - minutesLeft * Minute) w) = true ->
  exists w' leaves,
    run (shutdownXMinutesLeft minutesLeft) w
    = Done tt w'
        (EvSleep (ShutdownTimeout - minutesLeft * Minute)
         :: leaves
         ++ ChatServerSend ("The server will shutdown in " +:+ Itoa minutesLeft +:+ " minutes.")
                           "lobby"
         :: map (ChatServerSend
                   (("The server will shutdown in " +:+ Itoa minutesLeft +:+ " minutes.") +:+
                    " Finish your game soon or it will be automatically terminated!"))
                (map GetRoomName
                     (map_to_list (tables (wake (ShutdownTimeout - minutesLeft * Minute) w))).*2))
    /\ Forall is_leave leaves
    /\ (minutesLeft <> 5 ->
        leaves = [] /\ w' = wake (ShutdownTimeout - minutesLeft * Minute) w).
Proof.
  intros Harmed.
  set (w1 := wake (ShutdownTimeout - minutesLeft * Minute) w) in *.
  unfold shutdownXMinutesLeft, time_Sleep, tables_GetList. run_simpl.
  fold w1. rewrite Harmed. cbn [negb]. run_simpl.
  destruct (Z.eqb_spec minutesLeft 5) as [-> | Hne].
  - rewrite leave_unstarted_is_table_loop.
    destruct (run_table_loop_returns commandTableLeave leave_data CommandTableLeave
                (map Table.ID (List.filter (fun t => negb (Table.Running t))
                                           (map_to_list (tables w1)).*2)) w1)
      as (w' & tr & Hrun & Hall).
    rewrite Hrun. cbn [prepend]. unfold chatServerSend. run_simpl.
    rewrite (run_for_each_emit (fun roomName => [ChatServerSend _ roomName])).
    cbn [prepend app]. rewrite flat_map_singleton, ?app_nil_r.
    exists w', tr. split; [reflexivity |]. split; [| congruence].
    eapply Forall_impl; [exact Hall |]. intros e (s & d & ->). exact I.
  - cbn [run prepend]. unfold chatServerSend. run_simpl.
    rewrite (run_for_each_emit (fun roomName => [ChatServerSend _ roomName])).
    cbn [prepend app]. rewrite flat_map_singleton.
    exists w1, []. split; [reflexivity |]. split; [constructor | auto].
Qed.

(** X5: a pass of the polling loop with shutdown armed, a table active and
    the countdown not yet elapsed only sleeps one second: it sends no
    command, notifies nobody, and the loop goes on. *)
Theorem shutdownWait_before_deadline_only_sleeps (w : World) (k : N) (t : Table.t) :
  shuttingDown w = true ->
  tables w !! k = Some t -> Table.Running t = true -> Table.Replay t = false ->
  clock w - datetimeShutdownInit w < ShutdownTimeout ->
  run shutdownWait_body w = Done Continue (wake Second w) [EvSleep Second].
Proof.
  intros Harmed Hk Hr Hp Hearly.
  assert (Hin : In t (List.filter is_active (map_to_list (tables w)).*2)).
  { apply filter_In. split.
    - apply list_elem_of_In. exact (snapshot_elem _ k t Hk).
    - unfold is_active. rewrite Hr, Hp. reflexivity. }
  unfold shutdownWait_body. run_simpl. rewrite Harmed. cbn [negb].
  run_simpl. rewrite countActiveTables_run. cbn [prepend].
  destruct (List.filter is_active (map_to_list (tables w)).*2) as [| t0 l]; [destruct Hin |].
  destruct (Z.eqb_spec (Z.of_nat (length (t0 :: l))) 0) as [H0 | _]; [simpl in H0; lia |].
  run_simpl.
  destruct (Z.geb_spec (clock w - datetimeShutdownInit w) ShutdownTimeout) as [H0 | _]; [lia |].
  rewrite andb_false_r. unfold time_Sleep. run_simpl. reflexivity.
Qed.

(** One pass of the polling loop ends the loop only after the abort was
    logged or after [shutdownImmediate] has run to its end. *)
Lemma shutdownWait_body_break (w w' : World) (tr : list Event) :
  run shutdownWait_body w = Done Break w' tr ->
  In (LogInfo "The shutdown was aborted.") tr
  \/ (In (LogInfo "There are 0 active tables left.") tr /\ In WaitReturned tr).
Proof.
  unfold shutdownWait_body. run_simpl.
  destruct (shuttingDown w); cbn [negb].
  2:{ intros H. left. unfold logger_Info in H. simpl in H. inversion H. left. reflexivity. }
  run_simpl. rewrite countActiveTables_run. cbn [prepend].
  destruct (_ =? 0).
  - unfold time_Sleep, logger_Info at 1. run_simpl.
    destruct (run_shutdownImmediate (wake (Second * 10) w)) as (tail & _ & Hrun).
    rewrite Hrun. destruct (commandWaitGroup _ =? 0); [| discriminate].
    cbn [prepend run]. intros H. inversion H. right. split.
    + right. left. reflexivity.
    + simpl. auto 10.
  - run_simpl.
    destruct ((_ >? 0) && (_ >=? ShutdownTimeout)).
    + unfold tables_GetList. run_simpl. rewrite terminate_tables_is_table_loop.
      destruct (run_table_loop_returns commandAction end_game_data CommandAction
                  (map Table.ID (List.filter is_active (map_to_list (tables w)).*2)) w)
        as (w1 & tr1 & Hrun & _).
      rewrite Hrun. cbn [prepend]. unfold time_Sleep. run_simpl. discriminate.
    + cbn [run prepend]. unfold time_Sleep. run_simpl. discriminate.
Qed.

(** X6: whenever the polling loop returns, either it has logged that the
    shutdown was aborted, or it has found no active table and
    [shutdownImmediate] has run past its wait. *)
Theorem shutdownWait_returns_only_on_abort_or_termination (fuel : nat) :
  forall (w w' : World) (tr : list Event),
  run (shutdownWait fuel) w = Done (Some tt) w' tr ->
  In (LogInfo "The shutdown was aborted.") tr
  \/ (In (LogInfo "There are 0 active tables left.") tr /\ In WaitReturned tr).
Proof.
  induction fuel as [| fuel IH]; intros w w' tr Hrun.
  - simpl in Hrun. discriminate.
  - cbn [shutdownWait] in Hrun. rewrite run_bind in Hrun.
    destruct (run shutdownWait_body w) as [[|] w1 tr1 | w1 tr1] eqn:Hbody; [| | discriminate].
    + simpl in Hrun. inversion Hrun; subst. rewrite app_nil_r.
      exact (shutdownWait_body_break w w' tr1 Hbody).
    + destruct (run (shutdownWait fuel) w1) as [a w2 tr2 | w2 tr2] eqn:Hrest;
        simpl in Hrun; [| discriminate].
      inversion Hrun; subst.
      destruct (IH w1 w' tr2 Hrest) as [H | [H1 H2]].
      * left. apply in_or_app. right. exact H.
      * right. split; apply in_or_app; right; assumption.
Qed.
End MoreShutdown.

(** X2 at a sample input: one game is running. *)
Lemma shutdown_with_active_tables_sample :
  exists n,
    0 < n
    /\ n = Z.of_nat (length (List.filter is_active (map_to_list (tables world_armed)).*2))
    /\ run shutdown world_armed
       = Done tt (armed world_armed)
           [LogInfo ("Initiating a graceful server shutdown (with " +:+ Itoa n +:+
                     " active games).");
            NotifyAllShutdown;
            ChatServerSendAll ("The server will shutdown in " +:+
                               Itoa (Minutes_int ShutdownTimeout) +:+ " minutes.");
            Go (go_shutdownXMinutesLeft 5); Go (go_shutdownXMinutesLeft 10);
            Go go_shutdownWait]
    /\ blockAllIncomingMessages (armed world_armed) = blockAllIncomingMessages world_armed
    /\ sessions (armed world_armed) = sessions world_armed
    /\ tables (armed world_armed) = tables world_armed.
Proof.
  apply (shutdown_with_active_tables_counts_down world_armed 1%N table_started); reflexivity.
Defined.

(** X4 at a sample input: the 10-minutes warning. *)
Lemma shutdownXMinutesLeft_10_sample :
  res_trace (run (shutdownXMinutesLeft 10) world_armed)
  = [EvSleep (5 * Minute);
     ChatServerSend "The server will shutdown in 10 minutes." "lobby";
     ChatServerSend ("The server will shutdown in 10 minutes." +:+
                     " Finish your game soon or it will be automatically terminated!") "table2";
     ChatServerSend ("The server will shutdown in 10 minutes." +:+
                     " Finish your game soon or it will be automatically terminated!") "table3";
     ChatServerSend ("The server will shutdown in 10 minutes." +:+
                     " Finish your game soon or it will be automatically terminated!") "table1"]
  /\ res_world (run (shutdownXMinutesLeft 10) world_armed) = set_clock (5 * Minute) world_armed.
Proof.
  assert (Harmed : shuttingDown (wake (ShutdownTimeout - 10 * Minute) world_armed) = true)
    by reflexivity.
  destruct (shutdownXMinutesLeft_warns_every_room 10 world_armed Harmed)
    as (w' & leaves & Hrun & _ & Hnot5).
  destruct Hnot5 as [-> ->]; [discriminate |].
  rewrite Hrun. split; vm_compute; reflexivity.
Defined.

(** X5 at a sample input: just armed, one game running. *)
Lemma shutdownWait_before_deadline_sample :
  run shutdownWait_body world_armed = Done Continue (wake Second world_armed) [EvSleep Second].
Proof.
  apply (shutdownWait_before_deadline_only_sleeps world_armed 1%N table_started);
    try reflexivity.
Defined.

(** X6 at a sample input: two passes after the deadline. *)
Lemma shutdownWait_returns_sample :
  exists w' tr,
    run (shutdownWait 2) world_deadline = Done (Some tt) w' tr
    /\ (In (LogInfo "The shutdown was aborted.") tr
        \/ (In (LogInfo "There are 0 active tables left.") tr /\ In WaitReturned tr)).
Proof.
  destruct (run (shutdownWait 2) world_deadline) as [[[] |] w' tr | w' tr] eqn:Hrun;
    try (vm_compute in Hrun; discriminate).
  exists w', tr. split; [reflexivity |].
  exact (shutdownWait_returns_only_on_abort_or_termination 2 world_deadline w' tr Hrun).
Defined.

(** X1 at a sample input: one command in flight. *)
Lemma shutdownImmediate_can_finish_sample :
  exists ms w tr,
    gexec ms (shutdownImmediate, world_one_in_flight) = Some ((Ret tt, w), tr)
    /\ forall k s, sessions world_one_in_flight !! k = Some s ->
                   In (NotifySoundLobby s "shutdown") tr.
Proof.
  apply (shutdownImmediate_can_finish world_one_in_flight). vm_compute. discriminate.
Defined.

(** ** session.go *)

Section MoreSession.
Context `{Ext : Externals}.

(** X7: [Warning] and [Error] send an empty message as the default error
    message; to a connected session each writes one text frame, the
    command name "warning" or "error", a space and the encoded message, and
    nothing when the encoding fails or the session has no transport. *)
Theorem Warning_Error_frames (s : Session.t) (message : string) :
  Warning s EmptyString = Warning s DefaultErrorMsg
  /\ Error s EmptyString = Error s DefaultErrorMsg
  /\ frames (Warning s message) =
     match Session.Conn s,
           json_Marshal (WarningMessage
                           (if String.eqb message EmptyString then DefaultErrorMsg else message))
     with
     | Some c, inl ds => [(c, TextMessage, "warning " +:+ ds)]
     | _, _ => []
     end
  /\ frames (Error s message) =
     match Session.Conn s,
           json_Marshal (ErrorMessage
                           (if String.eqb message EmptyString then DefaultErrorMsg else message))
     with
     | Some c, inl ds => [(c, TextMessage, "error " +:+ ds)]
     | _, _ => []
     end.
Proof.
  split; [| split; [| split]].
  - unfold Warning. cbn [String.eqb]. destruct (String.eqb DefaultErrorMsg EmptyString); reflexivity.
  - unfold Error. cbn [String.eqb]. destruct (String.eqb DefaultErrorMsg EmptyString); reflexivity.
  - unfold Warning, Emit. cbn [frames omap].
    destruct (Session.Conn s) as [c |]; [| reflexivity].
    destruct (json_Marshal _) as [ds | err]; [| reflexivity].
    destruct (WriteMessage _ _ _); reflexivity.
  - unfold Error, Emit. cbn [frames omap].
    destruct (Session.Conn s) as [c |]; [| reflexivity].
    destruct (json_Marshal _) as [ds | err]; [| reflexivity].
    destruct (WriteMessage _ _ _); reflexivity.
Qed.

(** X8: [NewFakeSession] takes the next session id, marks the session as
    a fake user with the given id and name, and gives it no transport:
    whatever is emitted to it, or sent to it as a warning or an error,
    writes no frame. *)
Theorem NewFakeSession_has_no_transport (id : Z) (name : string) (w : World) :
  exists s,
    run (NewFakeSession id name) w
    = Done s (set_sessionIDCounter (uint64_add (sessionIDCounter w) 1) w) []
    /\ Session.SessionID s = uint64_add (sessionIDCounter w) 1
    /\ Session.UserID s = id /\ Session.Username s = name /\ Session.FakeUser s = true
    /\ (forall command d, Emit (Some s) command d = [])
    /\ (forall message, frames (Warning s message) = [] /\ frames (Error s message) = []).
Proof.
  eexists. split; [reflexivity |]. repeat split.
Qed.

(** X9: [Close] never sets the flag its guard reads.  On a session whose
    flag is set it returns at once; on any other session, if a call
    returns, it has closed the transport and the channel, and the next
    call closes the transport again and panics on the closed channel. *)
Theorem Close_second_call_panics (s s' : Session.t) (evs : list Event) :
  Close s = (Returned s', evs) ->
  Session.Closed s' = Session.Closed s
  /\ (Session.Closed s = true -> s' = s /\ evs = [])
  /\ (Session.Closed s = false ->
      exists c, Session.conn s = Some c
                /\ evs = [WsConnClose c; ChanClose]
                /\ Close s' = (Panicked "close of closed channel", [WsConnClose c])).
Proof.
  unfold Close. destruct (Session.Closed s) eqn:Hc.
  - intros H. inversion H; subst. repeat split; [exact Hc | discriminate].
  - destruct (Session.conn (set_open false s)) as [c |] eqn:Hconn; [| discriminate].
    destruct (Session.output (set_open false s)) eqn:Hout; try discriminate.
    intros H. inversion H; subst. split; [simpl; exact Hc |]. split; [discriminate |].
    intros _. exists c. split; [exact Hconn |]. split; [reflexivity |].
    simpl. rewrite Hc. simpl in Hconn. rewrite Hconn. reflexivity.
Qed.

(** X10: [GetJoinedTable] changes nothing; the table it returns is in the
    table map, is not a replay and has the session's user among its
    players; it returns nil exactly when no table of the map is such. *)
Theorem GetJoinedTable_spec (s : Session.t) (w : World) :
  exists r,
    run (GetJoinedTable s) w = Done r w []
    /\ (forall t, r = Some t ->
        (exists k, tables w !! k = Some t)
        /\ Table.Replay t = false /\ In (Session.UserID s) (Table.Players t))
    /\ (r = None <->
        forall k t, tables w !! k = Some t ->
                    Table.Replay t = false -> ~ In (Session.UserID s) (Table.Players t)).
Proof.
  assert (Hj : forall t, joined s t = true <->
                         Table.Replay t = false /\ In (Session.UserID s) (Table.Players t)).
  { intros t. unfold joined. rewrite andb_true_iff, negb_true_iff, existsb_exists.
    split.
    - intros [Hr (p & Hin & Hp)]. apply Z.eqb_eq in Hp. subst. auto.
    - intros [Hr Hin]. split; [exact Hr |]. exists (Session.UserID s).
      split; [exact Hin | apply Z.eqb_refl]. }
  exists (List.find (joined s) (map_to_list (tables w)).*2).
  split; [reflexivity |]. split.
  - intros t Hfind. apply find_some in Hfind as [Hin Hjoined].
    apply Hj in Hjoined as [Hr Hp]. split; [| auto].
    apply list_elem_of_In, list_elem_of_fmap in Hin as ([k t'] & -> & Hin).
    exists k. apply elem_of_map_to_list. exact Hin.
  - split.
    + intros Hnone k t Hk Hr Hp.
      pose proof (find_none _ _ Hnone t) as Hf.
      assert (joined s t = true) as Ht by (apply Hj; auto).
      rewrite Hf in Ht; [discriminate |].
      apply list_elem_of_In. exact (snapshot_elem _ k t Hk).
    + intros Hall. destruct (List.find _ _) as [t |] eqn:Hfind; [| reflexivity].
      exfalso. apply find_some in Hfind as [Hin Hjoined].
      apply Hj in Hjoined as [Hr Hp].
      apply list_elem_of_In, list_elem_of_fmap in Hin as ([k t'] & -> & Hin).
      apply elem_of_map_to_list in Hin. exact (Hall k t' Hin Hr Hp).
Qed.
End MoreSession.

(** X9 at a sample input. *)
Lemma Close_second_call_sample :
  exists c, Session.conn alice = Some c
            /\ [WsConnClose 7%N; ChanClose] = [WsConnClose c; ChanClose]
            /\ Close (set_output ChanClosed (set_open false alice))
               = (Panicked "close of closed channel", [WsConnClose c]).
Proof.
  exact (proj2 (proj2 (Close_second_call_panics alice _ _ eq_refl)) eq_refl).
Defined.

(** ** http_ws.go *)

Lemma denial_code_none (tr : list Event) :
  ~ In DeleteCookie tr -> denial_code tr = None.
Proof.
  induction tr as [| e tr IH]; intros Hnin; [reflexivity |].
  assert (Hrec : denial_code tr = None) by (apply IH; intros H; apply Hnin; right; exact H).
  simpl. destruct e; try exact Hrec.
  destruct tr as [| e' tr']; [reflexivity |].
  destruct e'; try exact Hrec.
  destruct tr'; [| exact Hrec].
  exfalso. apply Hnin. right. left. reflexivity.
Qed.

Lemma error_eqb_ErrNoRows (err : error) : error_eqb err ErrNoRows = true <-> err = ErrNoRows.
Proof. destruct err; simpl; split; intros H; try reflexivity; discriminate. Qed.

Section MoreHttpWS.
Context `{Ext : Externals} `{Mod : Models}.

(** X12: when the address parses, the IP is neither banned nor muted and
    the cookie holds a user id that is not an [int], the type assertion
    panics: the handler has written no response and has not deleted the
    cookie. *)
Theorem httpWS_bad_cookie_panics (r : Request) (fuel : nat) (w : World)
    (ip : string) (muted : bool) :
  SplitHostPort r = inl ip ->
  BannedIPs_Check ip = inl false ->
  MutedIPs_Check ip = inl muted ->
  cookie_userID r = CookieOther ->
  exists why tr,
    run (httpWS r fuel) w = Done (HPanicked why) w tr
    /\ Forall (fun e => is_log e = true) tr
    /\ denial_code tr = None.
Proof.
  intros Hip Hban Hmute Hcookie. unfold httpWS.
  rewrite Hip, Hban, Hmute, Hcookie.
  eexists _, _. split; [reflexivity |]. split; [repeat constructor | reflexivity].
Qed.

Ltac cause_500 :=
  intros Hden; inversion Hden; subst;
  split; [auto |]; split; [discriminate |]; split; [discriminate |]; intros _.

(** X13: the status of the refusal tells its cause.  400 is sent only when
    the upgrade failed, after every check has passed; 401 only to a banned
    IP, to a handshake without a user id in the cookie, or for a user id
    that is no longer in the database; 500 only when the address did not
    parse or a lookup failed with another error. *)
Theorem httpWS_status_tells_cause (r : Request) (fuel : nat) (w : World) (code : Z) :
  denial_code (res_trace (run (httpWS r fuel) w)) = Some code ->
  (code = 400 \/ code = 401 \/ code = 500)
  /\ (code = 400 ->
      exists ip muted userID username friends reverseFriends hyphenated err,
        SplitHostPort r = inl ip /\ BannedIPs_Check ip = inl false
        /\ MutedIPs_Check ip = inl muted /\ cookie_userID r = CookieInt userID
        /\ Users_GetUsername userID = inl username
        /\ UserFriends_GetMap userID = inl friends
        /\ UserReverseFriends_GetMap userID = inl reverseFriends
        /\ UserSettings_IsHyphenated userID = inl hyphenated
        /\ Upgrade r = inr err)
  /\ (code = 401 ->
      exists ip, SplitHostPort r = inl ip
        /\ (BannedIPs_Check ip = inl true
            \/ (BannedIPs_Check ip = inl false /\ cookie_userID r = CookieNil)
            \/ (BannedIPs_Check ip = inl false
                /\ exists userID, cookie_userID r = CookieInt userID
                                  /\ Users_GetUsername userID = inr ErrNoRows)))
  /\ (code = 500 ->
      is_inr (SplitHostPort r) = true
      \/ exists ip, SplitHostPort r = inl ip
           /\ (is_inr (BannedIPs_Check ip) = true
               \/ is_inr (MutedIPs_Check ip) = true
               \/ exists userID, cookie_userID r = CookieInt userID
                    /\ ((exists err, Users_GetUsername userID = inr err /\ err <> ErrNoRows)
                        \/ is_inr (UserFriends_GetMap userID) = true
                        \/ is_inr (UserReverseFriends_GetMap userID) = true
                        \/ is_inr (UserSettings_IsHyphenated userID) = true))).
Proof.
  unfold httpWS.
  destruct (SplitHostPort r) as [ip | err] eqn:Hip.
  2:{ cbn. cause_500. left. reflexivity. }
  destruct (BannedIPs_Check ip) as [[|] | err] eqn:Hban.
  - cbn. intros Hden; inversion Hden; subst.
    split; [auto |]. split; [discriminate |]. split; [| discriminate].
    intros _. exists ip. split; [reflexivity |]. left. exact Hban.
  - destruct (MutedIPs_Check ip) as [muted | err] eqn:Hmute.
    2:{ cbn. cause_500. right. exists ip. split; [reflexivity |].
        right. left. rewrite Hmute. reflexivity. }
    destruct (cookie_userID r) as [| userID |] eqn:Hcookie.
    + cbn. intros Hden; inversion Hden; subst.
      split; [auto |]. split; [discriminate |]. split; [| discriminate].
      intros _. exists ip. split; [reflexivity |]. right. left. split; [exact Hban | reflexivity].
    + destruct (Users_GetUsername userID) as [username | err] eqn:Huser.
      2:{ destruct (error_eqb err ErrNoRows) eqn:Herr.
          - apply error_eqb_ErrNoRows in Herr. subst err.
            cbn. intros Hden; inversion Hden; subst.
            split; [auto |]. split; [discriminate |]. split; [| discriminate].
            intros _. exists ip. split; [reflexivity |]. right. right.
            split; [exact Hban |]. exists userID. split; [reflexivity | exact Huser].
          - cbn. cause_500. right. exists ip. split; [reflexivity |]. right. right.
            exists userID. split; [reflexivity |]. left. exists err.
            split; [exact Huser |]. intros ->. discriminate. }
      destruct (UserFriends_GetMap userID) as [friends | err] eqn:Hfr.
      2:{ cbn. cause_500. right. exists ip. split; [reflexivity |]. right. right.
          exists userID. split; [reflexivity |]. rewrite Hfr. auto. }
      destruct (UserReverseFriends_GetMap userID) as [reverseFriends | err] eqn:Hrf.
      2:{ cbn. cause_500. right. exists ip. split; [reflexivity |]. right. right.
          exists userID. split; [reflexivity |]. rewrite Hrf. auto. }
      destruct (UserSettings_IsHyphenated userID) as [hyphenated | err] eqn:Hhy.
      2:{ cbn. cause_500. right. exists ip. split; [reflexivity |]. right. right.
          exists userID. split; [reflexivity |]. rewrite Hhy. auto 6. }
      destruct (Upgrade r) as [conn | err] eqn:Hup.
      * (* every check has passed: the trace has no refusal *)
        intros Hden. exfalso.
        destruct (run_read_loop r fuel 0
                    (set_sessionIDCounter (uint64_add (sessionIDCounter w) 1) w))
          as (tr & Hrun & Hall).
        unfold logger_Info in Hden. revert Hden. run_simpl.
        rewrite run_NewSession. cbn [prepend fst snd NewSession_at]. run_simpl.
        rewrite Hrun. cbn [prepend run res_trace]. intros Hden.
        rewrite denial_code_none in Hden; [discriminate |].
        simpl. intros [H | [H | [H | H]]]; try discriminate.
        rewrite app_nil_r in H. apply list_elem_of_In in H.
        rewrite Forall_forall in Hall. exact (Hall _ H).
      * cbn. intros Hden; inversion Hden; subst.
        split; [auto |]. split; [| split; discriminate].
        intros _. exists ip, muted, userID, username, friends, reverseFriends, hyphenated, err.
        repeat split; assumption.
    + cbn. discriminate.
  - cbn. cause_500. right. exists ip. split; [reflexivity |]. left. rewrite Hban. reflexivity.
Qed.
End MoreHttpWS.

(** X11 at a sample input: a handshake that passes every check. *)
Lemma httpWS_accepts_sample :
  exists s tr,
    run (httpWS request_good 2) (sample_world [] [] 0 0)
    = Done (HReading s)
        (set_sessionIDCounter (uint64_add (sessionIDCounter (sample_world [] [] 0 0)) 1)
                              (sample_world [] [] 0 0)) tr
    /\ Session.SessionID s = uint64_add (sessionIDCounter (sample_world [] [] 0 0)) 1
    /\ cookie_userID request_good = CookieInt (Session.UserID s)
    /\ In WsUpgraded tr
    /\ ~ In DeleteCookie tr.
Proof.
  apply (httpWS_accepts request_good 2 (sample_world [] [] 0 0)); [reflexivity | discriminate].
Defined.

(** X12 at a sample input. *)
Lemma httpWS_bad_cookie_sample :
  exists why tr,
    run (httpWS request_bad_cookie 2) (sample_world [] [] 0 0)
    = Done (HPanicked why) (sample_world [] [] 0 0) tr
    /\ Forall (fun e => is_log e = true) tr
    /\ denial_code tr = None.
Proof.
  apply (httpWS_bad_cookie_panics request_bad_cookie 2 (sample_world [] [] 0 0)
           "10.0.0.1" false); reflexivity.
Defined.

(** X13 at a sample input: the cookie of a user that is gone. *)
Lemma httpWS_status_sample :
  denial_code (res_trace (run (httpWS request_orphaned 2) (sample_world [] [] 0 0))) = Some 401
  /\ exists ip, SplitHostPort request_orphaned = inl ip
       /\ (BannedIPs_Check ip = inl true
           \/ (BannedIPs_Check ip = inl false /\ cookie_userID request_orphaned = CookieNil)
           \/ (BannedIPs_Check ip = inl false
               /\ exists userID, cookie_userID request_orphaned = CookieInt userID
                                 /\ Users_GetUsername userID = inr ErrNoRows)).
Proof.
  assert (H : denial_code (res_trace (run (httpWS request_orphaned 2) (sample_world [] [] 0 0)))
              = Some 401) by (vm_compute; reflexivity).
  split; [exact H |].
  exact (proj1 (proj2 (proj2 (httpWS_status_tells_cause request_orphaned 2
                                (sample_world [] [] 0 0) 401 H))) eq_refl).
Defined.

(** ** replay.ts *)

Module MoreReplayProperties.
Import Replay.

Section MoreNavigation.
Variable reducer : State -> Action -> State.
Variable globals : Globals.

(** X14: the shared segment is moved only by the leader of a shared
    replay: [goToSegment] and [toggleSharedSegments] dispatch
    [replaySharedSegment] only when [amSharedReplayLeader] is set, and one
    call of [goToSegment] never both moves the shared segment and switches
    the shared segments off. *)
Theorem only_leader_moves_shared_segment (seg : number) (breakFree force : bool) (st : Store) :
  (forall new a,
      dispatched (goToSegment reducer globals seg breakFree force st) = dispatched st ++ new ->
      In a new -> moves_shared_segment a = true ->
      amSharedReplayLeader globals = true /\ sharedReplay globals = true
      /\ ~ In (replayUseSharedSegments false) new)
  /\ (forall new a,
      dispatched (toggleSharedSegments reducer globals st) = dispatched st ++ new ->
      In a new -> moves_shared_segment a = true ->
      amSharedReplayLeader globals = true
      /\ useSharedSegments (replay (getState st)) = false).
Proof.
  split.
  - intros new a Hd Hin Ha.
    rewrite ReplayProperties.goToSegment_dispatched in Hd. cbv zeta in Hd.
    apply app_inv_head in Hd. subst new.
    destruct (strict_eq _ _); [destruct Hin |].
    destruct (hypothetical globals && negb force); [destruct Hin |].
    destruct (sharedReplay globals) eqn:Hs, (amSharedReplayLeader globals) eqn:Hl,
             (useSharedSegments (replay (getState st))) eqn:Hu, breakFree,
             (active (replay (getState st)));
      cbn [andb negb app] in Hin |- *; cbn [In] in Hin;
      repeat (destruct Hin as [<- | Hin]; [try discriminate |]);
      try destruct Hin;
      (split; [reflexivity |]; split; [reflexivity |];
       intros H; cbn [In] in H;
       repeat (destruct H as [H | H]; [discriminate |]); destruct H).
  - intros new a Hd Hin Ha. unfold toggleSharedSegments in Hd.
    destruct (amSharedReplayLeader globals) eqn:Hl,
             (useSharedSegments (replay (getState st))) eqn:Hu;
      cbn [andb negb dispatch dispatched] in Hd; rewrite <- ?app_assoc in Hd;
      apply app_inv_head in Hd; subst new; cbn [app In] in Hin;
      repeat (destruct Hin as [<- | Hin]; [try discriminate |]);
      try destruct Hin; split; reflexivity.
Qed.

(** X15: the round and full steps stop at the ends as the single steps
    do: at the final segment [forwardRound] and [forwardFull] leave the
    store as it is, at segment 0 so do [backRound] and [backFull]; and
    outside a replay, where the current segment is the final one, no
    forward step does anything. *)
Theorem round_and_full_steps_stop_at_the_ends (st : Store) (final : Z) :
  turn_segment (getState st) = Some (Finite final) ->
  0 <= final ->
  0 <= numPlayers globals ->
  (getCurrentReplaySegment st = Some (Finite final) ->
   forwardRound reducer globals st = st /\ forwardFull reducer globals st = st)
  /\ (getCurrentReplaySegment st = Some (Finite 0) ->
      backRound reducer globals st = st /\ backFull reducer globals st = st)
  /\ (active (replay (getState st)) = false ->
      forward reducer globals st = st
      /\ forwardRound reducer globals st = st
      /\ forwardFull reducer globals st = st).
Proof.
  intros Hfinal Hpos Hn.
  assert (Hstay : forall z cur,
             getCurrentReplaySegment st = Some (Finite cur) ->
             Z.max 0 (Z.min z final) = cur ->
             goToSegment reducer globals (Finite z) true false st = st).
  { intros z cur Hcur Hclamp. unfold goToSegment.
    rewrite Hfinal, Hcur. cbn [ToNumber]. rewrite ReplayProperties.clamp_Finite, Hclamp.
    cbn [strict_eq]. rewrite Z.eqb_refl. reflexivity. }
  assert (Hend : getCurrentReplaySegment st = Some (Finite final) ->
                 forward reducer globals st = st
                 /\ forwardRound reducer globals st = st
                 /\ forwardFull reducer globals st = st).
  { intros Hcur. unfold forward, forwardRound, forwardFull.
    rewrite Hcur, Hfinal. cbn [ToNumber num_add].
    repeat split; apply (Hstay _ final Hcur); lia. }
  split; [intros Hcur; split; apply (Hend Hcur) |].
  split.
  - intros Hcur. unfold backRound, backFull. rewrite Hcur. cbn [ToNumber num_sub num_neg num_add].
    split; apply (Hstay _ 0 Hcur); lia.
  - intros Hact. apply Hend. unfold getCurrentReplaySegment. rewrite Hact. exact Hfinal.
Qed.

(** X16: while a hypothetical is active none of the six navigation
    functions changes anything: they all call [goToSegment] without
    [force]. *)
Theorem navigation_is_disabled_in_hypothetical (c : NavCommand) (st : Store) :
  hypothetical globals = true ->
  navigate reducer globals c st = st.
Proof.
  intros Hh.
  assert (H : forall seg bf, goToSegment reducer globals seg bf false st = st).
  { intros seg bf. unfold goToSegment. rewrite Hh. destruct (strict_eq _ _); reflexivity. }
  destruct c; simpl; unfold back, forward, backRound, forwardRound, backFull, forwardFull;
    apply H.
Qed.

(** X17: before the game has a first segment ([turn.segment] is null) and
    outside a replay and a hypothetical, every call of [goToSegment] whose
    target is not [NaN] enters the replay at segment 0 and moves to
    segment 0: the null final segment counts as 0 in the clamp, and the
    null current segment is strictly different from the target 0. *)
Theorem goToSegment_with_null_final_enters_at_0 (seg : number) (breakFree force : bool)
    (st : Store) :
  seg <> NaN ->
  turn_segment (getState st) = None ->
  active (replay (getState st)) = false ->
  hypothetical globals = false ->
  exists rest,
    dispatched (goToSegment reducer globals seg breakFree force st)
    = dispatched st ++ replayEnter (Finite 0) :: rest
    /\ In (replaySegment (Finite 0)) rest
    /\ forall a, In a rest ->
         a = replayUseSharedSegments false
         \/ a = replaySegment (Finite 0)
         \/ a = replaySharedSegment (Some (Finite 0)).
Proof.
  intros Hseg Hnull Hact Hh.
  rewrite ReplayProperties.goToSegment_dispatched. cbv zeta.
  unfold getCurrentReplaySegment. rewrite Hnull, Hact, Hh. cbn [ToNumber strict_eq andb].
  destruct (ReplayProperties.clamp_range seg 0 Hseg (Z.le_refl 0)) as (n & Hn & Hrange).
  assert (n = 0) by lia. subst n. rewrite Hn.
  eexists. split; [reflexivity |]. split.
  - apply in_or_app. right. left. reflexivity.
  - intros a Ha.
    destruct (sharedReplay globals && breakFree && useSharedSegments (replay (getState st))
              && negb (amSharedReplayLeader globals)),
             (sharedReplay globals && amSharedReplayLeader globals
              && useSharedSegments (replay (getState st)));
      cbn [app In] in Ha; intuition auto.
Qed.

(** X21: [promptTurn] does nothing when the dialog is cancelled or the
    answer is not a number.  For the answer [T] it goes to segment [T - 1]
    clamped into [0 .. final segment]: the turn shown to the user is one
    more than the segment, so the turn of the current segment changes
    nothing, turns up to 1 lead to segment 0 and turns past the end to the
    final segment. *)
Theorem promptTurn_goes_to_the_turn_shown (window_prompt : option string)
    (parseInt : string -> option Z) (st : Store) (final : Z) :
  turn_segment (getState st) = Some (Finite final) ->
  0 <= final ->
  hypothetical globals = false ->
  match window_prompt with
  | None => promptTurn reducer globals window_prompt parseInt st = st
  | Some turnString =>
      match parseInt turnString with
      | None => promptTurn reducer globals window_prompt parseInt st = st
      | Some T =>
          let n := if T <=? 1 then 0 else if final <? T then final else T - 1 in
          0 <= n <= final
          /\ (getCurrentReplaySegment st = Some (Finite n) ->
              promptTurn reducer globals window_prompt parseInt st = st)
          /\ (getCurrentReplaySegment st <> Some (Finite n) ->
              exists new,
                dispatched (promptTurn reducer globals window_prompt parseInt st)
                = dispatched st ++ new
                /\ In (replaySegment (Finite n)) new
                /\ forall m, In (replaySegment m) new -> m = Finite n)
      end
  end.
Proof.
  intros Hfinal Hpos Hh.
  destruct window_prompt as [turnString |]; [| reflexivity].
  unfold promptTurn. destruct (parseInt turnString) as [T |]; [| reflexivity].
  cbv zeta.
  set (n := if T <=? 1 then 0 else if final <? T then final else T - 1).
  assert (Hn : clamp (Finite (T - 1)) (Finite 0) (Finite final) = Finite n).
  { rewrite ReplayProperties.clamp_Finite. f_equal.
    unfold n. destruct (Z.leb_spec T 1), (Z.ltb_spec final T); lia. }
  split; [unfold n; destruct (Z.leb_spec T 1), (Z.ltb_spec final T); lia |].
  split.
  - intros Hcur. unfold goToSegment. rewrite Hfinal, Hcur. cbn [ToNumber].
    rewrite Hn. cbn [strict_eq]. rewrite Z.eqb_refl. reflexivity.
  - intros Hcur. rewrite ReplayProperties.goToSegment_dispatched. cbv zeta.
    rewrite Hfinal, Hh. cbn [ToNumber andb]. rewrite Hn.
    destruct (strict_eq (getCurrentReplaySegment st) (Finite n)) eqn:Heq.
    { apply ReplayProperties.strict_eq_true in Heq. contradiction. }
    eexists. split; [reflexivity |]. split.
    + apply in_or_app. right. apply in_or_app. right. left. reflexivity.
    + intros m Hm.
      destruct (active (replay (getState st))),
               (sharedReplay globals && true && useSharedSegments (replay (getState st))
                && negb (amSharedReplayLeader globals)),
               (sharedReplay globals && amSharedReplayLeader globals
                && useSharedSegments (replay (getState st)));
        cbn [app In] in Hm;
        repeat (destruct Hm as [Hm | Hm]; [first [discriminate | injection Hm as <-; reflexivity] |]);
        destruct Hm.
Qed.

End MoreNavigation.

(** X14 at a sample input: the leader of a shared replay goes back. *)
Lemma only_leader_moves_shared_segment_sample :
  dispatched (back sample_reducer hypothetical_globals true store_in_replay) = []
  /\ dispatched (goToSegment sample_reducer (mkGlobals false true true 2) (Finite 1) true false
                             store_in_replay)
     = [replaySegment (Finite 1); replaySharedSegment (Some (Finite 1))]
  /\ amSharedReplayLeader (mkGlobals false true true 2) = true.
Proof.
  split; [reflexivity |]. split; [reflexivity |].
  exact (proj1 (proj1 (only_leader_moves_shared_segment sample_reducer
                         (mkGlobals false true true 2) (Finite 1) true false store_in_replay)
                 [replaySegment (Finite 1); replaySharedSegment (Some (Finite 1))]
                 (replaySharedSegment (Some (Finite 1))) eq_refl
                 (or_intror (or_introl eq_refl)) eq_refl)).
Defined.

(** X15 at sample inputs: a game at its final segment 5, and the same
    game seen in a replay at segment 0. *)
Lemma round_and_full_steps_sample :
  (forward sample_reducer sample_globals sample_store = sample_store
   /\ forwardRound sample_reducer sample_globals sample_store = sample_store
   /\ forwardFull sample_reducer sample_globals sample_store = sample_store)
  /\ (backRound sample_reducer sample_globals store_at_start = store_at_start
      /\ backFull sample_reducer sample_globals store_at_start = store_at_start).
Proof.
  assert (Hn : 0 <= numPlayers sample_globals) by (simpl; lia).
  split.
  - exact (proj2 (proj2 (round_and_full_steps_stop_at_the_ends sample_reducer sample_globals
                           sample_store 5 eq_refl ltac:(lia) Hn)) eq_refl).
  - exact (proj1 (proj2 (round_and_full_steps_stop_at_the_ends sample_reducer sample_globals
                           store_at_start 5 eq_refl ltac:(lia) Hn)) eq_refl).
Defined.

(** X16 at a sample input. *)
Lemma navigation_in_hypothetical_sample :
  navigate sample_reducer hypothetical_globals NavBackFull store_in_replay = store_in_replay.
Proof.
  exact (navigation_is_disabled_in_hypothetical sample_reducer hypothetical_globals
           NavBackFull store_in_replay eq_refl).
Defined.

(** X17 at a sample input: a jump to segment 4 during initialization. *)
Lemma goToSegment_null_final_sample :
  dispatched (goToSegment sample_reducer sample_globals (Finite 4) true false store_initializing)
  = [replayEnter (Finite 0); replaySegment (Finite 0)]
  /\ exists rest,
       dispatched (goToSegment sample_reducer sample_globals (Finite 4) true false
                     store_initializing)
       = dispatched store_initializing ++ replayEnter (Finite 0) :: rest
       /\ In (replaySegment (Finite 0)) rest
       /\ forall a, In a rest ->
            a = replayUseSharedSegments false
            \/ a = replaySegment (Finite 0)
            \/ a = replaySharedSegment (Some (Finite 0)).
Proof.
  split; [reflexivity |].
  assert (Hseg : Finite 4 <> NaN) by discriminate.
  exact (goToSegment_with_null_final_enters_at_0 sample_reducer sample_globals (Finite 4)
           true false store_initializing Hseg eq_refl eq_refl eq_refl).
Defined.

(** X21 at a sample input: turn 99 in a game whose final segment is 5,
    asked from inside the replay at segment 2. *)
Lemma promptTurn_sample :
  dispatched (promptTurn sample_reducer sample_globals (Some "99") sample_parseInt
                store_in_replay)
  = [replaySegment (Finite 5)]
  /\ 0 <= 5 <= 5
  /\ (getCurrentReplaySegment store_in_replay = Some (Finite 5) ->
      promptTurn sample_reducer sample_globals (Some "99") sample_parseInt store_in_replay
      = store_in_replay)
  /\ (getCurrentReplaySegment store_in_replay <> Some (Finite 5) ->
      exists new,
        dispatched (promptTurn sample_reducer sample_globals (Some "99") sample_parseInt
                      store_in_replay)
        = dispatched store_in_replay ++ new
        /\ In (replaySegment (Finite 5)) new
        /\ forall m, In (replaySegment m) new -> m = Finite 5).
Proof.
  split; [reflexivity |].
  exact (promptTurn_goes_to_the_turn_shown sample_reducer sample_globals (Some "99")
           sample_parseInt store_in_replay 5 eq_refl ltac:(lia) eq_refl).
Defined.

End MoreReplayProperties.

(** ** Chat commands *)

Section MoreChat.
Context `{Ext : Externals} `{Chat : ChatExternals}.

(** X18: [chatSuggest] answers with at most one chat message and changes
    no state.  It stays silent exactly when the command came from the room
    of a replay with one argument that parses as an integer; otherwise the
    single message goes to the lobby when there is no table and to the
    command's room in every other case. *)
Theorem chatSuggest_answers_at_most_once (s : Session.t) (d : ChatCommand.t)
    (t : option Table.t) (w : World) :
  exists tr,
    run (chatSuggest s d t) w = Done tt w tr
    /\ (tr = []
        \/ exists msg,
             tr = [ChatServerSend msg
                     (match t with None => "lobby" | Some _ => ChatCommand.Room d end)])
    /\ (tr = [] <->
        exists tb arg n,
          t = Some tb /\ ChatCommand.Room d <> "lobby" /\ Table.Replay tb = true
          /\ ChatCommand.Args d = [arg] /\ Atoi arg = Some n).
Proof.
  unfold chatSuggest, chatServerSend.
  destruct t as [tb |].
  2: { eexists. split; [apply run_emit |]. simpl. split; [right; eauto |].
       split; [discriminate | intros (tb & arg & n & H & _); discriminate]. }
  destruct (String.eqb (ChatCommand.Room d) "lobby") eqn:Hroom.
  { apply String.eqb_eq in Hroom.
    eexists. split; [apply run_emit |]. simpl. split; [right; rewrite Hroom; eauto |].
    split; [discriminate | intros (tb' & arg & n & _ & H & _); contradiction]. }
  apply String.eqb_neq in Hroom.
  destruct (Table.Replay tb) eqn:Hrep; cbn [negb].
  2: { eexists. split; [apply run_emit |]. simpl. split; [right; eauto |].
       split; [discriminate |].
       intros (tb' & arg & n & Ht & _ & H & _). injection Ht as <-. congruence. }
  destruct (ChatCommand.Args d) as [| arg [| arg' args]] eqn:Hargs.
  - eexists. split; [apply run_emit |]. simpl. split; [right; eauto |].
    split; [discriminate | intros (tb' & a & n & _ & _ & _ & H & _); discriminate].
  - destruct (Atoi arg) as [n |] eqn:Hatoi.
    + exists []. split; [reflexivity |]. split; [left; reflexivity |].
      split; [| reflexivity]. intros _. exists tb, arg, n. auto.
    + eexists. split; [apply run_emit |]. simpl. split; [right; eauto |].
      split; [discriminate |].
      intros (tb' & a & n & _ & _ & _ & H & Ha). injection H as <-. congruence.
  - eexists. split; [apply run_emit |]. simpl. split; [right; eauto |].
    split; [discriminate | intros (tb' & a & n & _ & _ & _ & H & _); discriminate].
Qed.

(** The numbered lines of [chatTags]. *)
Lemma run_list_tags (room : string) (tags : list string) (w : World) :
  run (list_tags room tags) w
  = Done tt w (imap (fun i tag => ChatServerSend (Itoa (Z.of_nat i + 1) +:+ ") " +:+ tag) room)
                    tags).
Proof.
  unfold list_tags, chatServerSend.
  rewrite (run_for_each_emit
             (fun it : nat * string =>
                [ChatServerSend (Itoa (Z.of_nat it.1 + 1) +:+ ") " +:+ it.2) room])).
  rewrite flat_map_singleton. f_equal.
  generalize (@id nat). revert tags.
  assert (H : forall (tags : list string) (g : nat -> nat),
             map (fun it : nat * string =>
                    ChatServerSend (Itoa (Z.of_nat it.1 + 1) +:+ ") " +:+ it.2) room)
                 (imap (fun i tag => (g i, tag)) tags)
             = imap (fun i tag => ChatServerSend (Itoa (Z.of_nat (g i) + 1) +:+ ") " +:+ tag)
                                                 room) tags).
  { induction tags as [| tag tags IH]; intros g; [reflexivity |].
    cbn [imap map fst snd]. f_equal.
    exact (IH (fun i => g (S i))). }
  intros tags g. exact (H tags (fun i => i)).
Qed.

(** X19: in the room of a replay whose game has tags, [chatTags] sends
    the header and then one line per tag to the command's room; the lines
    are numbered from 1, each tag of the game appears exactly as often as
    the database returned it, and the tags are in increasing order.
    Nothing else is done and no state changes. *)
Theorem chatTags_lists_sorted_tags (s : Session.t) (d : ChatCommand.t) (tb : Table.t)
    (tags : list string) (w : World) :
  ChatCommand.Room d <> "lobby" ->
  Table.Replay tb = true ->
  GameTags_GetAll (DatabaseID tb) = inl tags ->
  tags <> [] ->
  exists sorted,
    run (chatTags s d (Some tb)) w
    = Done tt w
        (ChatServerSend "The list of tags for this game are as follows:" (ChatCommand.Room d)
         :: imap (fun i tag =>
                    ChatServerSend (Itoa (Z.of_nat i + 1) +:+ ") " +:+ tag) (ChatCommand.Room d))
                 sorted)
    /\ Sorted string_le sorted
    /\ sorted ≡ₚ tags.
Proof.
  intros Hroom Hrep Htags Hne.
  exists (sort_Strings tags).
  split; [| split; [apply (Sorted_merge_sort string_le) | apply merge_sort_Permutation]].
  unfold chatTags. apply String.eqb_neq in Hroom. rewrite Hroom, Hrep, Htags. cbn [negb].
  destruct tags as [| tag tags]; [contradiction |]. cbn [length Nat.eqb].
  unfold chatServerSend at 1. run_simpl. rewrite run_list_tags. reflexivity.
Qed.

(** Writing to a session is no chat message. *)
Lemma chat_sends_Error (s : Session.t) (message : string) : chat_sends (Error s message) = [].
Proof.
  unfold Error, Emit. cbn [chat_sends omap].
  destruct (Session.Conn s) as [c |]; [| reflexivity].
  destruct (json_Marshal _) as [b | e]; [| reflexivity].
  destruct (WriteMessage _ _ _); reflexivity.
Qed.

Lemma chat_sends_cons (msg room : string) (tr : list Event) :
  chat_sends (ChatServerSend msg room :: tr) = (msg, room) :: chat_sends tr.
Proof. reflexivity. Qed.

Lemma chat_sends_numbered (f : nat -> string -> string) (room : string) (l : list string) :
  chat_sends (imap (fun i tag => ChatServerSend (f i tag) room) l)
  = imap (fun i tag => (f i tag, room)) l.
Proof.
  revert f. induction l as [| x l IH]; intros f; [reflexivity |].
  cbn [imap]. rewrite chat_sends_cons. f_equal. exact (IH (fun i => f (S i))).
Qed.

(** X20: how many chat messages [chatTags] sends from the room of a
    replay: none when the lookup of the tags fails (the failure is logged
    and the session is sent the default error message instead), one when
    the game has no tags, and one more than the number of tags otherwise;
    all of them go to the command's room. *)
Theorem chatTags_message_count (s : Session.t) (d : ChatCommand.t) (tb : Table.t) (w : World) :
  ChatCommand.Room d <> "lobby" ->
  Table.Replay tb = true ->
  exists tr,
    run (chatTags s d (Some tb)) w = Done tt w tr
    /\ length (chat_sends tr)
       = match GameTags_GetAll (DatabaseID tb) with
         | inr _ => 0%nat
         | inl tags => S (length tags)
         end
    /\ Forall (fun m => m.2 = ChatCommand.Room d) (chat_sends tr)
    /\ (forall err, GameTags_GetAll (DatabaseID tb) = inr err ->
        exists msg, tr = LogError msg (Some err) :: Error s DefaultErrorMsg).
Proof.
  intros Hroom Hrep.
  unfold chatTags. apply String.eqb_neq in Hroom. rewrite Hroom, Hrep. cbn [negb].
  destruct (GameTags_GetAll (DatabaseID tb)) as [tags | err].
  - destruct tags as [| tag tags]; cbn [length Nat.eqb].
    + eexists. split; [apply run_emit |]. simpl. split; [reflexivity |].
      split; [repeat constructor | discriminate].
    + unfold chatServerSend at 1. run_simpl. rewrite run_list_tags. cbn [prepend].
      eexists. split; [reflexivity |].
      cbn [app]. rewrite chat_sends_cons, chat_sends_numbered.
      split; [cbn [length]; rewrite length_imap; unfold sort_Strings;
              rewrite (Permutation_length (merge_sort_Permutation string_le (tag :: tags)));
              reflexivity |].
      split; [| discriminate].
      constructor; [reflexivity |].
      apply Forall_forall. intros m Hm.
      apply elem_of_lookup_imap_1 in Hm. destruct Hm as (i & x & -> & _). reflexivity.
  - unfold logger_Error. run_simpl.
    set (msg := "Failed to get the tags for game ID " +:+ Itoa (DatabaseID tb) +:+ ":").
    exists (LogError msg (Some err) :: Error s DefaultErrorMsg).
    assert (Hc : chat_sends (LogError msg (Some err) :: Error s DefaultErrorMsg) = [])
      by exact (chat_sends_Error s DefaultErrorMsg).
    split; [cbn [app]; rewrite !app_nil_r; reflexivity |].
    rewrite Hc. split; [reflexivity |]. split; [constructor |].
    intros e He. injection He as <-. exists msg. reflexivity.
Qed.

End MoreChat.

(** X19 at a sample input: the three tags of the sample game. *)
Lemma chatTags_lists_sorted_sample :
  exists sorted,
    run (chatTags alice (ChatCommand.mk "table3" []) (Some table_replay)) (sample_world [] [] 0 0)
    = Done tt (sample_world [] [] 0 0)
        (ChatServerSend "The list of tags for this game are as follows:" "table3"
         :: imap (fun i tag => ChatServerSend (Itoa (Z.of_nat i + 1) +:+ ") " +:+ tag) "table3")
                 sorted)
    /\ Sorted string_le sorted
    /\ sorted ≡ₚ ["win"; "clever"; "bluff"].
Proof.
  apply (chatTags_lists_sorted_tags alice (ChatCommand.mk "table3" []) table_replay
           ["win"; "clever"; "bluff"] (sample_world [] [] 0 0));
    [discriminate | reflexivity | reflexivity | discriminate].
Defined.

(** X20 at a sample input. *)
Lemma chatTags_message_count_sample :
  exists tr,
    run (chatTags alice (ChatCommand.mk "table3" []) (Some table_replay)) (sample_world [] [] 0 0)
    = Done tt (sample_world [] [] 0 0) tr
    /\ length (chat_sends tr) = 4%nat.
Proof.
  destruct (chatTags_message_count alice (ChatCommand.mk "table3" []) table_replay
              (sample_world [] [] 0 0)) as (tr & Hrun & Hlen & _);
    [discriminate | reflexivity |].
  exists tr. split; [exact Hrun | exact Hlen].
Defined.
